(** * ProvidersService: paged queries over hosting providers

    A shallow embedding of [src/plus/providers/providersService.ts]:
    the cursor codec ([JSON.parse] / [JSON.stringify] on the composite
    cursor), the three facade operations with their validation, identity
    resolution and filter translation, and the per-unit fan-out with its
    merge of pages and cursors. *)

From Stdlib Require Import List NArith String Ascii Bool Arith Lia Permutation.
Import ListNotations.

(** ** Strings

    A JavaScript string is a sequence of UTF-16 code units.  A code unit is
    kept as an [N]; only comparisons and the four hexadecimal digits of an
    escape are ever computed from it. *)

Abbreviation codeunit := N (only parsing).
Abbreviation jstring := (list N) (only parsing).

Definition js (s : string) : jstring := map N_of_ascii (list_ascii_of_string s).

Fixpoint jstring_eqb (a b : jstring) : bool :=
  match a, b with
  | [], [] => true
  | x :: a', y :: b' => N.eqb x y && jstring_eqb a' b'
  | _, _ => false
  end.

(** ** JSON texts: the built-ins the service calls on the cursor *)

Module JSON.

Local Open Scope N_scope.
#[local] Set Warnings "-register-all".

(** A parsed JSON value.  A number keeps its lexeme: the service never
    computes with one.  An object keeps its members in source order. *)
Inductive json : Type :=
| JNull
| JBool (b : bool)
| JNum (lexeme : jstring)
| JStr (s : jstring)
| JArr (elems : list json)
| JObj (members : list (jstring * json)).

(** *** Serialisation *)

Definition hexDigit (d : N) : codeunit := if d <? 10 then 48 + d else 87 + d.

Definition hex4 (u : codeunit) : jstring :=
  [hexDigit (u / 4096); hexDigit ((u / 256) mod 16);
   hexDigit ((u / 16) mod 16); hexDigit (u mod 16)].

Definition isHighSurrogate (c : codeunit) : bool := (55296 <=? c) && (c <=? 56319).
Definition isLowSurrogate (c : codeunit) : bool := (56320 <=? c) && (c <=? 57343).
Definition isSurrogate (c : codeunit) : bool := (55296 <=? c) && (c <=? 57343).

(** One code unit of a quoted string: the short escapes, [\uXXXX] for the
    other control characters and for a surrogate that is not part of a pair,
    the code unit itself otherwise. *)
Definition escapeUnit (c : codeunit) : jstring :=
  if c =? 8 then [92; 98]
  else if c =? 9 then [92; 116]
  else if c =? 10 then [92; 110]
  else if c =? 12 then [92; 102]
  else if c =? 13 then [92; 114]
  else if c =? 34 then [92; 34]
  else if c =? 92 then [92; 92]
  else if (c <? 32) || isSurrogate c then 92 :: 117 :: hex4 c
  else [c].

Fixpoint quoteBody (s : jstring) : jstring :=
  match s with
  | [] => []
  | c :: r =>
      match r with
      | d :: r' =>
          if isHighSurrogate c && isLowSurrogate d
          then c :: d :: quoteBody r'
          else escapeUnit c ++ quoteBody r
      | [] => escapeUnit c
      end
  end.

Definition quote (s : jstring) : jstring := 34 :: quoteBody s ++ [34].

(** The items of an array or an object, separated by commas. *)
Fixpoint joinItems (l : list jstring) : jstring :=
  match l with
  | [] => []
  | x :: r => x ++ match r with [] => [] | _ => 44 :: joinItems r end
  end.

Fixpoint stringify (v : json) : jstring :=
  match v with
  | JNull => js "null"
  | JBool true => js "true"
  | JBool false => js "false"
  | JNum lexeme => lexeme
  | JStr s => quote s
  | JArr elems => 91 :: joinItems (map stringify elems) ++ [93]
  | JObj members =>
      123 :: joinItems (map (fun '(k, x) => quote k ++ 58 :: stringify x) members)
        ++ [125]
  end.

(** *** Parsing *)

Definition isWs (c : codeunit) : bool :=
  (c =? 32) || (c =? 9) || (c =? 10) || (c =? 13).

Fixpoint skipWs (s : jstring) : jstring :=
  match s with
  | c :: r => if isWs c then skipWs r else s
  | [] => []
  end.

Definition hexVal (c : codeunit) : option N :=
  if (48 <=? c) && (c <=? 57) then Some (c - 48)
  else if (97 <=? c) && (c <=? 102) then Some (c - 87)
  else if (65 <=? c) && (c <=? 70) then Some (c - 55)
  else None.

Definition unhex4 (a b c d : codeunit) : option codeunit :=
  match hexVal a, hexVal b, hexVal c, hexVal d with
  | Some x, Some y, Some z, Some w => Some (((x * 16 + y) * 16 + z) * 16 + w)
  | _, _, _, _ => None
  end.

Definition unescape (e : codeunit) : option codeunit :=
  if e =? 34 then Some 34
  else if e =? 92 then Some 92
  else if e =? 47 then Some 47
  else if e =? 98 then Some 8
  else if e =? 102 then Some 12
  else if e =? 110 then Some 10
  else if e =? 114 then Some 13
  else if e =? 116 then Some 9
  else None.

Definition consUnit (c : codeunit) (r : option (jstring * jstring))
  : option (jstring * jstring) :=
  match r with
  | Some (s, rest) => Some (c :: s, rest)
  | None => None
  end.

(** The characters of a string literal after its opening quote, up to and
    including the closing quote. *)
Fixpoint parseChars (s : jstring) : option (jstring * jstring) :=
  match s with
  | [] => None
  | c :: r =>
      if c =? 34 then Some ([], r)
      else if c =? 92 then
        match r with
        | [] => None
        | e :: r1 =>
            if e =? 117 then
              match r1 with
              | h1 :: h2 :: h3 :: h4 :: r2 =>
                  match unhex4 h1 h2 h3 h4 with
                  | Some u => consUnit u (parseChars r2)
                  | None => None
                  end
              | _ => None
              end
            else
              match unescape e with
              | Some u => consUnit u (parseChars r1)
              | None => None
              end
        end
      else if c <? 32 then None
      else consUnit c (parseChars r)
  end.

Definition isDigit (c : codeunit) : bool := (48 <=? c) && (c <=? 57).

Fixpoint spanDigits (s : jstring) : jstring * jstring :=
  match s with
  | c :: r =>
      if isDigit c then let (ds, rest) := spanDigits r in (c :: ds, rest)
      else ([], s)
  | [] => ([], [])
  end.

(** A number literal: an optional minus sign; a zero, or a non-zero digit
    followed by digits; an optional fraction (a point and one digit or
    more); an optional exponent (e or E, an optional sign, one digit or
    more). *)
Definition parseNumber (s : jstring) : option (jstring * jstring) :=
  let (sign, s1) :=
    match s with
    | c :: r => if c =? 45 then ([c], r) else ([], s)
    | [] => ([], s)
    end in
  let int :=
    match s1 with
    | c :: r =>
        if c =? 48 then Some ([c], r)
        else if isDigit c then let (ds, rest) := spanDigits r in Some (c :: ds, rest)
        else None
    | [] => None
    end in
  match int with
  | None => None
  | Some (ip, s2) =>
      let frac :=
        match s2 with
        | c :: r =>
            if c =? 46 then
              match spanDigits r with
              | ([], _) => None
              | (ds, rest) => Some (c :: ds, rest)
              end
            else Some ([], s2)
        | [] => Some ([], s2)
        end in
      match frac with
      | None => None
      | Some (fp, s3) =>
          let expo :=
            match s3 with
            | c :: r =>
                if (c =? 101) || (c =? 69) then
                  let (sg, r') :=
                    match r with
                    | g :: t => if (g =? 43) || (g =? 45) then ([g], t) else ([], r)
                    | [] => ([], r)
                    end in
                  match spanDigits r' with
                  | ([], _) => None
                  | (ds, rest) => Some (c :: sg ++ ds, rest)
                  end
                else Some ([], s3)
            | [] => Some ([], s3)
            end in
          match expo with
          | None => None
          | Some (ep, s4) => Some (sign ++ ip ++ fp ++ ep, s4)
          end
      end
  end.

Fixpoint stripPrefix (p s : jstring) : option jstring :=
  match p, s with
  | [], _ => Some s
  | a :: p', b :: s' => if a =? b then stripPrefix p' s' else None
  | _ :: _, [] => None
  end.

(** Recursive descent over [value], [elements] and [members].  Every call
    spends one unit of [fuel]; [parse] below supplies enough of it. *)
Fixpoint parseValue (fuel : nat) (s : jstring) : option (json * jstring) :=
  match fuel with
  | O => None
  | S f =>
      match skipWs s with
      | [] => None
      | c :: r =>
          if c =? 34 then
            match parseChars r with
            | Some (str, rest) => Some (JStr str, rest)
            | None => None
            end
          else if c =? 91 then
            match skipWs r with
            | d :: r' =>
                if d =? 93 then Some (JArr [], r')
                else match parseElements f r with
                     | Some (l, rest) => Some (JArr l, rest)
                     | None => None
                     end
            | [] => None
            end
          else if c =? 123 then
            match skipWs r with
            | d :: r' =>
                if d =? 125 then Some (JObj [], r')
                else match parseMembers f r with
                     | Some (l, rest) => Some (JObj l, rest)
                     | None => None
                     end
            | [] => None
            end
          else if c =? 110 then
            match stripPrefix (js "null") (c :: r) with
            | Some rest => Some (JNull, rest)
            | None => None
            end
          else if c =? 116 then
            match stripPrefix (js "true") (c :: r) with
            | Some rest => Some (JBool true, rest)
            | None => None
            end
          else if c =? 102 then
            match stripPrefix (js "false") (c :: r) with
            | Some rest => Some (JBool false, rest)
            | None => None
            end
          else
            match parseNumber (c :: r) with
            | Some (lexeme, rest) => Some (JNum lexeme, rest)
            | None => None
            end
      end
  end

with parseElements (fuel : nat) (s : jstring) : option (list json * jstring) :=
  match fuel with
  | O => None
  | S f =>
      match parseValue f s with
      | None => None
      | Some (v, r) =>
          match skipWs r with
          | d :: r' =>
              if d =? 93 then Some ([v], r')
              else if d =? 44 then
                match parseElements f r' with
                | Some (l, rest) => Some (v :: l, rest)
                | None => None
                end
              else None
          | [] => None
          end
      end
  end

with parseMembers (fuel : nat) (s : jstring)
  : option (list (jstring * json) * jstring) :=
  match fuel with
  | O => None
  | S f =>
      match skipWs s with
      | q :: r0 =>
          if q =? 34 then
            match parseChars r0 with
            | None => None
            | Some (k, r1) =>
                match skipWs r1 with
                | c :: r2 =>
                    if c =? 58 then
                      match parseValue f r2 with
                      | None => None
                      | Some (v, r) =>
                          match skipWs r with
                          | d :: r' =>
                              if d =? 125 then Some ([(k, v)], r')
                              else if d =? 44 then
                                match parseMembers f r' with
                                | Some (l, rest) => Some ((k, v) :: l, rest)
                                | None => None
                                end
                              else None
                          | [] => None
                          end
                      end
                    else None
                | [] => None
                end
            end
          else None
      | [] => None
      end
  end.

(** [JSON.parse]: one value, surrounded by optional white space, and nothing
    else.  [None] is the [SyntaxError] the built-in throws. *)
Definition parse (s : jstring) : option json :=
  match parseValue (2 * List.length s + 1)%nat s with
  | Some (v, rest) => match skipWs rest with [] => Some v | _ => None end
  | None => None
  end.

End JSON.

Import JSON.

(** ** Data model

    [models.ts] and [gitProvider.ts] are not part of the sources; what the
    service imports from them is declared here, shaped by the way the
    service uses it. *)

(** Modelled from the spec: [ProviderId] of models.ts, the enumeration of
    the hosting providers.  The service tells [GitLab], [Bitbucket] and
    [AzureDevOps] apart; every other member behaves alike. *)
Inductive ProviderId : Type :=
| GitHub | GitHubEnterprise | GitLab | GitLabSelfHosted
| Bitbucket | Jira | Trello | AzureDevOps.

Definition ProviderId_eqb (a b : ProviderId) : bool :=
  match a, b with
  | GitHub, GitHub | GitHubEnterprise, GitHubEnterprise | GitLab, GitLab
  | GitLabSelfHosted, GitLabSelfHosted | Bitbucket, Bitbucket | Jira, Jira
  | Trello, Trello | AzureDevOps, AzureDevOps => true
  | _, _ => false
  end.

(** Modelled from the spec: [PagingMode] of models.ts.  [Repo] is paging
    per repository; the service compares with no other member. *)
Inductive PagingMode : Type := Project | Repo | Repos.

Definition PagingMode_eqb (a b : PagingMode) : bool :=
  match a, b with
  | Project, Project | Repo, Repo | Repos, Repos => true
  | _, _ => false
  end.

(** Modelled from the spec: [PullRequestFilter] and [IssueFilter] of
    models.ts; review-requested exists for pull requests only. *)
Inductive PullRequestFilter : Type :=
| PrAuthor | PrAssignee | PrReviewRequested | PrMention.

Inductive IssueFilter : Type := IsAuthor | IsAssignee | IsMention.

Definition PullRequestFilter_eqb (a b : PullRequestFilter) : bool :=
  match a, b with
  | PrAuthor, PrAuthor | PrAssignee, PrAssignee
  | PrReviewRequested, PrReviewRequested | PrMention, PrMention => true
  | _, _ => false
  end.

Definition IssueFilter_eqb (a b : IssueFilter) : bool :=
  match a, b with
  | IsAuthor, IsAuthor | IsAssignee, IsAssignee | IsMention, IsMention => true
  | _, _ => false
  end.

(** [filters.includes(f)] *)
Definition includes {A} (eqb : A -> A -> bool) (l : list A) (x : A) : bool :=
  existsb (eqb x) l.

(** Modelled from the spec: [ProviderRepoInput] of models.ts, the
    descriptor of a repository; [namespace] and [name] are strings,
    [project] is optional. *)
Module ProviderRepoInput.
Record t : Type := mk { namespace : jstring; name : jstring; project : option jstring }.
End ProviderRepoInput.

(** Modelled from the spec: [ProviderReposInput] of models.ts, a sequence
    of repository ids or a sequence of repository descriptors. *)
Inductive ProviderReposInput : Type :=
| RepoIdsInput (ids : list jstring)
| RepoInputs (repos : list ProviderRepoInput.t).

(** [reposOrRepoIds as ProviderRepoInput[]]: the casts are only reached
    with the descriptor form or with an array without elements. *)
Definition asRepoInputs (input : ProviderReposInput) : list ProviderRepoInput.t :=
  match input with RepoInputs l => l | RepoIdsInput _ => [] end.

(** Modelled from the spec: [PagedRepoInput] and [PagedProjectInput] of
    models.ts, the entries of a composite cursor: a unit and its cursor. *)
Module PagedRepoInput.
Record t : Type := mk { repo : ProviderRepoInput.t; cursor : option jstring }.
End PagedRepoInput.

Module PagedProjectInput.
Record t : Type := mk { namespace : jstring; project : jstring; cursor : option jstring }.
End PagedProjectInput.

(** Modelled from the spec: [ProviderAccount] of models.ts, the identity of
    the current user; each property may be [null]. *)
Module ProviderAccount.
Record t : Type := mk { id : option jstring; name : option jstring; username : option jstring }.
End ProviderAccount.

(** Modelled from the spec: [PagedResult] of gitProvider.ts, a page of
    values with its optional [paging] part. *)
Module Paging.
Record t : Type := mk { more : bool; cursor : option jstring }.
End Paging.

Module PagedResult.
Record t (T : Type) : Type := mk { values : list T; paging : option Paging.t }.
Arguments mk {T} _ _.
Arguments values {T} _.
Arguments paging {T} _.
End PagedResult.

(** Modelled from the spec: [GetPullRequestsOptions] and [GetIssuesOptions]
    of models.ts, the options of a transport query: the identity filters and
    the cursor, each optional. *)
Module GetPullRequestsOptions.
Record t : Type := mk {
  authorLogin : option jstring;
  assigneeLogins : option (list jstring);
  reviewRequestedLogin : option jstring;
  mentionLogin : option jstring;
  cursor : option jstring }.
End GetPullRequestsOptions.

Module GetIssuesOptions.
Record t : Type := mk {
  authorLogin : option jstring;
  assigneeLogins : option (list jstring);
  mentionLogin : option jstring;
  cursor : option jstring }.
End GetIssuesOptions.

(** The [options] argument of the two query operations. *)
Module QueryOptions.
Record t (F : Type) : Type := mk { filters : option (list F); cursor : option jstring }.
Arguments mk {F} _ _.
Arguments filters {F} _.
Arguments cursor {F} _.
End QueryOptions.

(** [options?.filters] and [options?.cursor] *)
Definition optFilters {F} (options : option (QueryOptions.t F)) : option (list F) :=
  match options with Some o => QueryOptions.filters o | None => None end.

Definition optCursor {F} (options : option (QueryOptions.t F)) : option jstring :=
  match options with Some o => QueryOptions.cursor o | None => None end.

(** [{ ...getPullRequestsOptions, cursor: c }] *)
Definition spreadPullRequestsOptions (o : option GetPullRequestsOptions.t)
  (c : option jstring) : GetPullRequestsOptions.t :=
  match o with
  | Some o =>
      GetPullRequestsOptions.mk (GetPullRequestsOptions.authorLogin o)
        (GetPullRequestsOptions.assigneeLogins o)
        (GetPullRequestsOptions.reviewRequestedLogin o)
        (GetPullRequestsOptions.mentionLogin o) c
  | None => GetPullRequestsOptions.mk None None None None c
  end.

(** [{ ...getIssuesOptions, cursor: c }] *)
Definition spreadIssuesOptions (o : option GetIssuesOptions.t)
  (c : option jstring) : GetIssuesOptions.t :=
  match o with
  | Some o =>
      GetIssuesOptions.mk (GetIssuesOptions.authorLogin o)
        (GetIssuesOptions.assigneeLogins o) (GetIssuesOptions.mentionLogin o) c
  | None => GetIssuesOptions.mk None None None c
  end.

(** ** Effects

    A promise of a collaborator either resolves or rejects. *)
Inductive Resp (A : Type) : Type :=
| Resolve (a : A)
| Reject.
Arguments Resolve {A} _.
Arguments Reject {A}.

(** The calls that leave the service, in the order they are issued. *)
Inductive Event : Type :=
| EvGetSession (p : ProviderId)
| EvGetCurrentUser (p : ProviderId)
| EvGetCurrentUserForInstance (p : ProviderId) (organization : jstring)
| EvGetPullRequestsForRepo (p : ProviderId) (repo : ProviderRepoInput.t)
    (o : GetPullRequestsOptions.t)
| EvGetPullRequestsForRepos (p : ProviderId) (input : ProviderReposInput)
    (o : GetPullRequestsOptions.t)
| EvGetIssuesForRepo (p : ProviderId) (repo : ProviderRepoInput.t)
    (o : GetIssuesOptions.t)
| EvGetIssuesForAzureProject (namespace project : jstring) (o : GetIssuesOptions.t)
| EvGetIssuesForRepos (p : ProviderId) (input : ProviderReposInput)
    (o : GetIssuesOptions.t)
| EvGetReposForAzureProject (namespace project : jstring) (cursor : option jstring).

(** The session check goes to the authentication service; every other event
    is a call of the provider transport. *)
Definition isTransportCall (e : Event) : bool :=
  match e with EvGetSession _ => false | _ => true end.

Definition isIdentityCall (e : Event) : bool :=
  match e with
  | EvGetCurrentUser _ | EvGetCurrentUserForInstance _ _ => true
  | _ => false
  end.

Definition isQueryCall (e : Event) : bool :=
  match e with
  | EvGetPullRequestsForRepo _ _ _ | EvGetPullRequestsForRepos _ _ _
  | EvGetIssuesForRepo _ _ _ | EvGetIssuesForAzureProject _ _ _
  | EvGetIssuesForRepos _ _ _ => true
  | _ => false
  end.

(** What is logged before the service gives up with [undefined].  The
    [catch] of a paging stage logs the exception it caught: the rejection
    of a provider call ([ProviderCallFailed]), or the [TypeError] raised
    while the entries of the caller's cursor are used ([CursorUnusable]). *)
Inductive Failure : Type :=
| SessionUnavailable
| UnsupportedInput
| UnsupportedFilter
| MultipleOrganizationsNotSupported
| NoOrganization
| IdentityUnavailable
| IdentityFieldMissing
| ProviderCallFailed
| CursorUnusable.

Inductive Exn : Type := SyntaxError | TypeError | SessionError.

(** How a facade operation ends: its promise resolves with a page, resolves
    with [undefined], or rejects.  [Untyped] is where the model stops: the
    caller's cursor would make the service hand the provider a value that
    is not of the declared type, or has a [length] whose number is not
    computed (see [decodeCursors]). *)
Inductive Outcome (T : Type) : Type :=
| Returned (r : PagedResult.t T)
| Undefined (why : Failure)
| Rejected (e : Exn)
| Untyped.
Arguments Returned {T} _.
Arguments Undefined {T} _.
Arguments Rejected {T} _.
Arguments Untyped {T}.

(** A computation logs its calls and either goes on with a value or leaves
    the operation with its final outcome ([return] or an uncaught throw). *)
Inductive Step (R A : Type) : Type :=
| Next (a : A)
| Exit (r : R).
Arguments Next {R A} _.
Arguments Exit {R A} _.

Definition Op (R A : Type) : Type := (list Event * Step R A)%type.

Definition ret {R A} (a : A) : Op R A := ([], Next a).
Definition exit {R A} (r : R) : Op R A := ([], Exit r).

Definition bind {R A B} (m : Op R A) (k : A -> Op R B) : Op R B :=
  match m with
  | (t, Next a) => let (t', s) := k a in (t ++ t', s)
  | (t, Exit r) => (t, Exit r)
  end.

(** [await] a collaborator: on rejection the operation ends with
    [onReject], the value of the enclosing [catch], or the rejection
    itself where there is none. *)
Definition await {R A} (e : Event) (r : Resp A) (onReject : R) : Op R A :=
  match r with
  | Resolve a => ([e], Next a)
  | Reject => ([e], Exit onReject)
  end.

Definition run {R} (m : Op R R) : list Event * R :=
  match m with
  | (t, Next r) => (t, r)
  | (t, Exit r) => (t, r)
  end.

Declare Scope op_scope.
Delimit Scope op_scope with op.
Notation "x <- m ;; k" := (bind m (fun x => k))
  (at level 61, m at next level, right associativity) : op_scope.

(** ** The composite cursor

    [{ cursors: [...] }] as the service builds it before [JSON.stringify]
    and reads it after [JSON.parse]. *)

(** A property read on a parsed object: the last member of that name. *)
Fixpoint field (k : jstring) (m : list (jstring * json)) : option json :=
  match m with
  | [] => None
  | (k', v) :: r =>
      match field k r with
      | Some w => Some w
      | None => if jstring_eqb k k' then Some v else None
      end
  end.

(** A property whose value is [undefined] is left out of the text. *)
Definition optMember (k : jstring) (v : option jstring) : list (jstring * json) :=
  match v with Some s => [(k, JStr s)] | None => [] end.

(** A descriptor as an object.  [JSON.stringify] writes the properties of
    the caller's object in the order that object has them, with any further
    property it may have; a record keeps neither.  The text written here is
    the one for an object with the declared properties in the order
    namespace, name, project.  Reading ([repoInputOfJson]) looks a property
    up by its name, in any order and among any further members, so what is
    read back from a cursor does not depend on this choice. *)
Definition repoInputToJson (r : ProviderRepoInput.t) : json :=
  JObj ([(js "namespace", JStr (ProviderRepoInput.namespace r));
         (js "name", JStr (ProviderRepoInput.name r))]
          ++ optMember (js "project") (ProviderRepoInput.project r)).

(** [{ repo: ..., cursor: ... }] *)
Definition pagedRepoInputToJson (e : PagedRepoInput.t) : json :=
  JObj ((js "repo", repoInputToJson (PagedRepoInput.repo e))
          :: optMember (js "cursor") (PagedRepoInput.cursor e)).

(** [{ namespace: ..., project: ..., cursor: ... }] *)
Definition pagedProjectInputToJson (e : PagedProjectInput.t) : json :=
  JObj ([(js "namespace", JStr (PagedProjectInput.namespace e));
         (js "project", JStr (PagedProjectInput.project e))]
          ++ optMember (js "cursor") (PagedProjectInput.cursor e)).

(** [JSON.stringify(cursor)] for [cursor = { cursors }] *)
Definition encodeCursors {U} (toJson : U -> json) (cursors : list U) : jstring :=
  stringify (JObj [(js "cursors", JArr (map toJson cursors))]).

(** Reading the parsed value at the declared types.  The service reads an
    entry by its properties ([repoInput.repo], [repoInput.cursor]) and hands
    them on; an object counts as a value of a record type when each
    property of the record has the declared type.  Further members are not
    read by the service. *)
Definition optString (k : jstring) (m : list (jstring * json))
  : option (option jstring) :=
  match field k m with
  | None => Some None
  | Some (JStr s) => Some (Some s)
  | Some _ => None
  end.

Definition repoInputOfJson (j : json) : option ProviderRepoInput.t :=
  match j with
  | JObj m =>
      match field (js "namespace") m, field (js "name") m,
            optString (js "project") m with
      | Some (JStr ns), Some (JStr n), Some p => Some (ProviderRepoInput.mk ns n p)
      | _, _, _ => None
      end
  | _ => None
  end.

Definition pagedRepoInputOfJson (j : json) : option PagedRepoInput.t :=
  match j with
  | JObj m =>
      match field (js "repo") m, optString (js "cursor") m with
      | Some r, Some c =>
          match repoInputOfJson r with
          | Some repo => Some (PagedRepoInput.mk repo c)
          | None => None
          end
      | _, _ => None
      end
  | _ => None
  end.

Definition pagedProjectInputOfJson (j : json) : option PagedProjectInput.t :=
  match j with
  | JObj m =>
      match field (js "namespace") m, field (js "project") m,
            optString (js "cursor") m with
      | Some (JStr ns), Some (JStr p), Some c => Some (PagedProjectInput.mk ns p c)
      | _, _, _ => None
      end
  | _ => None
  end.

Fixpoint mapM {A B} (f : A -> option B) (l : list A) : option (list B) :=
  match l with
  | [] => Some []
  | a :: r =>
      match f a, mapM f r with
      | Some b, Some bs => Some (b :: bs)
      | _, _ => None
      end
  end.

(** An element of the [cursors] array as the callback of [map] meets it:
    [null], on which reading [.repo] (or [.namespace]) throws inside the
    callback before any call is made; an entry of the declared type; or
    anything else ([None]). *)
Definition readEntry {U} (ofJson : json -> option U) (j : json) : option (option U) :=
  match j with
  | JNull => Some None
  | _ => match ofJson j with
         | Some u => Some (Some u)
         | None => None
         end
  end.

(** The entries that are not [null]. *)
Definition present {U} (entries : list (option U)) : list U :=
  flat_map (fun e => match e with Some u => [u] | None => [] end) entries.

(** [cursors.length > 0] where [length] is a member of a parsed object: the
    value is converted to a number and compared.  [null] converts to 0,
    [true] to 1, [false] and the empty string to 0, an integer literal to
    its value, an object to a string that is no number.  The conversion of
    an object goes through its [toString], and that of an array through the
    [toString] of its elements; a member named [toString] of a parsed
    object is no function, and the conversion then throws.  What a
    fraction, an exponent, a string with characters or an array converts to
    is not computed here. *)
Inductive Compared : Type := IsPositive | NotPositive | ConversionThrows | NotComputed.

(** The conversion of an array element to a string throws. *)
Fixpoint joinThrows (v : json) : bool :=
  match v with
  | JObj m => match field (js "toString") m with Some _ => true | None => false end
  | JArr l => existsb joinThrows l
  | _ => false
  end.

(** A number literal: [-] makes it negative or zero; a literal of digits
    only is above zero when one of them is not [0]. *)
Definition integerAboveZero (lexeme : jstring) : Compared :=
  if match lexeme with c :: _ => (c =? 45)%N | [] => false end then NotPositive
  else if forallb (fun c => (48 <=? c)%N && (c <=? 57)%N) lexeme
  then if existsb (fun c => negb (c =? 48)%N) lexeme then IsPositive else NotPositive
  else NotComputed.

Definition lengthAboveZero (length : json) : Compared :=
  match length with
  | JNull => NotPositive
  | JBool b => if b then IsPositive else NotPositive
  | JNum lexeme => integerAboveZero lexeme
  | JStr [] => NotPositive
  | JStr (_ :: _) => NotComputed
  | JArr l => if existsb joinThrows l then ConversionThrows else NotComputed
  | JObj m =>
      match field (js "toString") m with
      | Some _ => ConversionThrows
      | None => NotPositive
      end
  end.

(** What the service gets out of the caller's cursor (lines 134-139,
    254-263, 334-339):
    - [DecThrows]: [JSON.parse], reading [.cursors] or the comparison of
      [cursors.length] throws, outside [try];
    - [DecCursors cursors]: [cursors] is an array of entries of the
      declared type; it is used when it has an element, the input
      otherwise.  [cursors] without a [length] above zero (absent, [null],
      a number, a boolean, the empty string, an object without [length] or
      with one that is not above zero) gives no entries;
    - [DecBroken entries]: [cursors.length > 0] holds and the units are
      taken from [cursors], but running through them throws inside [try]:
      some elements of the array are [null] ([entries] has the elements in
      order, [None] for [null]), or [cursors] is not an array and has no
      [map] (no element);
    - [DecUntyped]: an element that is neither [null] nor an entry of the
      declared type, for which the provider would be called with a value
      that is not of its declared type; or a [length] whose number is not
      computed. *)
Inductive Decoded (U : Type) : Type :=
| DecThrows (e : Exn)
| DecCursors (cursors : list U)
| DecUntyped
| DecBroken (entries : list (option U)).
Arguments DecThrows {U} _.
Arguments DecCursors {U} _.
Arguments DecUntyped {U}.
Arguments DecBroken {U} _.

(** [const cursorInfo = JSON.parse(options?.cursor ?? '{}');
     const cursors = cursorInfo.cursors ?? [];
     if (cursors.length > 0) { inputs = cursors; }]

    [JSON.parse] throws on a text that is not JSON; reading [.cursors] of
    [null] throws; on any other value that is not an object the property is
    [undefined].  [cursors.length] is the number of elements of an array,
    the number of code units of a string, the member [length] of an object
    and [undefined] otherwise; [undefined > 0] is false. *)
Definition decodeCursors {U} (ofJson : json -> option U) (cursor : option jstring)
  : Decoded U :=
  match parse (match cursor with Some s => s | None => js "{}" end) with
  | None => DecThrows SyntaxError
  | Some JNull => DecThrows TypeError
  | Some (JObj m) =>
      match field (js "cursors") m with
      | None | Some JNull => DecCursors []
      | Some (JArr l) =>
          match mapM ofJson l with
          | Some cursors => DecCursors cursors
          | None =>
              match mapM (readEntry ofJson) l with
              | Some entries => DecBroken entries
              | None => DecUntyped
              end
          end
      | Some (JStr []) => DecCursors []
      | Some (JStr (_ :: _)) => DecBroken []
      | Some (JBool _) | Some (JNum _) => DecCursors []
      | Some (JObj c) =>
          match field (js "length") c with
          | None => DecCursors []
          | Some length =>
              match lengthAboveZero length with
              | NotPositive => DecCursors []
              | IsPositive => DecBroken []
              | ConversionThrows => DecThrows TypeError
              | NotComputed => DecUntyped
              end
          end
      end
  | Some _ => DecCursors []
  end.

(** ** Collaborators ([providersApi.ts], the container)

    The transport, the identity lookup and the session store are given by
    the environment.  A call is answered by its arguments. *)
Module ProvidersApi.
Record t (PR Issue Repository : Type) : Type := mk {
  (* [integrationAuthentication.getSession(...)]: whether a session came back *)
  getSession : ProviderId -> Resp bool;
  (* what [isRepoIdsInput] answers on an array without elements *)
  emptyInputIsRepoIds : bool;
  supportedPullRequestFilters : ProviderId -> list PullRequestFilter;
  supportedIssueFilters : ProviderId -> list IssueFilter;
  getProviderPullRequestsPagingMode : ProviderId -> PagingMode;
  getProviderIssuesPagingMode : ProviderId -> PagingMode;
  getCurrentUser : ProviderId -> Resp (option ProviderAccount.t);
  getCurrentUserForInstance : ProviderId -> jstring -> Resp (option ProviderAccount.t);
  getPullRequestsForRepo :
    ProviderId -> ProviderRepoInput.t -> GetPullRequestsOptions.t -> Resp (PagedResult.t PR);
  getPullRequestsForRepos :
    ProviderId -> ProviderReposInput -> GetPullRequestsOptions.t -> Resp (PagedResult.t PR);
  getIssuesForRepo :
    ProviderId -> ProviderRepoInput.t -> GetIssuesOptions.t -> Resp (PagedResult.t Issue);
  getIssuesForAzureProject :
    jstring -> jstring -> GetIssuesOptions.t -> Resp (PagedResult.t Issue);
  getIssuesForRepos :
    ProviderId -> ProviderReposInput -> GetIssuesOptions.t -> Resp (PagedResult.t Issue);
  getReposForAzureProject :
    jstring -> jstring -> option jstring -> Resp (PagedResult.t Repository) }.
Arguments getSession {PR Issue Repository} _ _.
Arguments emptyInputIsRepoIds {PR Issue Repository} _.
Arguments supportedPullRequestFilters {PR Issue Repository} _ _.
Arguments supportedIssueFilters {PR Issue Repository} _ _.
Arguments getProviderPullRequestsPagingMode {PR Issue Repository} _ _.
Arguments getProviderIssuesPagingMode {PR Issue Repository} _ _.
Arguments getCurrentUser {PR Issue Repository} _ _.
Arguments getCurrentUserForInstance {PR Issue Repository} _ _ _.
Arguments getPullRequestsForRepo {PR Issue Repository} _ _ _ _.
Arguments getPullRequestsForRepos {PR Issue Repository} _ _ _ _.
Arguments getIssuesForRepo {PR Issue Repository} _ _ _ _.
Arguments getIssuesForAzureProject {PR Issue Repository} _ _ _ _.
Arguments getIssuesForRepos {PR Issue Repository} _ _ _ _.
Arguments getReposForAzureProject {PR Issue Repository} _ _ _ _.

(** Modelled from the spec: [isRepoIdsInput] is defined in providersApi.ts,
    which is not part of the sources; it is the type guard that tells the
    id form of the input from the descriptor form.  An array without
    elements is the same value in both forms: the answer there is the
    environment's. *)
Definition isRepoIdsInput {PR Issue Repository} (api : t PR Issue Repository)
  (input : ProviderReposInput) : bool :=
  match input with
  | RepoIdsInput (_ :: _) => true
  | RepoInputs (_ :: _) => false
  | _ => emptyInputIsRepoIds api
  end.

(** Modelled from the spec: [providerSupportsPullRequestFilters] and
    [providerSupportsIssueFilters] are defined in providersApi.ts, which is
    not part of the sources; every requested filter is looked up in the
    provider's set of supported filters. *)
Definition providerSupportsPullRequestFilters {PR Issue Repository}
  (api : t PR Issue Repository) (p : ProviderId) (filters : list PullRequestFilter)
  : bool :=
  forallb (includes PullRequestFilter_eqb (supportedPullRequestFilters api p)) filters.

Definition providerSupportsIssueFilters {PR Issue Repository}
  (api : t PR Issue Repository) (p : ProviderId) (filters : list IssueFilter) : bool :=
  forallb (includes IssueFilter_eqb (supportedIssueFilters api p)) filters.
End ProvidersApi.

(** ** The per-unit fan-out

    [await Promise.all(inputs.map(async input => { ... }))] inside [try]:
    every call is issued at once, in unit order; the body after each
    [await] runs when that call settles.  [order] lists the unit indices in
    the order their calls settle (each call settles once, so it is a
    permutation of the indices).  The first rejection rejects [Promise.all]
    and the [catch] returns [undefined]. *)
(** [let inputs = fresh; if (cursors.length > 0) { inputs = cursors; }] *)
Definition resumeOr {U} (cursors fresh : list U) : list U :=
  if 0 <? List.length cursors then cursors else fresh.

(** The units in the order their calls settle. *)
Definition completion {A} (order : list nat) (inputs : list A) : list A :=
  flat_map (fun i => match nth_error inputs i with
                     | Some u => [u]
                     | None => []
                     end) order.

Section FanOut.
Context {U T : Type}.
Variable call : U -> Resp (PagedResult.t T).
Variable withCursor : U -> option jstring -> U.
Variable toJson : U -> json.

Definition settled (order : list nat) (inputs : list U)
  : list (U * Resp (PagedResult.t T)) :=
  map (fun u => (u, call u)) (completion order inputs).

(** The three accumulators [data], [cursor.cursors] and [hasMore], updated
    as the calls settle. *)
Fixpoint merge (s : list (U * Resp (PagedResult.t T)))
  (data : list T) (cursors : list U) (hasMore : bool)
  : option (list T * list U * bool) :=
  match s with
  | [] => Some (data, cursors, hasMore)
  | (_, Reject) :: _ => None
  | (u, Resolve results) :: rest =>
      let data := data ++ PagedResult.values results in
      match PagedResult.paging results with
      | Some pg =>
          if Paging.more pg
          then merge rest data (cursors ++ [withCursor u (Paging.cursor pg)]) true
          else merge rest data cursors hasMore
      | None => merge rest data cursors hasMore
      end
  end.

Definition fanOut (order : list nat) (inputs : list U) : Outcome T :=
  match merge (settled order inputs) [] [] false with
  | Some (data, cursors, hasMore) =>
      Returned (PagedResult.mk data
                  (Some (Paging.mk hasMore (Some (encodeCursors toJson cursors)))))
  | None => Undefined ProviderCallFailed
  end.

End FanOut.

(** ** ProvidersService *)

(** [Set<string>]: insertion order, no duplicates. *)
Definition setAdd (s : list jstring) (x : jstring) : list jstring :=
  if existsb (jstring_eqb x) s then s else s ++ [x].

Definition isSome {A} (o : option A) : bool :=
  match o with Some _ => true | None => false end.

Section Service.
Context {PR Issue Repository : Type}.
Variable api : ProvidersApi.t PR Issue Repository.

Local Open Scope op_scope.

(** [ensureSession]: the call is not inside a [try]. *)
Definition ensureSession {R} (rejected : R) (providerId : ProviderId) : Op R bool :=
  await (EvGetSession providerId) (ProvidersApi.getSession api providerId) rejected.

(** The input guard shared by the two query operations (lines 48-56 and
    192-200).  [repo.namespace] is a string, so only [repo.project] can be
    missing. *)
Definition unsupportedInput (providerId : ProviderId)
  (reposOrRepoIds : ProviderReposInput) : bool :=
  negb (ProviderId_eqb providerId GitLab)
  && (ProvidersApi.isRepoIdsInput api reposOrRepoIds
      || (ProviderId_eqb providerId AzureDevOps
          && negb (forallb (fun repo => isSome (ProviderRepoInput.project repo))
                     (asRepoInputs reposOrRepoIds)))).

(** The organizations of the input, in a [Set] (lines 67-70 and 204-209). *)
Definition organizationsOf (reposOrRepoIds : ProviderReposInput) : list jstring :=
  fold_left (fun organizations repo => setAdd organizations (ProviderRepoInput.namespace repo))
    (asRepoInputs reposOrRepoIds) [].

(** The projects of the input, in a [Set] (lines 205-209); the guard above
    has excluded a repository without project. *)
Definition projectsOf (reposOrRepoIds : ProviderReposInput) : list jstring :=
  fold_left (fun projects repo =>
               match ProviderRepoInput.project repo with
               | Some p => setAdd projects p
               | None => projects
               end)
    (asRepoInputs reposOrRepoIds) [].

(** *** getPullRequestsForRepos *)

(** Lines 120-127: a slot is filled, with the user's property, exactly when
    its filter was requested. *)
Definition pullRequestsOptionsOf (filters : list PullRequestFilter)
  (userFilterProperty : jstring) : GetPullRequestsOptions.t :=
  let has f := includes PullRequestFilter_eqb filters f in
  GetPullRequestsOptions.mk
    (if has PrAuthor then Some userFilterProperty else None)
    (if has PrAssignee then Some [userFilterProperty] else None)
    (if has PrReviewRequested then Some userFilterProperty else None)
    (if has PrMention then Some userFilterProperty else None)
    None.

(** Lines 58-128: the filter options, resolved from the current user. *)
Definition pullRequestsOptions (providerId : ProviderId)
  (reposOrRepoIds : ProviderReposInput) (filters : option (list PullRequestFilter))
  : Op (Outcome PR) (option GetPullRequestsOptions.t) :=
  match filters with
  | None => ret None
  | Some filters =>
      if negb (ProvidersApi.providerSupportsPullRequestFilters api providerId filters)
      then exit (Undefined UnsupportedFilter)
      else
        userAccount <-
          (if ProviderId_eqb providerId AzureDevOps then
             let organizations := organizationsOf reposOrRepoIds in
             if 1 <? List.length organizations
             then exit (Undefined MultipleOrganizationsNotSupported)
             else
               match organizations with
               | [] => exit (Undefined NoOrganization)
               | organization :: _ =>
                   await (EvGetCurrentUserForInstance providerId organization)
                     (ProvidersApi.getCurrentUserForInstance api providerId organization)
                     (Undefined IdentityUnavailable)
               end
           else
             await (EvGetCurrentUser providerId)
               (ProvidersApi.getCurrentUser api providerId)
               (Undefined IdentityUnavailable)) ;;
        match userAccount with
        | None => exit (Undefined IdentityUnavailable)
        | Some userAccount =>
            let userFilterProperty :=
              match providerId with
              | Bitbucket | AzureDevOps => ProviderAccount.id userAccount
              | _ => ProviderAccount.username userAccount
              end in
            match userFilterProperty with
            | None => exit (Undefined IdentityFieldMissing)
            | Some userFilterProperty =>
                ret (Some (pullRequestsOptionsOf filters userFilterProperty))
            end
        end
  end.

(** Lines 47-128: session, input guard, filter options. *)
Definition pullRequestsPrelude (providerId : ProviderId)
  (reposOrRepoIds : ProviderReposInput)
  (options : option (QueryOptions.t PullRequestFilter))
  : Op (Outcome PR) (option GetPullRequestsOptions.t) :=
  session <- ensureSession (Rejected SessionError) providerId ;;
  if negb session then exit (Undefined SessionUnavailable)
  else if unsupportedInput providerId reposOrRepoIds
  then exit (Undefined UnsupportedInput)
  else pullRequestsOptions providerId reposOrRepoIds (optFilters options).

Definition pullRequestsForRepoEvent (providerId : ProviderId)
  (o : option GetPullRequestsOptions.t) (repoInput : PagedRepoInput.t) : Event :=
  EvGetPullRequestsForRepo providerId (PagedRepoInput.repo repoInput)
    (spreadPullRequestsOptions o (PagedRepoInput.cursor repoInput)).

Definition pullRequestsForRepoCall (providerId : ProviderId)
  (o : option GetPullRequestsOptions.t) (repoInput : PagedRepoInput.t)
  : Resp (PagedResult.t PR) :=
  ProvidersApi.getPullRequestsForRepo api providerId (PagedRepoInput.repo repoInput)
    (spreadPullRequestsOptions o (PagedRepoInput.cursor repoInput)).

(** [{ repo: repoInput.repo, cursor: results.paging.cursor }] *)
Definition nextRepoInput (repoInput : PagedRepoInput.t) (cursor : option jstring)
  : PagedRepoInput.t :=
  PagedRepoInput.mk (PagedRepoInput.repo repoInput) cursor.

(** [reposOrRepoIds.map(repo => ({ repo: repo, cursor: undefined }))] *)
Definition freshRepoInputs (reposOrRepoIds : ProviderReposInput) : list PagedRepoInput.t :=
  map (fun repo => PagedRepoInput.mk repo None) (asRepoInputs reposOrRepoIds).

(** Lines 130-180: the fan-out over repositories, or the bulk call. *)
Definition pullRequestsPaging (order : list nat) (providerId : ProviderId)
  (reposOrRepoIds : ProviderReposInput)
  (options : option (QueryOptions.t PullRequestFilter))
  (getPullRequestsOptions : option GetPullRequestsOptions.t)
  : Op (Outcome PR) (Outcome PR) :=
  if PagingMode_eqb (ProvidersApi.getProviderPullRequestsPagingMode api providerId) Repo
     && negb (ProvidersApi.isRepoIdsInput api reposOrRepoIds)
  then
    match decodeCursors pagedRepoInputOfJson (optCursor options) with
    | DecThrows e => exit (Rejected e)
    | DecUntyped => exit Untyped
    | DecCursors cursors =>
        let repoInputs := resumeOr cursors (freshRepoInputs reposOrRepoIds) in
        (map (pullRequestsForRepoEvent providerId getPullRequestsOptions) repoInputs,
         Next (fanOut (pullRequestsForRepoCall providerId getPullRequestsOptions)
                 nextRepoInput pagedRepoInputToJson order repoInputs))
    | DecBroken entries =>
        (map (pullRequestsForRepoEvent providerId getPullRequestsOptions)
           (present entries),
         Exit (Undefined CursorUnusable))
    end
  else
    let o := spreadPullRequestsOptions getPullRequestsOptions (optCursor options) in
    results <- await (EvGetPullRequestsForRepos providerId reposOrRepoIds o)
                 (ProvidersApi.getPullRequestsForRepos api providerId reposOrRepoIds o)
                 (Undefined ProviderCallFailed) ;;
    ret (Returned results).

Definition getPullRequestsForRepos (order : list nat) (providerId : ProviderId)
  (reposOrRepoIds : ProviderReposInput)
  (options : option (QueryOptions.t PullRequestFilter))
  : list Event * Outcome PR :=
  run (getPullRequestsOptions <- pullRequestsPrelude providerId reposOrRepoIds options ;;
       pullRequestsPaging order providerId reposOrRepoIds options getPullRequestsOptions).

(** *** getIssuesForRepos *)

(** Lines 47 and 191-200: session and input guard. *)
Definition issuesEntry (providerId : ProviderId) (reposOrRepoIds : ProviderReposInput)
  : Op (Outcome Issue) unit :=
  session <- ensureSession (Rejected SessionError) providerId ;;
  if negb session then exit (Undefined SessionUnavailable)
  else if unsupportedInput providerId reposOrRepoIds
  then exit (Undefined UnsupportedInput)
  else ret tt.

(** Lines 247-251 and 323-327. *)
Definition issuesOptionsOf (filters : list IssueFilter) (userFilterProperty : jstring)
  : GetIssuesOptions.t :=
  let has f := includes IssueFilter_eqb filters f in
  GetIssuesOptions.mk
    (if has IsAuthor then Some userFilterProperty else None)
    (if has IsAssignee then Some [userFilterProperty] else None)
    (if has IsMention then Some userFilterProperty else None)
    None.

(** Lines 204-252: the organization, the projects and the filter options
    of an AzureDevOps query. *)
Definition azureIssuesOptions (providerId : ProviderId)
  (reposOrRepoIds : ProviderReposInput) (filters : option (list IssueFilter))
  : Op (Outcome Issue) (jstring * list jstring * option GetIssuesOptions.t) :=
  let organizations := organizationsOf reposOrRepoIds in
  let projects := projectsOf reposOrRepoIds in
  if 1 <? List.length organizations
  then exit (Undefined MultipleOrganizationsNotSupported)
  else
    match organizations with
    | [] => exit (Undefined NoOrganization)
    | organization :: _ =>
        getIssuesOptions <-
          match filters with
          | None => ret None
          | Some filters =>
              if negb (ProvidersApi.providerSupportsIssueFilters api providerId filters)
              then exit (Undefined UnsupportedFilter)
              else
                userAccount <-
                  await (EvGetCurrentUserForInstance providerId organization)
                    (ProvidersApi.getCurrentUserForInstance api providerId organization)
                    (Undefined IdentityUnavailable) ;;
                match userAccount with
                | None => exit (Undefined IdentityUnavailable)
                | Some userAccount =>
                    match ProviderAccount.name userAccount with
                    | None => exit (Undefined IdentityFieldMissing)
                    | Some userFilterProperty =>
                        ret (Some (issuesOptionsOf filters userFilterProperty))
                    end
                end
          end ;;
        ret (organization, projects, getIssuesOptions)
    end.

Definition issuesForAzureProjectEvent (o : option GetIssuesOptions.t)
  (projectInput : PagedProjectInput.t) : Event :=
  EvGetIssuesForAzureProject (PagedProjectInput.namespace projectInput)
    (PagedProjectInput.project projectInput)
    (spreadIssuesOptions o (PagedProjectInput.cursor projectInput)).

Definition issuesForAzureProjectCall (o : option GetIssuesOptions.t)
  (projectInput : PagedProjectInput.t) : Resp (PagedResult.t Issue) :=
  ProvidersApi.getIssuesForAzureProject api (PagedProjectInput.namespace projectInput)
    (PagedProjectInput.project projectInput)
    (spreadIssuesOptions o (PagedProjectInput.cursor projectInput)).

(** [{ namespace: projectInput.namespace, project: projectInput.project,
       cursor: results.paging.cursor }] *)
Definition nextProjectInput (projectInput : PagedProjectInput.t)
  (cursor : option jstring) : PagedProjectInput.t :=
  PagedProjectInput.mk (PagedProjectInput.namespace projectInput)
    (PagedProjectInput.project projectInput) cursor.

(** [Array.from(projects.values()).map(project => ({ namespace: organization,
     project: project, cursor: undefined }))] *)
Definition freshProjectInputs (organization : jstring) (projects : list jstring)
  : list PagedProjectInput.t :=
  map (fun project => PagedProjectInput.mk organization project None) projects.

(** Lines 254-301: the fan-out over the projects of an organization. *)
Definition azureIssuesPaging (order : list nat)
  (options : option (QueryOptions.t IssueFilter))
  (organization : jstring) (projects : list jstring)
  (getIssuesOptions : option GetIssuesOptions.t)
  : Op (Outcome Issue) (Outcome Issue) :=
  match decodeCursors pagedProjectInputOfJson (optCursor options) with
  | DecThrows e => exit (Rejected e)
  | DecUntyped => exit Untyped
  | DecCursors cursors =>
      let projectInputs := resumeOr cursors (freshProjectInputs organization projects) in
      (map (issuesForAzureProjectEvent getIssuesOptions) projectInputs,
       Next (fanOut (issuesForAzureProjectCall getIssuesOptions)
               nextProjectInput pagedProjectInputToJson order projectInputs))
  | DecBroken entries =>
      (map (issuesForAzureProjectEvent getIssuesOptions) (present entries),
       Exit (Undefined CursorUnusable))
  end.

(** Lines 303-328: the filter options for every other provider. *)
Definition issuesOptions (providerId : ProviderId) (filters : option (list IssueFilter))
  : Op (Outcome Issue) (option GetIssuesOptions.t) :=
  match filters with
  | None => ret None
  | Some filters =>
      userAccount <-
        await (EvGetCurrentUser providerId) (ProvidersApi.getCurrentUser api providerId)
          (Undefined IdentityUnavailable) ;;
      match userAccount with
      | None => exit (Undefined IdentityUnavailable)
      | Some userAccount =>
          match ProviderAccount.username userAccount with
          | None => exit (Undefined IdentityFieldMissing)
          | Some userFilterProperty =>
              ret (Some (issuesOptionsOf filters userFilterProperty))
          end
      end
  end.

Definition issuesForRepoEvent (providerId : ProviderId)
  (o : option GetIssuesOptions.t) (repoInput : PagedRepoInput.t) : Event :=
  EvGetIssuesForRepo providerId (PagedRepoInput.repo repoInput)
    (spreadIssuesOptions o (PagedRepoInput.cursor repoInput)).

Definition issuesForRepoCall (providerId : ProviderId)
  (o : option GetIssuesOptions.t) (repoInput : PagedRepoInput.t)
  : Resp (PagedResult.t Issue) :=
  ProvidersApi.getIssuesForRepo api providerId (PagedRepoInput.repo repoInput)
    (spreadIssuesOptions o (PagedRepoInput.cursor repoInput)).

(** Lines 330-380: the fan-out over repositories, or the bulk call. *)
Definition issuesPaging (order : list nat) (providerId : ProviderId)
  (reposOrRepoIds : ProviderReposInput)
  (options : option (QueryOptions.t IssueFilter))
  (getIssuesOptions : option GetIssuesOptions.t)
  : Op (Outcome Issue) (Outcome Issue) :=
  if PagingMode_eqb (ProvidersApi.getProviderIssuesPagingMode api providerId) Repo
     && negb (ProvidersApi.isRepoIdsInput api reposOrRepoIds)
  then
    match decodeCursors pagedRepoInputOfJson (optCursor options) with
    | DecThrows e => exit (Rejected e)
    | DecUntyped => exit Untyped
    | DecCursors cursors =>
        let repoInputs := resumeOr cursors (freshRepoInputs reposOrRepoIds) in
        (map (issuesForRepoEvent providerId getIssuesOptions) repoInputs,
         Next (fanOut (issuesForRepoCall providerId getIssuesOptions)
                 nextRepoInput pagedRepoInputToJson order repoInputs))
    | DecBroken entries =>
        (map (issuesForRepoEvent providerId getIssuesOptions) (present entries),
         Exit (Undefined CursorUnusable))
    end
  else
    let o := spreadIssuesOptions getIssuesOptions (optCursor options) in
    results <- await (EvGetIssuesForRepos providerId reposOrRepoIds o)
                 (ProvidersApi.getIssuesForRepos api providerId reposOrRepoIds o)
                 (Undefined ProviderCallFailed) ;;
    ret (Returned results).

Definition getIssuesForRepos (order : list nat) (providerId : ProviderId)
  (reposOrRepoIds : ProviderReposInput)
  (options : option (QueryOptions.t IssueFilter))
  : list Event * Outcome Issue :=
  run (_ <- issuesEntry providerId reposOrRepoIds ;;
       if ProviderId_eqb providerId AzureDevOps then
         x <- azureIssuesOptions providerId reposOrRepoIds (optFilters options) ;;
         let '(organization, projects, getIssuesOptions) := x in
         azureIssuesPaging order options organization projects getIssuesOptions
       else
         getIssuesOptions <- issuesOptions providerId (optFilters options) ;;
         issuesPaging order providerId reposOrRepoIds options getIssuesOptions).

(** *** getReposForAzureProject *)

Definition getReposForAzureProject (namespace project : jstring)
  (cursor : option jstring) : list Event * Outcome Repository :=
  run (session <- ensureSession (Rejected SessionError) AzureDevOps ;;
       if negb session then exit (Undefined SessionUnavailable)
       else
         results <- await (EvGetReposForAzureProject namespace project cursor)
                      (ProvidersApi.getReposForAzureProject api namespace project cursor)
                      (Undefined ProviderCallFailed) ;;
         ret (Returned results)).

End Service.

(** * Properties *)

(** ** Strings *)

Lemma jstring_eqb_eq (a b : jstring) : jstring_eqb a b = true <-> a = b.
Proof.
  revert b. induction a as [|x a IH]; intros [|y b]; simpl; split;
    try congruence; try reflexivity.
  - intros H. apply andb_true_iff in H as [Hx Hab].
    apply N.eqb_eq in Hx. apply IH in Hab. congruence.
  - intros H. injection H as -> ->. rewrite N.eqb_refl. simpl. now apply IH.
Qed.

Lemma jstring_eqb_refl (a : jstring) : jstring_eqb a a = true.
Proof. now apply jstring_eqb_eq. Qed.

(** ** The JSON codec: a parsed text is the value that was written *)

Module JSONFacts.
Import JSON.
Local Open Scope N_scope.

Lemma hexVal_hexDigit (d : N) : d < 16 -> hexVal (hexDigit d) = Some d.
Proof.
  intros H. unfold hexDigit, hexVal.
  destruct (d <? 10) eqn:E.
  - apply N.ltb_lt in E.
    replace ((48 <=? 48 + d) && (48 + d <=? 57)) with true.
    + f_equal. lia.
    + symmetry. apply andb_true_iff. split; apply N.leb_le; lia.
  - apply N.ltb_ge in E.
    replace ((48 <=? 87 + d) && (87 + d <=? 57)) with false.
    + replace ((97 <=? 87 + d) && (87 + d <=? 102)) with true.
      * f_equal. lia.
      * symmetry. apply andb_true_iff. split; apply N.leb_le; lia.
    + symmetry. apply andb_false_iff. right. apply N.leb_gt. lia.
Qed.

Lemma unhex4_hex4 (u : codeunit) :
  u < 65536 ->
  unhex4 (hexDigit (u / 4096)) (hexDigit ((u / 256) mod 16))
         (hexDigit ((u / 16) mod 16)) (hexDigit (u mod 16)) = Some u.
Proof.
  intros H. unfold unhex4.
  assert (H16 : forall x, x mod 16 < 16) by (intros x; apply N.mod_lt; lia).
  assert (Hd : u / 4096 < 16) by (apply N.Div0.div_lt_upper_bound; lia).
  rewrite !hexVal_hexDigit by auto.
  f_equal.
  replace 4096 with (16 * 256) by reflexivity.
  replace 256 with (16 * 16) by reflexivity.
  rewrite <- !N.Div0.div_div.
  pose proof (N.div_mod u 16).
  pose proof (N.div_mod (u / 16) 16).
  pose proof (N.div_mod (u / 16 / 16) 16).
  pose proof (N.div_mod (u / 16 / 16 / 16) 16).
  assert (u / 16 / 16 / 16 < 16).
  { rewrite !N.Div0.div_div. apply N.Div0.div_lt_upper_bound. simpl. lia. }
  lia.
Qed.

Lemma parseChars_plain (c : codeunit) (rest : jstring) :
  c <> 34 -> c <> 92 -> 32 <= c ->
  parseChars (c :: rest) = consUnit c (parseChars rest).
Proof.
  intros H1 H2 H3. simpl.
  apply N.eqb_neq in H1. apply N.eqb_neq in H2. rewrite H1, H2.
  replace (c <? 32) with false by (symmetry; apply N.ltb_ge; lia).
  reflexivity.
Qed.

Lemma parseChars_escapeUnit (c : codeunit) (rest : jstring) :
  parseChars (escapeUnit c ++ rest) = consUnit c (parseChars rest).
Proof.
  unfold escapeUnit.
  destruct (c =? 8) eqn:E8; [apply N.eqb_eq in E8; subst; reflexivity|].
  destruct (c =? 9) eqn:E9; [apply N.eqb_eq in E9; subst; reflexivity|].
  destruct (c =? 10) eqn:E10; [apply N.eqb_eq in E10; subst; reflexivity|].
  destruct (c =? 12) eqn:E12; [apply N.eqb_eq in E12; subst; reflexivity|].
  destruct (c =? 13) eqn:E13; [apply N.eqb_eq in E13; subst; reflexivity|].
  destruct (c =? 34) eqn:E34; [apply N.eqb_eq in E34; subst; reflexivity|].
  destruct (c =? 92) eqn:E92; [apply N.eqb_eq in E92; subst; reflexivity|].
  destruct ((c <? 32) || isSurrogate c) eqn:Esc.
  - assert (Hc : c < 65536).
    { apply orb_true_iff in Esc as [H|H].
      - apply N.ltb_lt in H. lia.
      - unfold isSurrogate in H. apply andb_true_iff in H as [_ H].
        apply N.leb_le in H. lia. }
    unfold hex4.
    change (parseChars ((92 :: 117 :: [hexDigit (c / 4096); hexDigit ((c / 256) mod 16);
                          hexDigit ((c / 16) mod 16); hexDigit (c mod 16)]) ++ rest))
      with (match unhex4 (hexDigit (c / 4096)) (hexDigit ((c / 256) mod 16))
                    (hexDigit ((c / 16) mod 16)) (hexDigit (c mod 16)) with
            | Some u => consUnit u (parseChars rest)
            | None => None
            end).
    now rewrite unhex4_hex4.
  - apply orb_false_iff in Esc as [Hlt _]. apply N.ltb_ge in Hlt.
    apply N.eqb_neq in E34. apply N.eqb_neq in E92.
    now apply parseChars_plain.
Qed.

Lemma quoteBody_pair (c d : codeunit) (r : jstring) :
  quoteBody (c :: d :: r) =
  if isHighSurrogate c && isLowSurrogate d
  then c :: d :: quoteBody r
  else escapeUnit c ++ quoteBody (d :: r).
Proof. reflexivity. Qed.

Lemma parseChars_quoteBody (s rest : jstring) :
  parseChars (quoteBody s ++ 34 :: rest) = Some (s, rest).
Proof.
  assert (H : forall n s, (List.length s <= n)%nat ->
                          parseChars (quoteBody s ++ 34 :: rest) = Some (s, rest)).
  { clear s. induction n as [|n IH]; intros s Hn.
    - destruct s; [reflexivity | simpl in Hn; lia].
    - destruct s as [|c [|d r]].
      + reflexivity.
      + simpl quoteBody. rewrite parseChars_escapeUnit. reflexivity.
      + rewrite quoteBody_pair. simpl in Hn.
        destruct (isHighSurrogate c && isLowSurrogate d) eqn:Epair.
        * apply andb_true_iff in Epair as [Hc Hd].
          unfold isHighSurrogate in Hc. unfold isLowSurrogate in Hd.
          apply andb_true_iff in Hc as [Hc _]. apply andb_true_iff in Hd as [Hd _].
          apply N.leb_le in Hc. apply N.leb_le in Hd.
          change ((c :: d :: quoteBody r) ++ 34 :: rest)
            with (c :: d :: (quoteBody r ++ 34 :: rest)).
          rewrite parseChars_plain by lia.
          rewrite parseChars_plain by lia.
          rewrite IH by lia. reflexivity.
        * rewrite <- app_assoc, parseChars_escapeUnit.
          rewrite (IH (d :: r)) by (simpl; lia). reflexivity. }
  apply (H (List.length s)). lia.
Qed.

Lemma parseChars_quote (s rest : jstring) :
  exists body, quote s ++ rest = 34 :: body /\ parseChars body = Some (s, rest).
Proof.
  exists (quoteBody s ++ 34 :: rest). split.
  - unfold quote. simpl. now rewrite <- app_assoc.
  - apply parseChars_quoteBody.
Qed.

(** Values without number literals: all that the service ever writes. *)
Fixpoint numFree (v : json) : bool :=
  match v with
  | JNum _ => false
  | JArr elems => forallb numFree elems
  | JObj members => forallb (fun '(_, x) => numFree x) members
  | _ => true
  end.

Section JsonInduction.
Variable P : json -> Prop.
Hypothesis HNull : P JNull.
Hypothesis HBool : forall b, P (JBool b).
Hypothesis HNum : forall lexeme, P (JNum lexeme).
Hypothesis HStr : forall s, P (JStr s).
Hypothesis HArr : forall elems, Forall P elems -> P (JArr elems).
Hypothesis HObj : forall members, Forall (fun kv => P (snd kv)) members -> P (JObj members).

Fixpoint json_nested_ind (v : json) : P v :=
  match v with
  | JNull => HNull
  | JBool b => HBool b
  | JNum lexeme => HNum lexeme
  | JStr s => HStr s
  | JArr elems =>
      HArr elems
        ((fix go (l : list json) : Forall P l :=
            match l with
            | [] => Forall_nil _
            | x :: r => Forall_cons x (json_nested_ind x) (go r)
            end) elems)
  | JObj members =>
      HObj members
        ((fix go (l : list (jstring * json)) : Forall (fun kv => P (snd kv)) l :=
            match l with
            | [] => Forall_nil _
            | (k, x) :: r =>
                Forall_cons (P := fun kv => P (snd kv)) (k, x) (json_nested_ind x) (go r)
            end) members)
  end.
End JsonInduction.

Lemma parseValue_S (f : nat) (s : jstring) :
  parseValue (S f) s =
  match skipWs s with
  | [] => None
  | c :: r =>
      if c =? 34 then
        match parseChars r with
        | Some (str, rest) => Some (JStr str, rest)
        | None => None
        end
      else if c =? 91 then
        match skipWs r with
        | d :: r' =>
            if d =? 93 then Some (JArr [], r')
            else match parseElements f r with
                 | Some (l, rest) => Some (JArr l, rest)
                 | None => None
                 end
        | [] => None
        end
      else if c =? 123 then
        match skipWs r with
        | d :: r' =>
            if d =? 125 then Some (JObj [], r')
            else match parseMembers f r with
                 | Some (l, rest) => Some (JObj l, rest)
                 | None => None
                 end
        | [] => None
        end
      else if c =? 110 then
        match stripPrefix (js "null") (c :: r) with
        | Some rest => Some (JNull, rest)
        | None => None
        end
      else if c =? 116 then
        match stripPrefix (js "true") (c :: r) with
        | Some rest => Some (JBool true, rest)
        | None => None
        end
      else if c =? 102 then
        match stripPrefix (js "false") (c :: r) with
        | Some rest => Some (JBool false, rest)
        | None => None
        end
      else
        match parseNumber (c :: r) with
        | Some (lexeme, rest) => Some (JNum lexeme, rest)
        | None => None
        end
  end.
Proof. reflexivity. Qed.

Lemma parseElements_S (f : nat) (s : jstring) :
  parseElements (S f) s =
  match parseValue f s with
  | None => None
  | Some (v, r) =>
      match skipWs r with
      | d :: r' =>
          if d =? 93 then Some ([v], r')
          else if d =? 44 then
            match parseElements f r' with
            | Some (l, rest) => Some (v :: l, rest)
            | None => None
            end
          else None
      | [] => None
      end
  end.
Proof. reflexivity. Qed.

Lemma parseMembers_S (f : nat) (s : jstring) :
  parseMembers (S f) s =
  match skipWs s with
  | q :: r0 =>
      if q =? 34 then
        match parseChars r0 with
        | None => None
        | Some (k, r1) =>
            match skipWs r1 with
            | c :: r2 =>
                if c =? 58 then
                  match parseValue f r2 with
                  | None => None
                  | Some (v, r) =>
                      match skipWs r with
                      | d :: r' =>
                          if d =? 125 then Some ([(k, v)], r')
                          else if d =? 44 then
                            match parseMembers f r' with
                            | Some (l, rest) => Some ((k, v) :: l, rest)
                            | None => None
                            end
                          else None
                      | [] => None
                      end
                  end
                else None
            | [] => None
            end
        end
      else None
  | [] => None
  end.
Proof. reflexivity. Qed.

(** The first character of a written value. *)
Definition opener (c : codeunit) : bool :=
  (c =? 34) || (c =? 91) || (c =? 123) || (c =? 110) || (c =? 116) || (c =? 102).

Lemma stringify_opener (v : json) :
  numFree v = true -> exists c body, stringify v = c :: body /\ opener c = true.
Proof.
  destruct v as [|[|]| | | |]; simpl; intros H; try discriminate;
    eexists; eexists; (split; [reflexivity|reflexivity]).
Qed.

Lemma opener_skipWs (c : codeunit) (s : jstring) :
  opener c = true -> skipWs (c :: s) = c :: s.
Proof.
  unfold opener. intros H. simpl.
  replace (isWs c) with false; [reflexivity|].
  unfold isWs.
  repeat (apply orb_true_iff in H as [H|H]); apply N.eqb_eq in H; subst; reflexivity.
Qed.

Lemma opener_not_closer (c : codeunit) :
  opener c = true -> (c =? 93) = false /\ (c =? 125) = false.
Proof.
  unfold opener. intros H.
  repeat (apply orb_true_iff in H as [H|H]); apply N.eqb_eq in H; subst; split; reflexivity.
Qed.

Lemma parseValue_string (f : nat) (body : jstring) :
  parseValue (S f) (34 :: body) =
  match parseChars body with
  | Some (str, rest) => Some (JStr str, rest)
  | None => None
  end.
Proof. reflexivity. Qed.

Lemma parseValue_array (f : nat) (body : jstring) :
  parseValue (S f) (91 :: body) =
  match skipWs body with
  | d :: r' =>
      if d =? 93 then Some (JArr [], r')
      else match parseElements f body with
           | Some (l, rest) => Some (JArr l, rest)
           | None => None
           end
  | [] => None
  end.
Proof. reflexivity. Qed.

Lemma parseValue_object (f : nat) (body : jstring) :
  parseValue (S f) (123 :: body) =
  match skipWs body with
  | d :: r' =>
      if d =? 125 then Some (JObj [], r')
      else match parseMembers f body with
           | Some (l, rest) => Some (JObj l, rest)
           | None => None
           end
  | [] => None
  end.
Proof. reflexivity. Qed.

Lemma joinItems_cons (x : jstring) (r : list jstring) :
  joinItems (x :: r) = x ++ match r with [] => [] | _ => 44 :: joinItems r end.
Proof. reflexivity. Qed.

Definition member (kv : jstring * json) : jstring :=
  let '(k, x) := kv in quote k ++ 58 :: stringify x.

Lemma stringify_array (elems : list json) :
  stringify (JArr elems) = 91 :: joinItems (map stringify elems) ++ [93].
Proof. reflexivity. Qed.

Lemma stringify_object (members : list (jstring * json)) :
  stringify (JObj members) = 123 :: joinItems (map member members) ++ [125].
Proof. reflexivity. Qed.

(** Parsing what was written yields the value and leaves what follows. *)
Definition roundtrips (v : json) : Prop :=
  numFree v = true ->
  forall fuel rest, (List.length (stringify v) <= fuel)%nat ->
    parseValue fuel (stringify v ++ rest) = Some (v, rest).

Lemma parseElements_items (l : list json) :
  Forall roundtrips l -> forallb numFree l = true -> l <> [] ->
  forall fuel rest,
    (List.length (joinItems (map stringify l)) + 1 <= fuel)%nat ->
    parseElements fuel (joinItems (map stringify l) ++ 93 :: rest) = Some (l, rest).
Proof.
  induction 1 as [|x r Hx Hr IH]; intros Hnf Hne fuel rest Hfuel; [congruence|].
  simpl in Hnf. apply andb_true_iff in Hnf as [Hnx Hnr].
  destruct fuel as [|f]; [lia|].
  rewrite parseElements_S.
  destruct r as [|y r'].
  - change (joinItems (map stringify [x])) with (stringify x ++ []) in *.
    rewrite app_nil_r in *.
    rewrite (Hx Hnx) by lia. reflexivity.
  - set (items := joinItems (map stringify (y :: r'))) in *.
    change (joinItems (map stringify (x :: y :: r')))
      with (stringify x ++ 44 :: items) in *.
    rewrite length_app in Hfuel. simpl List.length in Hfuel.
    rewrite <- app_assoc.
    rewrite (Hx Hnx) by lia.
    change (skipWs ((44 :: items) ++ 93 :: rest)) with (44 :: (items ++ 93 :: rest)).
    change (44 =? 93) with false. change (44 =? 44) with true. cbv iota.
    rewrite IH; [reflexivity | assumption | discriminate | lia].
Qed.

Lemma parseMembers_items (m : list (jstring * json)) :
  Forall (fun kv => roundtrips (snd kv)) m ->
  forallb (fun '(_, x) => numFree x) m = true -> m <> [] ->
  forall fuel rest,
    (List.length (joinItems (map member m)) + 1 <= fuel)%nat ->
    parseMembers fuel (joinItems (map member m) ++ 125 :: rest) = Some (m, rest).
Proof.
  induction 1 as [|[k x] r Hx Hr IH]; intros Hnf Hne fuel rest Hfuel; [congruence|].
  simpl in Hnf. apply andb_true_iff in Hnf as [Hnx Hnr]. simpl in Hx.
  destruct fuel as [|f]; [lia|].
  rewrite parseMembers_S.
  assert (Hkey : forall tail,
             (List.length (stringify x) <= f)%nat ->
             match skipWs ((quote k ++ 58 :: stringify x) ++ tail) with
             | q :: r0 =>
                 if q =? 34 then
                   match parseChars r0 with
                   | None => None
                   | Some (k0, r1) =>
                       match skipWs r1 with
                       | c :: r2 =>
                           if c =? 58 then
                             match parseValue f r2 with
                             | None => None
                             | Some (v, r3) =>
                                 match skipWs r3 with
                                 | d :: r4 =>
                                     if d =? 125 then Some ([(k0, v)], r4)
                                     else if d =? 44 then
                                       match parseMembers f r4 with
                                       | Some (l, rest0) => Some ((k0, v) :: l, rest0)
                                       | None => None
                                       end
                                     else None
                                 | [] => None
                                 end
                             end
                           else None
                       | [] => None
                       end
                   end
                 else None
             | [] => None
             end =
             match skipWs tail with
             | d :: r4 =>
                 if d =? 125 then Some ([(k, x)], r4)
                 else if d =? 44 then
                   match parseMembers f r4 with
                   | Some (l, rest0) => Some ((k, x) :: l, rest0)
                   | None => None
                   end
                 else None
             | [] => None
             end).
  { intros tail Hlen. rewrite <- app_assoc.
    destruct (parseChars_quote k ((58 :: stringify x) ++ tail)) as (body & E & Hp).
    rewrite E. rewrite opener_skipWs by reflexivity.
    change (34 =? 34) with true. cbv iota. rewrite Hp.
    change (skipWs ((58 :: stringify x) ++ tail)) with (58 :: (stringify x ++ tail)).
    change (58 =? 58) with true. cbv iota.
    rewrite (Hx Hnx) by lia. reflexivity. }
  destruct r as [|y r'].
  - change (joinItems (map member [(k, x)]))
      with ((quote k ++ 58 :: stringify x) ++ []) in *.
    rewrite app_nil_r in *. rewrite length_app in Hfuel. simpl List.length in Hfuel.
    rewrite Hkey by lia. reflexivity.
  - set (items := joinItems (map member (y :: r'))) in *.
    change (joinItems (map member ((k, x) :: y :: r')))
      with ((quote k ++ 58 :: stringify x) ++ 44 :: items) in *.
    rewrite !length_app in Hfuel. simpl List.length in Hfuel.
    rewrite <- app_assoc.
    rewrite Hkey by lia.
    change (skipWs ((44 :: items) ++ 125 :: rest)) with (44 :: (items ++ 125 :: rest)).
    change (44 =? 125) with false. change (44 =? 44) with true. cbv iota.
    rewrite IH; [reflexivity | assumption | discriminate | lia].
Qed.

Lemma joinItems_opener (x : json) (r : list json) (tail : jstring) :
  numFree x = true ->
  exists c body,
    joinItems (map stringify (x :: r)) ++ tail = c :: body /\ opener c = true.
Proof.
  intros H. destruct (stringify_opener x H) as (c & b & E & Hc).
  change (map stringify (x :: r)) with (stringify x :: map stringify r).
  rewrite joinItems_cons, E. eexists; eexists; split; [reflexivity | exact Hc].
Qed.

Lemma stringify_roundtrips (v : json) : roundtrips v.
Proof.
  induction v as [|b|lexeme|s|elems IH|members IH] using json_nested_ind;
    intros Hnf fuel rest Hfuel.
  - destruct fuel as [|f]; [simpl in Hfuel; lia | reflexivity].
  - destruct b; (destruct fuel as [|f]; [simpl in Hfuel; lia | reflexivity]).
  - discriminate.
  - destruct fuel as [|f]; [simpl in Hfuel; lia |].
    destruct (parseChars_quote s rest) as (body & E & Hp).
    change (stringify (JStr s)) with (quote s).
    rewrite E, parseValue_string, Hp. reflexivity.
  - simpl in Hnf. rewrite stringify_array in *.
    change (List.length (91 :: joinItems (map stringify elems) ++ [93]))
      with (S (List.length (joinItems (map stringify elems) ++ [93]))) in Hfuel.
    rewrite length_app in Hfuel. change (List.length [93]) with 1%nat in Hfuel.
    destruct fuel as [|f]; [lia |].
    change ((91 :: joinItems (map stringify elems) ++ [93]) ++ rest)
      with (91 :: ((joinItems (map stringify elems) ++ [93]) ++ rest)).
    rewrite <- app_assoc. change ([93] ++ rest) with (93 :: rest).
    rewrite parseValue_array.
    destruct elems as [|x r]; [reflexivity|].
    assert (Hx : numFree x = true) by (simpl in Hnf; now apply andb_true_iff in Hnf).
    destruct (joinItems_opener x r (93 :: rest) Hx) as (c & body & E & Hc).
    rewrite E at 1. rewrite opener_skipWs by exact Hc.
    destruct (opener_not_closer c Hc) as [-> _].
    rewrite parseElements_items; [reflexivity | assumption | assumption | discriminate | lia].
  - simpl in Hnf. rewrite stringify_object in *.
    change (List.length (123 :: joinItems (map member members) ++ [125]))
      with (S (List.length (joinItems (map member members) ++ [125]))) in Hfuel.
    rewrite length_app in Hfuel. change (List.length [125]) with 1%nat in Hfuel.
    destruct fuel as [|f]; [lia |].
    change ((123 :: joinItems (map member members) ++ [125]) ++ rest)
      with (123 :: ((joinItems (map member members) ++ [125]) ++ rest)).
    rewrite <- app_assoc. change ([125] ++ rest) with (125 :: rest).
    rewrite parseValue_object.
    destruct members as [|[k x] r]; [reflexivity|].
    assert (E : exists body,
               joinItems (map member ((k, x) :: r)) ++ 125 :: rest = 34 :: body).
    { change (map member ((k, x) :: r)) with ((quote k ++ 58 :: stringify x) :: map member r).
      rewrite joinItems_cons. unfold quote. eexists. reflexivity. }
    destruct E as (body & E).
    rewrite E at 1. rewrite opener_skipWs by reflexivity.
    change (34 =? 125) with false. cbv iota.
    rewrite parseMembers_items; [reflexivity | assumption | assumption | discriminate | lia].
Qed.

(** [JSON.parse(JSON.stringify(v))] is [v]. *)
Lemma parse_stringify (v : json) : numFree v = true -> parse (stringify v) = Some v.
Proof.
  intros H. unfold parse.
  rewrite <- (app_nil_r (stringify v)) at 2.
  rewrite (stringify_roundtrips v H) by lia.
  reflexivity.
Qed.

(** *** The fuel of [parse] is enough

    A parser consumes input at every step, so its result does not depend
    on the fuel once there is as much of it as [parse] supplies. *)

Lemma skipWs_length (s : jstring) : (List.length (skipWs s) <= List.length s)%nat.
Proof.
  induction s as [|c s IH]; simpl; [lia|]. destruct (isWs c); simpl; lia.
Qed.

Lemma skipWs_cons_length (s : jstring) (c : codeunit) (r : jstring) :
  skipWs s = c :: r -> (List.length r < List.length s)%nat.
Proof.
  intros H. pose proof (skipWs_length s) as L. rewrite H in L. simpl in L. lia.
Qed.

Lemma consUnit_length (c : codeunit) (x : option (jstring * jstring)) (n : nat) :
  (forall k r, x = Some (k, r) -> (List.length r < n)%nat) ->
  forall k r, consUnit c x = Some (k, r) -> (List.length r < n)%nat.
Proof.
  intros H k r. destruct x as [[k' r']|]; simpl; [|discriminate].
  intros E. injection E as <- <-. now apply (H k').
Qed.

Lemma parseChars_length (s k r : jstring) :
  parseChars s = Some (k, r) -> (List.length r < List.length s)%nat.
Proof.
  assert (H : forall n s, (List.length s <= n)%nat ->
                forall k r, parseChars s = Some (k, r) ->
                            (List.length r < List.length s)%nat).
  { clear. induction n as [|n IH]; intros s Hn k r.
    - destruct s; [discriminate | simpl in Hn; lia].
    - destruct s as [|c s]; [discriminate|]. simpl in Hn.
      cbn [parseChars].
      destruct (c =? 34); [intros E; injection E as <- <-; simpl; lia|].
      destruct (c =? 92).
      + destruct s as [|e s1]; [discriminate|]. simpl in Hn.
        destruct (e =? 117).
        * destruct s1 as [|h1 [|h2 [|h3 [|h4 s2]]]]; try discriminate.
          destruct (unhex4 h1 h2 h3 h4); [|discriminate]. simpl in Hn.
          apply consUnit_length. intros k' r' E.
          apply IH in E; simpl in *; lia.
        * destruct (unescape e); [|discriminate].
          apply consUnit_length. intros k' r' E.
          apply IH in E; simpl in *; lia.
      + destruct (c <? 32); [discriminate|].
        apply consUnit_length. intros k' r' E.
        apply IH in E; simpl in *; lia. }
  apply (H (List.length s)). lia.
Qed.

Lemma stripPrefix_length (p s r : jstring) :
  stripPrefix p s = Some r -> (List.length r + List.length p = List.length s)%nat.
Proof.
  revert s. induction p as [|a p IH]; intros [|b s]; simpl;
    try discriminate; try (intros E; injection E as <-; simpl; lia).
  destruct (a =? b); [|discriminate]. intros E. apply IH in E. lia.
Qed.

Lemma spanDigits_length (s : jstring) :
  (List.length (snd (spanDigits s)) <= List.length s)%nat.
Proof.
  induction s as [|c s IH]; simpl; [lia|].
  destruct (isDigit c); [|simpl; lia].
  destruct (spanDigits s). simpl in *. lia.
Qed.

Ltac span_cases :=
  repeat match goal with
         | |- context [spanDigits ?x] =>
             let L := fresh "L" in
             pose proof (spanDigits_length x) as L;
             destruct (spanDigits x); simpl in L
         | |- context [match ?x with _ => _ end] =>
             lazymatch x with
             | context [match _ with _ => _ end] => fail
             | _ => destruct x; simpl
             end
         end.

Lemma parseNumber_length (s lexeme r : jstring) :
  parseNumber s = Some (lexeme, r) -> (List.length r < List.length s)%nat.
Proof.
  unfold parseNumber.
  span_cases; intros E; try discriminate E; injection E as <- <-; simpl in *; lia.
Qed.

Lemma parse_rest_length (f : nat) :
  (forall s v r, parseValue f s = Some (v, r) -> (List.length r < List.length s)%nat)
  /\ (forall s l r, parseElements f s = Some (l, r) ->
                    (List.length r < List.length s)%nat)
  /\ (forall s l r, parseMembers f s = Some (l, r) ->
                    (List.length r < List.length s)%nat).
Proof.
  induction f as [|f (IHv & IHe & IHm)]; [repeat split; discriminate|].
  assert (Hv : forall s v r, parseValue (S f) s = Some (v, r) ->
                             (List.length r < List.length s)%nat).
  { intros s v r. rewrite parseValue_S.
    destruct (skipWs s) as [|c t] eqn:Es; [discriminate|].
    apply skipWs_cons_length in Es.
    destruct (c =? 34).
    { destruct (parseChars t) as [[k r']|] eqn:Ek; [|discriminate].
      apply parseChars_length in Ek. intros E. injection E as <- <-. lia. }
    destruct (c =? 91).
    { destruct (skipWs t) as [|d t'] eqn:Et; [discriminate|].
      apply skipWs_cons_length in Et.
      destruct (d =? 93); [intros E; injection E as <- <-; lia|].
      destruct (parseElements f t) as [[l r']|] eqn:El; [|discriminate].
      apply IHe in El. intros E. injection E as <- <-. lia. }
    destruct (c =? 123).
    { destruct (skipWs t) as [|d t'] eqn:Et; [discriminate|].
      apply skipWs_cons_length in Et.
      destruct (d =? 125); [intros E; injection E as <- <-; lia|].
      destruct (parseMembers f t) as [[l r']|] eqn:El; [|discriminate].
      apply IHm in El. intros E. injection E as <- <-. lia. }
    destruct (c =? 110).
    { destruct (stripPrefix (js "null") (c :: t)) eqn:Ep; [|discriminate].
      apply stripPrefix_length in Ep. simpl in Ep.
      intros E. injection E as <- <-. lia. }
    destruct (c =? 116).
    { destruct (stripPrefix (js "true") (c :: t)) eqn:Ep; [|discriminate].
      apply stripPrefix_length in Ep. simpl in Ep.
      intros E. injection E as <- <-. lia. }
    destruct (c =? 102).
    { destruct (stripPrefix (js "false") (c :: t)) eqn:Ep; [|discriminate].
      apply stripPrefix_length in Ep. simpl in Ep.
      intros E. injection E as <- <-. lia. }
    destruct (parseNumber (c :: t)) as [[lexeme r']|] eqn:En; [|discriminate].
    apply parseNumber_length in En. simpl in En.
    intros E. injection E as <- <-. lia. }
  split; [exact Hv|]. split.
  - intros s l r. rewrite parseElements_S.
    destruct (parseValue f s) as [[v r0]|] eqn:Ev; [|discriminate].
    apply IHv in Ev.
    destruct (skipWs r0) as [|d t] eqn:Et; [discriminate|].
    apply skipWs_cons_length in Et.
    destruct (d =? 93); [intros E; injection E as <- <-; lia|].
    destruct (d =? 44); [|discriminate].
    destruct (parseElements f t) as [[l' r']|] eqn:El; [|discriminate].
    apply IHe in El. intros E. injection E as <- <-. lia.
  - intros s l r. rewrite parseMembers_S.
    destruct (skipWs s) as [|q t0] eqn:E0; [discriminate|].
    apply skipWs_cons_length in E0.
    destruct (q =? 34); [|discriminate].
    destruct (parseChars t0) as [[k t1]|] eqn:Ek; [|discriminate].
    apply parseChars_length in Ek.
    destruct (skipWs t1) as [|c t2] eqn:E2; [discriminate|].
    apply skipWs_cons_length in E2.
    destruct (c =? 58); [|discriminate].
    destruct (parseValue f t2) as [[v r0]|] eqn:Ev; [|discriminate].
    apply IHv in Ev.
    destruct (skipWs r0) as [|d t] eqn:Et; [discriminate|].
    apply skipWs_cons_length in Et.
    destruct (d =? 125); [intros E; injection E as <- <-; lia|].
    destruct (d =? 44); [|discriminate].
    destruct (parseMembers f t) as [[l' r']|] eqn:El; [|discriminate].
    apply IHm in El. intros E. injection E as <- <-. lia.
Qed.

Definition fuelStable (s : jstring) : Prop :=
  (forall f g, (2 * List.length s + 1 <= f)%nat -> (2 * List.length s + 1 <= g)%nat ->
               parseValue f s = parseValue g s)
  /\ (forall f g, (2 * List.length s + 2 <= f)%nat -> (2 * List.length s + 2 <= g)%nat ->
                  parseElements f s = parseElements g s)
  /\ (forall f g, (2 * List.length s + 2 <= f)%nat -> (2 * List.length s + 2 <= g)%nat ->
                  parseMembers f s = parseMembers g s).

Lemma parse_fuel_stable (n : nat) (s : jstring) :
  (List.length s < n)%nat -> fuelStable s.
Proof.
  revert s. induction n as [|n IH]; intros s Hn; [lia|].
  assert (Hv : forall f g, (2 * List.length s + 1 <= f)%nat ->
                           (2 * List.length s + 1 <= g)%nat ->
                           parseValue f s = parseValue g s).
  { intros [|f] [|g] Hf Hg; try lia. rewrite !parseValue_S.
    destruct (skipWs s) as [|c t] eqn:Es; [reflexivity|].
    apply skipWs_cons_length in Es.
    destruct (IH t ltac:(lia)) as (_ & IHe & IHm).
    rewrite (IHe f g) by lia. rewrite (IHm f g) by lia. reflexivity. }
  split; [exact Hv|]. split.
  - intros [|f] [|g] Hf Hg; try lia. rewrite !parseElements_S.
    rewrite (Hv f g) by lia.
    destruct (parseValue g s) as [[v r0]|] eqn:Ev; [|reflexivity].
    apply (proj1 (parse_rest_length g)) in Ev.
    destruct (skipWs r0) as [|d t] eqn:Et; [reflexivity|].
    apply skipWs_cons_length in Et.
    destruct (IH t ltac:(lia)) as (_ & IHe & _).
    rewrite (IHe f g) by lia. reflexivity.
  - intros [|f] [|g] Hf Hg; try lia. rewrite !parseMembers_S.
    destruct (skipWs s) as [|q t0] eqn:E0; [reflexivity|].
    apply skipWs_cons_length in E0.
    destruct (q =? 34); [|reflexivity].
    destruct (parseChars t0) as [[k t1]|] eqn:Ek; [|reflexivity].
    apply parseChars_length in Ek.
    destruct (skipWs t1) as [|c t2] eqn:E2; [reflexivity|].
    apply skipWs_cons_length in E2.
    destruct (c =? 58); [|reflexivity].
    destruct (IH t2 ltac:(lia)) as (IHv & _ & _).
    rewrite (IHv f g) by lia.
    destruct (parseValue g t2) as [[v r0]|] eqn:Ev; [|reflexivity].
    apply (proj1 (parse_rest_length g)) in Ev.
    destruct (skipWs r0) as [|d t] eqn:Et; [reflexivity|].
    apply skipWs_cons_length in Et.
    destruct (IH t ltac:(lia)) as (_ & _ & IHm).
    rewrite (IHm f g) by lia. reflexivity.
Qed.

(** More fuel than [parse] supplies changes nothing: [parse] fails only
    on a text that is not JSON. *)
Lemma parse_fuel (s : jstring) (f : nat) :
  (2 * List.length s + 1 <= f)%nat ->
  parseValue f s = parseValue (2 * List.length s + 1) s.
Proof.
  intros H.
  apply (proj1 (parse_fuel_stable (S (List.length s)) s ltac:(lia))); lia.
Qed.

End JSONFacts.

(** ** The cursor codec *)

Import JSON JSONFacts.

Lemma repoInput_roundtrip (r : ProviderRepoInput.t) :
  repoInputOfJson (repoInputToJson r) = Some r.
Proof. destruct r as [ns n [p|]]; reflexivity. Qed.

Lemma pagedRepoInput_roundtrip (e : PagedRepoInput.t) :
  pagedRepoInputOfJson (pagedRepoInputToJson e) = Some e.
Proof. destruct e as [[ns n [p|]] [c|]]; reflexivity. Qed.

Lemma pagedProjectInput_roundtrip (e : PagedProjectInput.t) :
  pagedProjectInputOfJson (pagedProjectInputToJson e) = Some e.
Proof. destruct e as [ns p [c|]]; reflexivity. Qed.

Lemma pagedRepoInput_numFree (e : PagedRepoInput.t) :
  numFree (pagedRepoInputToJson e) = true.
Proof. destruct e as [[ns n [p|]] [c|]]; reflexivity. Qed.

Lemma pagedProjectInput_numFree (e : PagedProjectInput.t) :
  numFree (pagedProjectInputToJson e) = true.
Proof. destruct e as [ns p [c|]]; reflexivity. Qed.

Section Codec.
Context {U : Type}.
Variable toJson : U -> json.
Variable ofJson : json -> option U.
Hypothesis ofJson_toJson : forall u, ofJson (toJson u) = Some u.
Hypothesis toJson_numFree : forall u, numFree (toJson u) = true.

Lemma mapM_map (l : list U) : mapM ofJson (map toJson l) = Some l.
Proof.
  induction l as [|u l IH]; simpl; [reflexivity|].
  now rewrite ofJson_toJson, IH.
Qed.

Lemma decode_encode (cursors : list U) :
  decodeCursors ofJson (Some (encodeCursors toJson cursors)) = DecCursors cursors.
Proof.
  unfold decodeCursors, encodeCursors.
  rewrite parse_stringify.
  - change (field (js "cursors") [(js "cursors", JArr (map toJson cursors))])
      with (Some (JArr (map toJson cursors))).
    cbv beta iota. now rewrite mapM_map.
  - simpl. rewrite andb_true_r.
    apply forallb_forall. intros j Hj. apply in_map_iff in Hj as (u & <- & _).
    apply toJson_numFree.
Qed.
End Codec.

(** C9. Decoding the string produced by encoding a composite cursor
    ([JSON.parse] of [JSON.stringify({ cursors })], then [.cursors]) yields
    the same list of unit-cursor entries, for repository entries and for
    project entries, the empty list included. *)
Theorem composite_cursor_roundtrip :
  (forall cursors : list PagedRepoInput.t,
      decodeCursors pagedRepoInputOfJson
        (Some (encodeCursors pagedRepoInputToJson cursors)) = DecCursors cursors)
  /\ (forall cursors : list PagedProjectInput.t,
         decodeCursors pagedProjectInputOfJson
           (Some (encodeCursors pagedProjectInputToJson cursors)) = DecCursors cursors).
Proof.
  split; intros cursors.
  - apply decode_encode; [apply pagedRepoInput_roundtrip | apply pagedRepoInput_numFree].
  - apply decode_encode;
      [apply pagedProjectInput_roundtrip | apply pagedProjectInput_numFree].
Qed.


(** ** The fan-out: what the merge computes *)

(** What a page says about its continuation: [results.paging?.more] and
    [results.paging.cursor]. *)
Definition reportsMore {T} (results : PagedResult.t T) : bool :=
  match PagedResult.paging results with
  | Some pg => Paging.more pg
  | None => false
  end.

Definition returnedCursor {T} (results : PagedResult.t T) : option jstring :=
  match PagedResult.paging results with
  | Some pg => Paging.cursor pg
  | None => None
  end.

Lemma completion_in {A} (order : list nat) (l : list A) (u : A) :
  In u (completion order l) -> In u l.
Proof.
  unfold completion. intros H. apply in_flat_map in H as (i & _ & Hi).
  destruct (nth_error l i) as [a|] eqn:E; [|contradiction].
  destruct Hi as [<-|[]]. eapply nth_error_In; eauto.
Qed.

Lemma completion_seq_app {A} (pre l : list A) :
  completion (seq (List.length pre) (List.length l)) (pre ++ l) = l.
Proof.
  revert pre. induction l as [|a l IH]; intros pre; [reflexivity|].
  simpl List.length. simpl seq. unfold completion. simpl flat_map.
  rewrite nth_error_app2 by lia. rewrite Nat.sub_diag. simpl.
  f_equal. specialize (IH (pre ++ [a])).
  rewrite length_app, <- app_assoc in IH. simpl in IH.
  rewrite Nat.add_1_r in IH. exact IH.
Qed.

Lemma completion_seq {A} (l : list A) : completion (seq 0 (List.length l)) l = l.
Proof. exact (completion_seq_app [] l). Qed.

Lemma completion_perm {A} (order : list nat) (l : list A) :
  Permutation order (seq 0 (List.length l)) -> Permutation (completion order l) l.
Proof.
  intros H. rewrite <- (completion_seq l) at 2.
  unfold completion. now apply Permutation_flat_map.
Qed.

Lemma Permutation_filter {A} (f : A -> bool) (l l' : list A) :
  Permutation l l' -> Permutation (filter f l) (filter f l').
Proof.
  induction 1 as [|x l l' _ IH|x y l|l l' l'' _ IH1 _ IH2]; simpl.
  - constructor.
  - destruct (f x); [now constructor | exact IH].
  - destruct (f x), (f y); try apply Permutation_refl. apply perm_swap.
  - eapply Permutation_trans; eauto.
Qed.

Section FanOutFacts.
Context {U T : Type}.
Variable call : U -> Resp (PagedResult.t T).
Variable withCursor : U -> option jstring -> U.
Variable toJson : U -> json.
Variable page : U -> PagedResult.t T.

(** The entries pushed for the units that report more. *)
Definition nextCursors (done : list U) : list U :=
  map (fun u => withCursor u (returnedCursor (page u)))
    (filter (fun u => reportsMore (page u)) done).

Lemma merge_resolved (done : list U) (data : list T) (cursors : list U) (hasMore : bool) :
  Forall (fun u => call u = Resolve (page u)) done ->
  merge withCursor (map (fun u => (u, call u)) done) data cursors hasMore =
  Some (data ++ flat_map (fun u => PagedResult.values (page u)) done,
        cursors ++ nextCursors done,
        hasMore || existsb (fun u => reportsMore (page u)) done).
Proof.
  intros H. revert data cursors hasMore.
  induction H as [|u done Hu _ IH]; intros data cursors hasMore.
  - simpl. unfold nextCursors. simpl. now rewrite !app_nil_r, orb_false_r.
  - simpl. rewrite Hu. unfold nextCursors, reportsMore, returnedCursor in *. simpl.
    destruct (PagedResult.paging (page u)) as [pg|] eqn:Epg.
    + destruct (Paging.more pg) eqn:Emore.
      * rewrite IH. simpl. rewrite ?Epg. simpl.
        rewrite <- !app_assoc. simpl. now rewrite orb_true_r.
      * rewrite IH. simpl. rewrite ?Epg, ?Emore. simpl. now rewrite <- !app_assoc.
    + rewrite IH. simpl. rewrite ?Epg. simpl. now rewrite <- !app_assoc.
Qed.

Lemma merge_rejected (done : list U) (u : U) (data : list T) (cursors : list U)
  (hasMore : bool) :
  In u done -> call u = Reject ->
  merge withCursor (map (fun u => (u, call u)) done) data cursors hasMore = None.
Proof.
  intros Hin Hu. revert data cursors hasMore.
  induction done as [|a done IH]; intros data cursors hasMore; [contradiction|].
  simpl. destruct (call a) as [results|] eqn:Ea; [|reflexivity].
  destruct Hin as [->|Hin]; [congruence|].
  destruct (PagedResult.paging results) as [pg|]; [destruct (Paging.more pg)|];
    now apply IH.
Qed.

Lemma fanOut_resolved (order : list nat) (inputs : list U) :
  Forall (fun u => call u = Resolve (page u)) inputs ->
  fanOut call withCursor toJson order inputs =
  Returned
    (PagedResult.mk
       (flat_map (fun u => PagedResult.values (page u)) (completion order inputs))
       (Some (Paging.mk
                (existsb (fun u => reportsMore (page u)) (completion order inputs))
                (Some (encodeCursors toJson (nextCursors (completion order inputs))))))).
Proof.
  intros H. unfold fanOut, settled.
  rewrite merge_resolved; [reflexivity|].
  apply Forall_forall. intros u Hu. apply completion_in in Hu.
  revert u Hu. now apply Forall_forall.
Qed.

Lemma fanOut_rejected (order : list nat) (inputs : list U) (u : U) :
  Permutation order (seq 0 (List.length inputs)) ->
  In u inputs -> call u = Reject ->
  fanOut call withCursor toJson order inputs = Undefined ProviderCallFailed.
Proof.
  intros Hperm Hin Hu. unfold fanOut, settled.
  rewrite (merge_rejected _ u); [reflexivity | | exact Hu].
  eapply Permutation_in; [|exact Hin].
  symmetry. now apply completion_perm.
Qed.

End FanOutFacts.

(** *** What the merged page says *)

(** The outcome is a page whose [more] flag holds exactly when some unit
    reported more, and whose cursor is a string that decodes to the entries
    of the units that reported more (each with the cursor its page
    returned): to the empty list when none did.  [withCursor u c] is the
    entry expected for the unit [u] when its page returned the cursor
    [c]. *)
Definition MoreAndCursor {U T} (ofJson : json -> option U)
  (withCursor : U -> option jstring -> U) (page : U -> PagedResult.t T)
  (units : list U) (out : Outcome T) : Prop :=
  exists values more cursor entries,
    out = Returned (PagedResult.mk values (Some (Paging.mk more (Some cursor))))
    /\ (more = true <-> exists u, In u units /\ reportsMore (page u) = true)
    /\ decodeCursors ofJson (Some cursor) = DecCursors entries
    /\ Permutation entries (nextCursors withCursor page units)
    /\ ((forall u, In u units -> reportsMore (page u) = false) -> entries = []).

(** The outcome is a page whose values are the units' values, unit after
    unit in the order the calls settled, each unit's values in the order
    its page has them; they are in unit order when the calls settle in unit
    order. *)
Definition ValuesBySettling {U T} (page : U -> PagedResult.t T)
  (units : list U) (order : list nat) (out : Outcome T) : Prop :=
  exists results,
    out = Returned results
    /\ PagedResult.values results =
       flat_map (fun u => PagedResult.values (page u)) (completion order units)
    /\ (order = seq 0 (List.length units) ->
        PagedResult.values results =
        flat_map (fun u => PagedResult.values (page u)) units).

(** The options of a query call carry no identity filter. *)
Definition identityOptionsAbsent (e : Event) : Prop :=
  match e with
  | EvGetPullRequestsForRepo _ _ o | EvGetPullRequestsForRepos _ _ o =>
      GetPullRequestsOptions.authorLogin o = None
      /\ GetPullRequestsOptions.assigneeLogins o = None
      /\ GetPullRequestsOptions.reviewRequestedLogin o = None
      /\ GetPullRequestsOptions.mentionLogin o = None
  | EvGetIssuesForRepo _ _ o | EvGetIssuesForAzureProject _ _ o
  | EvGetIssuesForRepos _ _ o =>
      GetIssuesOptions.authorLogin o = None
      /\ GetIssuesOptions.assigneeLogins o = None
      /\ GetIssuesOptions.mentionLogin o = None
  | _ => False
  end.

Lemma filter_none {A} (f : A -> bool) (l : list A) :
  (forall x, In x l -> f x = false) -> filter f l = [].
Proof.
  induction l as [|a l IH]; intros H; simpl; [reflexivity|].
  rewrite (H a) by now left. apply IH. intros x Hx. apply H. now right.
Qed.

Section FanOutClaims.
Context {U T : Type}.
Variable call : U -> Resp (PagedResult.t T).
Variable withCursor : U -> option jstring -> U.
Variable toJson : U -> json.
Variable ofJson : json -> option U.
Variable page : U -> PagedResult.t T.
Hypothesis ofJson_toJson : forall u, ofJson (toJson u) = Some u.
Hypothesis toJson_numFree : forall u, numFree (toJson u) = true.

Lemma fanOut_more_and_cursor (order : list nat) (units : list U) :
  Permutation order (seq 0 (List.length units)) ->
  Forall (fun u => call u = Resolve (page u)) units ->
  MoreAndCursor ofJson withCursor page units (fanOut call withCursor toJson order units).
Proof.
  intros Hperm Hall.
  pose proof (completion_perm order units Hperm) as Hdone.
  rewrite (fanOut_resolved call withCursor toJson page order units Hall).
  eexists _, _, _, (nextCursors withCursor page (completion order units)).
  split; [reflexivity|]. split; [|split; [|split]].
  - rewrite existsb_exists. split; intros (u & Hu & Hm); exists u; split; auto.
    + eapply Permutation_in; eauto.
    + eapply Permutation_in; [symmetry|]; eauto.
  - now apply decode_encode.
  - unfold nextCursors. now apply Permutation_map, Permutation_filter.
  - intros Hnone. unfold nextCursors.
    rewrite filter_none; [reflexivity|].
    intros u Hu. apply Hnone. eapply Permutation_in; eauto.
Qed.

Lemma fanOut_values (order : list nat) (units : list U) :
  Forall (fun u => call u = Resolve (page u)) units ->
  ValuesBySettling page units order (fanOut call withCursor toJson order units).
Proof.
  intros Hall.
  rewrite (fanOut_resolved call withCursor toJson page order units Hall).
  eexists. split; [reflexivity|]. split; [reflexivity|].
  intros ->. cbn [PagedResult.values]. now rewrite completion_seq.
Qed.

End FanOutClaims.

(** ** The computation type *)

Lemma bind_ret_l {R A B} (a : A) (k : A -> Op R B) : bind (ret a) k = k a.
Proof. unfold bind, ret. now destruct (k a). Qed.

Lemma bind_ret_r {R A} (m : Op R A) : bind m ret = m.
Proof. destruct m as [t [a|r]]; simpl; [now rewrite app_nil_r | reflexivity]. Qed.

Lemma bind_assoc {R A B C} (m : Op R A) (f : A -> Op R B) (g : B -> Op R C) :
  bind (bind m f) g = bind m (fun a => bind (f a) g).
Proof.
  destruct m as [t [a|r]]; simpl; [|reflexivity].
  destruct (f a) as [t1 [b|r]]; simpl; [|reflexivity].
  destruct (g b) as [t2 s]. now rewrite app_assoc.
Qed.

Lemma bind_next {R A B} (m : Op R A) (k : A -> Op R B) (t : list Event) (a : A) :
  m = (t, Next a) -> bind m k = (t ++ fst (k a), snd (k a)).
Proof. intros ->. simpl. now destruct (k a). Qed.

Lemma bind_exit {R A B} (m : Op R A) (k : A -> Op R B) (t : list Event) (r : R) :
  m = (t, Exit r) -> bind m k = (t, Exit r).
Proof. now intros ->. Qed.

(** Every call issued by a computation satisfies [P]. *)
Definition traceAll {R A} (P : Event -> Prop) (m : Op R A) : Prop := Forall P (fst m).

Lemma traceAll_ret {R A} (P : Event -> Prop) (a : A) : traceAll P (ret (R := R) a).
Proof. constructor. Qed.

Lemma traceAll_exit {R A} (P : Event -> Prop) (r : R) : traceAll P (exit (A := A) r).
Proof. constructor. Qed.

Lemma traceAll_await {R A} (P : Event -> Prop) (e : Event) (r : Resp A) (x : R) :
  P e -> traceAll P (await e r x).
Proof. intros H. destruct r; repeat constructor; exact H. Qed.

Lemma traceAll_bind {R A B} (P : Event -> Prop) (m : Op R A) (k : A -> Op R B) :
  traceAll P m -> (forall a, traceAll P (k a)) -> traceAll P (bind m k).
Proof.
  unfold traceAll. destruct m as [t [a|r]]; simpl; intros Hm Hk; [|exact Hm].
  specialize (Hk a). destruct (k a) as [t' s]. simpl in *.
  apply Forall_app. now split.
Qed.

Lemma traceAll_run {R} (P : Event -> Prop) (m : Op R R) :
  traceAll P m -> Forall P (fst (run m)).
Proof. unfold traceAll. now destruct m as [t [a|r]]. Qed.

Lemma traceAll_events {R A} (P : Event -> Prop) (t : list Event) (s : Step R A) :
  Forall P t -> traceAll P (t, s).
Proof. exact (fun H => H). Qed.

Ltac trace_all :=
  repeat first
    [ apply traceAll_ret
    | apply traceAll_exit
    | apply traceAll_await
    | apply traceAll_bind; [|intros ?]
    | match goal with
      | |- traceAll _ (match ?x with _ => _ end) => destruct x
      | |- traceAll _ (let _ := _ in _) => cbv zeta
      end ].

Lemma no_queries (t : list Event) :
  Forall (fun e => isQueryCall e = false) t -> filter isQueryCall t = [].
Proof.
  induction 1 as [|e t He _ IH]; simpl; [reflexivity|]. now rewrite He.
Qed.

(** Every way a computation leaves the operation satisfies [P]. *)
Definition exitsAll {R A} (P : R -> Prop) (m : Op R A) : Prop :=
  match snd m with
  | Exit r => P r
  | Next _ => True
  end.

Definition endsAll {R} (P : R -> Prop) (m : Op R R) : Prop := P (snd (run m)).

Lemma exitsAll_ret {R A} (P : R -> Prop) (a : A) : exitsAll P (ret (R := R) a).
Proof. exact I. Qed.

Lemma exitsAll_exit {R A} (P : R -> Prop) (r : R) : P r -> exitsAll P (exit (A := A) r).
Proof. exact (fun H => H). Qed.

Lemma exitsAll_await {R A} (P : R -> Prop) (e : Event) (r : Resp A) (x : R) :
  (r = Reject -> P x) -> exitsAll P (await e r x).
Proof. destruct r; simpl; [exact (fun _ => I) | exact (fun H => H eq_refl)]. Qed.

Lemma exitsAll_bind {R A B} (P : R -> Prop) (m : Op R A) (k : A -> Op R B) :
  exitsAll P m -> (forall a, exitsAll P (k a)) -> exitsAll P (bind m k).
Proof.
  unfold exitsAll. destruct m as [t [a|r]]; simpl; intros Hm Hk; [|exact Hm].
  specialize (Hk a). now destruct (k a).
Qed.

Lemma endsAll_bind {R A} (P : R -> Prop) (m : Op R A) (k : A -> Op R R) :
  exitsAll P m -> (forall a, endsAll P (k a)) -> endsAll P (bind m k).
Proof.
  unfold exitsAll, endsAll. destruct m as [t [a|r]]; simpl; intros Hm Hk; [|exact Hm].
  specialize (Hk a). now destruct (k a) as [t' [b|r]].
Qed.

Ltac exits_all :=
  repeat first
    [ apply exitsAll_ret
    | apply exitsAll_exit
    | apply exitsAll_bind; [|intros ?]
    | match goal with
      | |- exitsAll _ (match ?x with _ => _ end) => destruct x
      | |- exitsAll _ (let _ := _ in _) => cbv zeta
      end ].

(** ** The paths through the facade *)

Section ServiceFacts.
Context {PR Issue Repository : Type}.
Variable api : ProvidersApi.t PR Issue Repository.

Local Open Scope op_scope.

(** Session, input guard and filter options of an issue query, for
    AzureDevOps and for the other providers. *)
Definition azureIssuesPrelude (providerId : ProviderId)
  (reposOrRepoIds : ProviderReposInput)
  (options : option (QueryOptions.t IssueFilter))
  : Op (Outcome Issue) (jstring * list jstring * option GetIssuesOptions.t) :=
  _ <- issuesEntry api providerId reposOrRepoIds ;;
  azureIssuesOptions api providerId reposOrRepoIds (optFilters options).

Definition issuesPrelude (providerId : ProviderId)
  (reposOrRepoIds : ProviderReposInput)
  (options : option (QueryOptions.t IssueFilter))
  : Op (Outcome Issue) (option GetIssuesOptions.t) :=
  _ <- issuesEntry api providerId reposOrRepoIds ;;
  issuesOptions api providerId (optFilters options).

(** The call passes the session check, the input guard and the filter
    translation, having issued the calls [t] and built the options [o], and
    takes the fan-out; [cursors] is the decoded caller cursor. *)
Definition PullRequestsFanOut (providerId : ProviderId)
  (reposOrRepoIds : ProviderReposInput)
  (options : option (QueryOptions.t PullRequestFilter))
  (t : list Event) (o : option GetPullRequestsOptions.t)
  (cursors : list PagedRepoInput.t) : Prop :=
  pullRequestsPrelude api providerId reposOrRepoIds options = (t, Next o)
  /\ ProvidersApi.getProviderPullRequestsPagingMode api providerId = Repo
  /\ ProvidersApi.isRepoIdsInput api reposOrRepoIds = false
  /\ decodeCursors pagedRepoInputOfJson (optCursor options) = DecCursors cursors.

Definition IssuesFanOut (providerId : ProviderId)
  (reposOrRepoIds : ProviderReposInput)
  (options : option (QueryOptions.t IssueFilter))
  (t : list Event) (o : option GetIssuesOptions.t)
  (cursors : list PagedRepoInput.t) : Prop :=
  providerId <> AzureDevOps
  /\ issuesPrelude providerId reposOrRepoIds options = (t, Next o)
  /\ ProvidersApi.getProviderIssuesPagingMode api providerId = Repo
  /\ ProvidersApi.isRepoIdsInput api reposOrRepoIds = false
  /\ decodeCursors pagedRepoInputOfJson (optCursor options) = DecCursors cursors.

Definition AzureIssuesFanOut (reposOrRepoIds : ProviderReposInput)
  (options : option (QueryOptions.t IssueFilter))
  (t : list Event) (organization : jstring) (projects : list jstring)
  (o : option GetIssuesOptions.t) (cursors : list PagedProjectInput.t) : Prop :=
  azureIssuesPrelude AzureDevOps reposOrRepoIds options
    = (t, Next (organization, projects, o))
  /\ decodeCursors pagedProjectInputOfJson (optCursor options) = DecCursors cursors.

Lemma ProviderId_eqb_eq (a b : ProviderId) : ProviderId_eqb a b = true <-> a = b.
Proof. destruct a, b; simpl; split; congruence. Qed.

Lemma ProviderId_eqb_neq (a b : ProviderId) : a <> b -> ProviderId_eqb a b = false.
Proof. destruct a, b; simpl; congruence. Qed.

Lemma getIssuesForRepos_stages (order : list nat) (providerId : ProviderId)
  (reposOrRepoIds : ProviderReposInput) (options : option (QueryOptions.t IssueFilter)) :
  getIssuesForRepos api order providerId reposOrRepoIds options =
  run (if ProviderId_eqb providerId AzureDevOps then
         x <- azureIssuesPrelude providerId reposOrRepoIds options ;;
         let '(organization, projects, getIssuesOptions) := x in
         azureIssuesPaging api order options organization projects getIssuesOptions
       else
         getIssuesOptions <- issuesPrelude providerId reposOrRepoIds options ;;
         issuesPaging api order providerId reposOrRepoIds options getIssuesOptions).
Proof.
  unfold getIssuesForRepos, azureIssuesPrelude, issuesPrelude.
  destruct (ProviderId_eqb providerId AzureDevOps); now rewrite bind_assoc.
Qed.

Lemma getPullRequestsForRepos_fanOut (order : list nat) (providerId : ProviderId)
  (reposOrRepoIds : ProviderReposInput)
  (options : option (QueryOptions.t PullRequestFilter))
  (t : list Event) (o : option GetPullRequestsOptions.t)
  (cursors : list PagedRepoInput.t) :
  PullRequestsFanOut providerId reposOrRepoIds options t o cursors ->
  getPullRequestsForRepos api order providerId reposOrRepoIds options =
  (t ++ map (pullRequestsForRepoEvent providerId o)
          (resumeOr cursors (freshRepoInputs reposOrRepoIds)),
   fanOut (pullRequestsForRepoCall api providerId o) nextRepoInput pagedRepoInputToJson
     order (resumeOr cursors (freshRepoInputs reposOrRepoIds))).
Proof.
  intros (Hpre & Hmode & Hids & Hdec).
  unfold getPullRequestsForRepos.
  rewrite (bind_next _ _ _ _ Hpre).
  unfold pullRequestsPaging. rewrite Hmode, Hids, Hdec. reflexivity.
Qed.

Lemma getIssuesForRepos_fanOut (order : list nat) (providerId : ProviderId)
  (reposOrRepoIds : ProviderReposInput)
  (options : option (QueryOptions.t IssueFilter))
  (t : list Event) (o : option GetIssuesOptions.t)
  (cursors : list PagedRepoInput.t) :
  IssuesFanOut providerId reposOrRepoIds options t o cursors ->
  getIssuesForRepos api order providerId reposOrRepoIds options =
  (t ++ map (issuesForRepoEvent providerId o)
          (resumeOr cursors (freshRepoInputs reposOrRepoIds)),
   fanOut (issuesForRepoCall api providerId o) nextRepoInput pagedRepoInputToJson
     order (resumeOr cursors (freshRepoInputs reposOrRepoIds))).
Proof.
  intros (Hp & Hpre & Hmode & Hids & Hdec).
  rewrite getIssuesForRepos_stages, (ProviderId_eqb_neq _ _ Hp).
  rewrite (bind_next _ _ _ _ Hpre).
  unfold issuesPaging. rewrite Hmode, Hids, Hdec. reflexivity.
Qed.

Lemma getIssuesForRepos_azureFanOut (order : list nat)
  (reposOrRepoIds : ProviderReposInput)
  (options : option (QueryOptions.t IssueFilter))
  (t : list Event) (organization : jstring) (projects : list jstring)
  (o : option GetIssuesOptions.t) (cursors : list PagedProjectInput.t) :
  AzureIssuesFanOut reposOrRepoIds options t organization projects o cursors ->
  getIssuesForRepos api order AzureDevOps reposOrRepoIds options =
  (t ++ map (issuesForAzureProjectEvent o)
          (resumeOr cursors (freshProjectInputs organization projects)),
   fanOut (issuesForAzureProjectCall api o) nextProjectInput pagedProjectInputToJson
     order (resumeOr cursors (freshProjectInputs organization projects))).
Proof.
  intros (Hpre & Hdec).
  rewrite getIssuesForRepos_stages. simpl ProviderId_eqb. cbv iota.
  rewrite (bind_next _ _ _ _ Hpre).
  unfold azureIssuesPaging. rewrite Hdec. reflexivity.
Qed.

(** *** The calls issued before the paging stage *)

Lemma pullRequestsPrelude_queries (providerId : ProviderId)
  (reposOrRepoIds : ProviderReposInput)
  (options : option (QueryOptions.t PullRequestFilter)) t s :
  pullRequestsPrelude api providerId reposOrRepoIds options = (t, s) ->
  filter isQueryCall t = [].
Proof.
  intros H. apply no_queries. change t with (fst (t, s)). rewrite <- H.
  unfold pullRequestsPrelude, pullRequestsOptions, ensureSession.
  trace_all; reflexivity.
Qed.

Lemma issuesEntry_queries (providerId : ProviderId)
  (reposOrRepoIds : ProviderReposInput) :
  traceAll (fun e => isQueryCall e = false) (issuesEntry api providerId reposOrRepoIds).
Proof. unfold issuesEntry, ensureSession. trace_all; reflexivity. Qed.

Lemma issuesPrelude_queries (providerId : ProviderId)
  (reposOrRepoIds : ProviderReposInput)
  (options : option (QueryOptions.t IssueFilter)) t s :
  issuesPrelude providerId reposOrRepoIds options = (t, s) ->
  filter isQueryCall t = [].
Proof.
  intros H. apply no_queries. change t with (fst (t, s)). rewrite <- H.
  unfold issuesPrelude. apply traceAll_bind; [apply issuesEntry_queries|intros _].
  unfold issuesOptions. trace_all; reflexivity.
Qed.

Lemma azureIssuesPrelude_queries (providerId : ProviderId)
  (reposOrRepoIds : ProviderReposInput)
  (options : option (QueryOptions.t IssueFilter)) t s :
  azureIssuesPrelude providerId reposOrRepoIds options = (t, s) ->
  filter isQueryCall t = [].
Proof.
  intros H. apply no_queries. change t with (fst (t, s)). rewrite <- H.
  unfold azureIssuesPrelude. apply traceAll_bind; [apply issuesEntry_queries|intros _].
  unfold azureIssuesOptions. trace_all; reflexivity.
Qed.

Lemma resumeOr_cursors {U} (cursors fresh : list U) :
  cursors <> [] -> resumeOr cursors fresh = cursors.
Proof. intros H. destruct cursors; [congruence | reflexivity]. Qed.

Lemma filter_all {A} (f : A -> bool) (l : list A) :
  (forall x, In x l -> f x = true) -> filter f l = l.
Proof.
  induction l as [|a l IH]; intros H; simpl; [reflexivity|].
  rewrite (H a) by now left. f_equal. apply IH. intros x Hx. apply H. now right.
Qed.

(** A per-unit query for the entry [c] of a cursor: the call is made for
    the unit of the entry, with the cursor stored in the entry as the
    [cursor] of its options. *)
Definition PullRequestsQueryFor (providerId : ProviderId) (c : PagedRepoInput.t)
  (e : Event) : Prop :=
  exists o,
    e = EvGetPullRequestsForRepo providerId (PagedRepoInput.repo c) o
    /\ GetPullRequestsOptions.cursor o = PagedRepoInput.cursor c.

Definition IssuesQueryFor (providerId : ProviderId) (c : PagedRepoInput.t)
  (e : Event) : Prop :=
  exists o,
    e = EvGetIssuesForRepo providerId (PagedRepoInput.repo c) o
    /\ GetIssuesOptions.cursor o = PagedRepoInput.cursor c.

Definition ProjectIssuesQueryFor (c : PagedProjectInput.t) (e : Event) : Prop :=
  exists o,
    e = EvGetIssuesForAzureProject (PagedProjectInput.namespace c)
          (PagedProjectInput.project c) o
    /\ GetIssuesOptions.cursor o = PagedProjectInput.cursor c.

Lemma queries_for {U} (P : U -> Event -> Prop) (f : U -> Event) (l : list U) :
  (forall u, P u (f u)) -> (forall u, isQueryCall (f u) = true) ->
  Forall2 P l (filter isQueryCall (map f l)).
Proof.
  intros HP Hq. induction l as [|u l IH]; simpl; [constructor|].
  rewrite Hq. constructor; [apply HP | exact IH].
Qed.

(** C1. On the fan-out path, a caller cursor that decodes to a non-empty
    list of entries makes the service query exactly the units of those
    entries, in their order, each with its stored cursor: the query calls
    of the whole operation correspond one to one to the cursor's entries,
    each made for the unit of its entry with the entry's cursor in the
    [cursor] option, whatever the repository input is.  This holds for
    pull requests, for issues by repository and for AzureDevOps issues by
    project. *)
Theorem resume_queries_cursor_units (order : list nat) :
  (forall providerId reposOrRepoIds options t o cursors,
      PullRequestsFanOut providerId reposOrRepoIds options t o cursors ->
      cursors <> [] ->
      Forall2 (PullRequestsQueryFor providerId) cursors
        (filter isQueryCall
           (fst (getPullRequestsForRepos api order providerId reposOrRepoIds options))))
  /\ (forall providerId reposOrRepoIds options t o cursors,
         IssuesFanOut providerId reposOrRepoIds options t o cursors ->
         cursors <> [] ->
         Forall2 (IssuesQueryFor providerId) cursors
           (filter isQueryCall
              (fst (getIssuesForRepos api order providerId reposOrRepoIds options))))
  /\ (forall reposOrRepoIds options t organization projects o cursors,
         AzureIssuesFanOut reposOrRepoIds options t organization projects o cursors ->
         cursors <> [] ->
         Forall2 ProjectIssuesQueryFor cursors
           (filter isQueryCall
              (fst (getIssuesForRepos api order AzureDevOps reposOrRepoIds options)))).
Proof.
  split; [|split].
  - intros providerId reposOrRepoIds options t o cursors H Hne.
    rewrite (getPullRequestsForRepos_fanOut _ _ _ _ _ _ _ H).
    destruct H as (Hpre & _).
    cbn [fst]. rewrite filter_app, (pullRequestsPrelude_queries _ _ _ _ _ Hpre).
    rewrite resumeOr_cursors by assumption. cbn [app].
    apply queries_for; [|reflexivity].
    intros c. eexists. split; [reflexivity|]. now destruct o.
  - intros providerId reposOrRepoIds options t o cursors H Hne.
    rewrite (getIssuesForRepos_fanOut _ _ _ _ _ _ _ H).
    destruct H as (_ & Hpre & _).
    cbn [fst]. rewrite filter_app, (issuesPrelude_queries _ _ _ _ _ Hpre).
    rewrite resumeOr_cursors by assumption. cbn [app].
    apply queries_for; [|reflexivity].
    intros c. eexists. split; [reflexivity|]. now destruct o.
  - intros reposOrRepoIds options t organization projects o cursors H Hne.
    rewrite (getIssuesForRepos_azureFanOut _ _ _ _ _ _ _ _ H).
    destruct H as (Hpre & _).
    cbn [fst]. rewrite filter_app, (azureIssuesPrelude_queries _ _ _ _ _ Hpre).
    rewrite resumeOr_cursors by assumption. cbn [app].
    apply queries_for; [|reflexivity].
    intros c. eexists. split; [reflexivity|]. now destruct o.
Qed.

(** C2. On the fan-out path, when every unit call succeeds, the merged
    [more] flag is true exactly when some unit's page reported more, and the
    returned cursor is a string that decodes to the entries of exactly the
    units that reported more, each with the cursor its page returned; when
    no unit reports more it decodes to the empty list.  [page u] is the page
    the call for unit [u] resolves with.  The entry expected for a unit [u]
    is written out: the repository of [u] (the organization and project of
    [u]) with the cursor [c] of its page, whatever cursor [u] itself had. *)
Theorem merged_more_and_cursor (order : list nat) :
  (forall providerId reposOrRepoIds options t o cursors page,
      let units := resumeOr cursors (freshRepoInputs reposOrRepoIds) in
      PullRequestsFanOut providerId reposOrRepoIds options t o cursors ->
      Permutation order (seq 0 (List.length units)) ->
      Forall (fun u => pullRequestsForRepoCall api providerId o u = Resolve (page u))
        units ->
      MoreAndCursor pagedRepoInputOfJson
        (fun u c => PagedRepoInput.mk (PagedRepoInput.repo u) c) page units
        (snd (getPullRequestsForRepos api order providerId reposOrRepoIds options)))
  /\ (forall providerId reposOrRepoIds options t o cursors page,
         let units := resumeOr cursors (freshRepoInputs reposOrRepoIds) in
         IssuesFanOut providerId reposOrRepoIds options t o cursors ->
         Permutation order (seq 0 (List.length units)) ->
         Forall (fun u => issuesForRepoCall api providerId o u = Resolve (page u))
           units ->
         MoreAndCursor pagedRepoInputOfJson
           (fun u c => PagedRepoInput.mk (PagedRepoInput.repo u) c) page units
           (snd (getIssuesForRepos api order providerId reposOrRepoIds options)))
  /\ (forall reposOrRepoIds options t organization projects o cursors page,
         let units := resumeOr cursors (freshProjectInputs organization projects) in
         AzureIssuesFanOut reposOrRepoIds options t organization projects o cursors ->
         Permutation order (seq 0 (List.length units)) ->
         Forall (fun u => issuesForAzureProjectCall api o u = Resolve (page u)) units ->
         MoreAndCursor pagedProjectInputOfJson
           (fun u c => PagedProjectInput.mk (PagedProjectInput.namespace u)
                         (PagedProjectInput.project u) c) page units
           (snd (getIssuesForRepos api order AzureDevOps reposOrRepoIds options))).
Proof.
  split; [|split]; intros.
  - rewrite (getPullRequestsForRepos_fanOut _ _ _ _ _ _ _ H). cbn [snd].
    apply (fanOut_more_and_cursor (pullRequestsForRepoCall api providerId o)
             nextRepoInput pagedRepoInputToJson pagedRepoInputOfJson page);
      auto using pagedRepoInput_roundtrip, pagedRepoInput_numFree.
  - rewrite (getIssuesForRepos_fanOut _ _ _ _ _ _ _ H). cbn [snd].
    apply (fanOut_more_and_cursor (issuesForRepoCall api providerId o)
             nextRepoInput pagedRepoInputToJson pagedRepoInputOfJson page);
      auto using pagedRepoInput_roundtrip, pagedRepoInput_numFree.
  - rewrite (getIssuesForRepos_azureFanOut _ _ _ _ _ _ _ _ H). cbn [snd].
    apply (fanOut_more_and_cursor (issuesForAzureProjectCall api o)
             nextProjectInput pagedProjectInputToJson pagedProjectInputOfJson page);
      auto using pagedProjectInput_roundtrip, pagedProjectInput_numFree.
Qed.

(** C3, as the code has it. On the fan-out path, when every unit call
    succeeds, the merged values are the units' value sequences one after
    the other in the order in which the unit calls settle, each unit's own
    order kept; when the calls settle in unit order this is the
    concatenation in unit order. *)
Theorem merged_values_by_settling (order : list nat) :
  (forall providerId reposOrRepoIds options t o cursors page,
      let units := resumeOr cursors (freshRepoInputs reposOrRepoIds) in
      PullRequestsFanOut providerId reposOrRepoIds options t o cursors ->
      Forall (fun u => pullRequestsForRepoCall api providerId o u = Resolve (page u))
        units ->
      ValuesBySettling page units order
        (snd (getPullRequestsForRepos api order providerId reposOrRepoIds options)))
  /\ (forall providerId reposOrRepoIds options t o cursors page,
         let units := resumeOr cursors (freshRepoInputs reposOrRepoIds) in
         IssuesFanOut providerId reposOrRepoIds options t o cursors ->
         Forall (fun u => issuesForRepoCall api providerId o u = Resolve (page u))
           units ->
         ValuesBySettling page units order
           (snd (getIssuesForRepos api order providerId reposOrRepoIds options)))
  /\ (forall reposOrRepoIds options t organization projects o cursors page,
         let units := resumeOr cursors (freshProjectInputs organization projects) in
         AzureIssuesFanOut reposOrRepoIds options t organization projects o cursors ->
         Forall (fun u => issuesForAzureProjectCall api o u = Resolve (page u)) units ->
         ValuesBySettling page units order
           (snd (getIssuesForRepos api order AzureDevOps reposOrRepoIds options))).
Proof.
  split; [|split]; intros.
  - rewrite (getPullRequestsForRepos_fanOut _ _ _ _ _ _ _ H). cbn [snd].
    now apply fanOut_values.
  - rewrite (getIssuesForRepos_fanOut _ _ _ _ _ _ _ H). cbn [snd].
    now apply fanOut_values.
  - rewrite (getIssuesForRepos_azureFanOut _ _ _ _ _ _ _ _ H). cbn [snd].
    now apply fanOut_values.
Qed.

(** C4. On the fan-out path, if the call of any one unit fails, the whole
    operation resolves with [undefined], whatever the other calls returned
    and in whatever order the calls settle: no value of a sibling call
    reaches the caller. *)
Theorem fan_out_fails_fast (order : list nat) :
  (forall providerId reposOrRepoIds options t o cursors u,
      let units := resumeOr cursors (freshRepoInputs reposOrRepoIds) in
      PullRequestsFanOut providerId reposOrRepoIds options t o cursors ->
      Permutation order (seq 0 (List.length units)) ->
      In u units -> pullRequestsForRepoCall api providerId o u = Reject ->
      snd (getPullRequestsForRepos api order providerId reposOrRepoIds options)
      = Undefined ProviderCallFailed)
  /\ (forall providerId reposOrRepoIds options t o cursors u,
         let units := resumeOr cursors (freshRepoInputs reposOrRepoIds) in
         IssuesFanOut providerId reposOrRepoIds options t o cursors ->
         Permutation order (seq 0 (List.length units)) ->
         In u units -> issuesForRepoCall api providerId o u = Reject ->
         snd (getIssuesForRepos api order providerId reposOrRepoIds options)
         = Undefined ProviderCallFailed)
  /\ (forall reposOrRepoIds options t organization projects o cursors u,
         let units := resumeOr cursors (freshProjectInputs organization projects) in
         AzureIssuesFanOut reposOrRepoIds options t organization projects o cursors ->
         Permutation order (seq 0 (List.length units)) ->
         In u units -> issuesForAzureProjectCall api o u = Reject ->
         snd (getIssuesForRepos api order AzureDevOps reposOrRepoIds options)
         = Undefined ProviderCallFailed).
Proof.
  split; [|split]; intros.
  - rewrite (getPullRequestsForRepos_fanOut _ _ _ _ _ _ _ H). cbn [snd].
    eapply fanOut_rejected; eauto.
  - rewrite (getIssuesForRepos_fanOut _ _ _ _ _ _ _ H). cbn [snd].
    eapply fanOut_rejected; eauto.
  - rewrite (getIssuesForRepos_azureFanOut _ _ _ _ _ _ _ _ H). cbn [snd].
    eapply fanOut_rejected; eauto.
Qed.

(** *** Queries without filters *)

Definition sessionOrBare (providerId : ProviderId) (e : Event) : Prop :=
  e = EvGetSession providerId \/ identityOptionsAbsent e.

Lemma bare_no_identity (providerId : ProviderId) (e : Event) :
  sessionOrBare providerId e ->
  isIdentityCall e = false /\ (isTransportCall e = true -> identityOptionsAbsent e).
Proof.
  intros [->|H]; [split; [reflexivity | discriminate]|].
  split; [|now intros _]. destruct e; simpl in H; try contradiction; reflexivity.
Qed.

Lemma pullRequestsPaging_bare (order : list nat) (providerId : ProviderId)
  (reposOrRepoIds : ProviderReposInput)
  (options : option (QueryOptions.t PullRequestFilter)) :
  traceAll (sessionOrBare providerId)
    (pullRequestsPaging api order providerId reposOrRepoIds options None).
Proof.
  unfold pullRequestsPaging.
  destruct (_ && _).
  - destruct (decodeCursors _ _); try apply traceAll_exit;
      apply traceAll_events, Forall_forall; intros e He;
      apply in_map_iff in He as (u & <- & _); right; simpl; auto.
  - trace_all. right. simpl. auto.
Qed.

Lemma issuesPaging_bare (order : list nat) (providerId : ProviderId)
  (reposOrRepoIds : ProviderReposInput)
  (options : option (QueryOptions.t IssueFilter)) :
  traceAll (sessionOrBare providerId)
    (issuesPaging api order providerId reposOrRepoIds options None).
Proof.
  unfold issuesPaging.
  destruct (_ && _).
  - destruct (decodeCursors _ _); try apply traceAll_exit;
      apply traceAll_events, Forall_forall; intros e He;
      apply in_map_iff in He as (u & <- & _); right; simpl; auto.
  - trace_all. right. simpl. auto.
Qed.

Lemma azureIssuesPaging_bare (order : list nat) (providerId : ProviderId)
  (options : option (QueryOptions.t IssueFilter))
  (organization : jstring) (projects : list jstring) :
  traceAll (sessionOrBare providerId)
    (azureIssuesPaging api order options organization projects None).
Proof.
  unfold azureIssuesPaging.
  destruct (decodeCursors _ _); try apply traceAll_exit;
    apply traceAll_events, Forall_forall; intros e He;
    apply in_map_iff in He as (u & <- & _); right; simpl; auto.
Qed.

(** C10. Without the [filters] option neither operation resolves an
    identity: no call of [getCurrentUser] or [getCurrentUserForInstance] is
    issued, and every call to the transport is a paging query whose options
    carry no identity filter. *)
Theorem no_filters_no_identity (order : list nat) (providerId : ProviderId)
  (reposOrRepoIds : ProviderReposInput) :
  (forall options, optFilters options = None ->
     forall e,
       In e (fst (getPullRequestsForRepos api order providerId reposOrRepoIds options)) ->
       isIdentityCall e = false
       /\ (isTransportCall e = true -> identityOptionsAbsent e))
  /\ (forall options, optFilters options = None ->
        forall e,
          In e (fst (getIssuesForRepos api order providerId reposOrRepoIds options)) ->
          isIdentityCall e = false
          /\ (isTransportCall e = true -> identityOptionsAbsent e)).
Proof.
  split; intros options Hf e He; apply (bare_no_identity providerId);
    revert e He; apply Forall_forall, traceAll_run.
  - unfold pullRequestsPrelude, pullRequestsOptions. rewrite Hf.
    rewrite bind_assoc. apply traceAll_bind.
    + apply traceAll_await. now left.
    + intros session. destruct (negb session); [apply traceAll_exit|].
      destruct (unsupportedInput _ _ _); [apply traceAll_exit|].
      rewrite bind_ret_l. apply pullRequestsPaging_bare.
  - unfold issuesEntry. rewrite bind_assoc. apply traceAll_bind.
    + apply traceAll_await. now left.
    + intros session. destruct (negb session); [apply traceAll_exit|].
      destruct (unsupportedInput _ _ _); [apply traceAll_exit|].
      rewrite bind_ret_l.
      destruct (ProviderId_eqb providerId AzureDevOps).
      * unfold azureIssuesOptions. rewrite Hf.
        destruct (1 <? _); [apply traceAll_exit|].
        destruct (organizationsOf reposOrRepoIds); [apply traceAll_exit|].
        rewrite !bind_ret_l. apply azureIssuesPaging_bare.
      * unfold issuesOptions. rewrite Hf, bind_ret_l. apply issuesPaging_bare.
Qed.

(** *** The organizations of an AzureDevOps query *)

Lemma existsb_jstring_eqb (x : jstring) (s : list jstring) :
  existsb (jstring_eqb x) s = true <-> In x s.
Proof.
  rewrite existsb_exists. split.
  - intros (y & Hy & E). apply jstring_eqb_eq in E. now subst.
  - intros H. exists x. split; [exact H | apply jstring_eqb_refl].
Qed.

Lemma setAdd_in (s : list jstring) (x y : jstring) :
  In y (setAdd s x) <-> In y s \/ y = x.
Proof.
  unfold setAdd. destruct (existsb (jstring_eqb x) s) eqn:E.
  - apply existsb_jstring_eqb in E. split; [now left | intros [H| ->]; assumption].
  - rewrite in_app_iff. simpl. intuition.
Qed.

Lemma setAdd_NoDup (s : list jstring) (x : jstring) : NoDup s -> NoDup (setAdd s x).
Proof.
  intros H. unfold setAdd. destruct (existsb (jstring_eqb x) s) eqn:E; [exact H|].
  assert (Hx : ~ In x s).
  { intros Hin. apply existsb_jstring_eqb in Hin. congruence. }
  clear E. induction H as [|a s Ha Hs IH]; simpl.
  - constructor; [intros [] | constructor].
  - constructor.
    + rewrite in_app_iff. simpl. intros [H|[H|[]]]; [contradiction|].
      apply Hx. now left.
    + apply IH. intros H. apply Hx. now right.
Qed.

Lemma organizations_fold (l : list ProviderRepoInput.t) (acc : list jstring) :
  NoDup acc ->
  NoDup (fold_left (fun organizations repo =>
                      setAdd organizations (ProviderRepoInput.namespace repo)) l acc)
  /\ forall x,
      In x (fold_left (fun organizations repo =>
                         setAdd organizations (ProviderRepoInput.namespace repo)) l acc)
      <-> In x acc \/ In x (map ProviderRepoInput.namespace l).
Proof.
  revert acc. induction l as [|r l IH]; intros acc Hacc; simpl.
  - split; [exact Hacc | intuition].
  - destruct (IH (setAdd acc (ProviderRepoInput.namespace r)) (setAdd_NoDup _ _ Hacc))
      as [Hnd Hin].
    split; [exact Hnd|]. intros x. rewrite Hin, setAdd_in. intuition.
Qed.

(** [organizations.size] is the number of distinct namespaces of the input. *)
Lemma organizationsOf_distinct (reposOrRepoIds : ProviderReposInput)
  (distinct : list jstring) :
  NoDup distinct ->
  (forall x, In x distinct <->
             In x (map ProviderRepoInput.namespace (asRepoInputs reposOrRepoIds))) ->
  List.length (organizationsOf reposOrRepoIds) = List.length distinct.
Proof.
  intros Hnd Hin. apply Permutation_length, NoDup_Permutation.
  - apply organizations_fold. constructor.
  - exact Hnd.
  - intros x. unfold organizationsOf.
    rewrite (proj2 (organizations_fold _ [] (NoDup_nil _))), Hin. simpl. intuition.
Qed.

(** C7, as the code has it. For AzureDevOps with an input that passes the
    session check and the input guard: an issue query, with or without
    filters, and a pull-request query whose filters are present and
    supported, fail with NoOrganization when the input has no namespace at
    all and with MultipleOrganizationsNotSupported when it has more than one
    distinct namespace, and the session check is the only call made.
    [distinct] lists the distinct namespaces of the input. *)
Theorem azure_organization_check (order : list nat)
  (reposOrRepoIds : ProviderReposInput) (distinct : list jstring) :
  ProvidersApi.getSession api AzureDevOps = Resolve true ->
  unsupportedInput api AzureDevOps reposOrRepoIds = false ->
  NoDup distinct ->
  (forall x, In x distinct <->
             In x (map ProviderRepoInput.namespace (asRepoInputs reposOrRepoIds))) ->
  (forall options,
      (List.length distinct = 0 ->
       getIssuesForRepos api order AzureDevOps reposOrRepoIds options
       = ([EvGetSession AzureDevOps], Undefined NoOrganization))
      /\ (1 < List.length distinct ->
          getIssuesForRepos api order AzureDevOps reposOrRepoIds options
          = ([EvGetSession AzureDevOps], Undefined MultipleOrganizationsNotSupported)))
  /\ (forall options filters,
         optFilters options = Some filters ->
         ProvidersApi.providerSupportsPullRequestFilters api AzureDevOps filters = true ->
         (List.length distinct = 0 ->
          getPullRequestsForRepos api order AzureDevOps reposOrRepoIds options
          = ([EvGetSession AzureDevOps], Undefined NoOrganization))
         /\ (1 < List.length distinct ->
             getPullRequestsForRepos api order AzureDevOps reposOrRepoIds options
             = ([EvGetSession AzureDevOps],
                Undefined MultipleOrganizationsNotSupported))).
Proof.
  intros Hsession Hguard Hnd Hin.
  pose proof (organizationsOf_distinct _ _ Hnd Hin) as Hlen.
  split.
  - intros options.
    unfold getIssuesForRepos, issuesEntry, ensureSession, azureIssuesOptions.
    rewrite Hsession, Hguard. cbn [await bind negb ret app fst snd ProviderId_eqb].
    split; intros Hd.
    + destruct (organizationsOf reposOrRepoIds); [reflexivity | simpl in Hlen; lia].
    + replace (1 <? List.length (organizationsOf reposOrRepoIds)) with true;
        [reflexivity|]. symmetry. apply Nat.ltb_lt. lia.
  - intros options filters Hf Hsup.
    unfold getPullRequestsForRepos, pullRequestsPrelude, ensureSession,
      pullRequestsOptions.
    rewrite Hsession, Hguard, Hf, Hsup.
    cbn [await bind negb ret app fst snd ProviderId_eqb].
    split; intros Hd.
    + destruct (organizationsOf reposOrRepoIds); [reflexivity | simpl in Hlen; lia].
    + replace (1 <? List.length (organizationsOf reposOrRepoIds)) with true;
        [reflexivity|]. symmetry. apply Nat.ltb_lt. lia.
Qed.

(** *** Where an error can escape

    A rejection of the session lookup and a throw while the cursor is read
    are outside every [try]; nothing else makes an operation reject. *)

Lemma fanOut_not_rejected {U T} (call : U -> Resp (PagedResult.t T))
  (withCursor : U -> option jstring -> U) (toJson : U -> json)
  (order : list nat) (units : list U) (e : Exn) :
  fanOut call withCursor toJson order units <> Rejected e.
Proof.
  unfold fanOut. destruct (merge _ _ _ _ _) as [[[data cursors] hasMore]|]; discriminate.
Qed.

Lemma pull_requests_rejection_cause (order : list nat) (providerId : ProviderId)
  (reposOrRepoIds : ProviderReposInput)
  (options : option (QueryOptions.t PullRequestFilter)) (e : Exn) :
  snd (getPullRequestsForRepos api order providerId reposOrRepoIds options) = Rejected e ->
  (ProvidersApi.getSession api providerId = Reject /\ e = SessionError)
  \/ decodeCursors pagedRepoInputOfJson (optCursor options) = DecThrows e.
Proof.
  revert e.
  change (endsAll (fun out => forall e, out = Rejected e ->
                     (ProvidersApi.getSession api providerId = Reject /\ e = SessionError)
                     \/ decodeCursors pagedRepoInputOfJson (optCursor options)
                        = DecThrows e)
            (getPullRequestsOptions <-
               pullRequestsPrelude api providerId reposOrRepoIds options ;;
             pullRequestsPaging api order providerId reposOrRepoIds options
               getPullRequestsOptions)%op).
  apply endsAll_bind.
  - unfold pullRequestsPrelude, pullRequestsOptions, ensureSession.
    apply exitsAll_bind.
    + apply exitsAll_await. intros Hs e E. injection E as <-. now left.
    + intros session. exits_all; try discriminate;
        try (apply exitsAll_await; discriminate).
  - intros o. unfold endsAll, pullRequestsPaging.
    destruct (_ && _).
    + destruct (decodeCursors _ _) eqn:Ed; simpl.
      * intros e' E. injection E as <-. now right.
      * intros e' E. now apply fanOut_not_rejected in E.
      * discriminate.
      * discriminate.
    + destruct (ProvidersApi.getPullRequestsForRepos _ _ _ _); simpl; discriminate.
Qed.

Lemma issues_rejection_cause (order : list nat) (providerId : ProviderId)
  (reposOrRepoIds : ProviderReposInput)
  (options : option (QueryOptions.t IssueFilter)) (e : Exn) :
  snd (getIssuesForRepos api order providerId reposOrRepoIds options) = Rejected e ->
  (ProvidersApi.getSession api providerId = Reject /\ e = SessionError)
  \/ decodeCursors pagedProjectInputOfJson (optCursor options) = DecThrows e
  \/ decodeCursors pagedRepoInputOfJson (optCursor options) = DecThrows e.
Proof.
  revert e.
  set (P := fun out : Outcome Issue =>
              forall e, out = Rejected e ->
                (ProvidersApi.getSession api providerId = Reject /\ e = SessionError)
                \/ decodeCursors pagedProjectInputOfJson (optCursor options) = DecThrows e
                \/ decodeCursors pagedRepoInputOfJson (optCursor options) = DecThrows e).
  change (endsAll P
            (_ <- issuesEntry api providerId reposOrRepoIds ;;
             if ProviderId_eqb providerId AzureDevOps then
               x <- azureIssuesOptions api providerId reposOrRepoIds (optFilters options) ;;
               let '(organization, projects, getIssuesOptions) := x in
               azureIssuesPaging api order options organization projects getIssuesOptions
             else
               getIssuesOptions <- issuesOptions api providerId (optFilters options) ;;
               issuesPaging api order providerId reposOrRepoIds options
                 getIssuesOptions)%op).
  apply endsAll_bind.
  - unfold issuesEntry, ensureSession. apply exitsAll_bind.
    + apply exitsAll_await. intros Hs e E. injection E as <-. now left.
    + intros session. exits_all; discriminate.
  - intros _. destruct (ProviderId_eqb providerId AzureDevOps).
    + apply endsAll_bind.
      * unfold azureIssuesOptions. exits_all; try discriminate;
          try (apply exitsAll_await; discriminate).
      * intros [[organization projects] o]. unfold endsAll, azureIssuesPaging, P.
        destruct (decodeCursors pagedProjectInputOfJson _) eqn:Ed; simpl.
        -- intros e' E. injection E as <-. right. now left.
        -- intros e' E. now apply fanOut_not_rejected in E.
        -- discriminate.
        -- discriminate.
    + apply endsAll_bind.
      * unfold issuesOptions. exits_all; try discriminate;
          try (apply exitsAll_await; discriminate).
      * intros o. unfold endsAll, issuesPaging, P.
        destruct (_ && _).
        -- destruct (decodeCursors pagedRepoInputOfJson _) eqn:Ed; simpl.
           ++ intros e' E. injection E as <-. right. now right.
           ++ intros e' E. now apply fanOut_not_rejected in E.
           ++ discriminate.
           ++ discriminate.
        -- destruct (ProvidersApi.getIssuesForRepos _ _ _ _); simpl; discriminate.
Qed.

Lemma repos_rejection_cause (namespace project : jstring) (cursor : option jstring)
  (e : Exn) :
  snd (getReposForAzureProject api namespace project cursor) = Rejected e ->
  ProvidersApi.getSession api AzureDevOps = Reject /\ e = SessionError.
Proof.
  unfold getReposForAzureProject, ensureSession.
  destruct (ProvidersApi.getSession api AzureDevOps) as [[|]|]; simpl.
  - destruct (ProvidersApi.getReposForAzureProject _ _ _ _); simpl; discriminate.
  - discriminate.
  - intros E. injection E as <-. now split.
Qed.

(** *** The filter check

    A pull-request query with a filter the provider does not support stops
    after the session check.  An issue query of a provider other than
    AzureDevOps has no such check: with filters it always asks for the
    current user. *)

Lemma pull_requests_unsupported_filters (order : list nat) (providerId : ProviderId)
  (reposOrRepoIds : ProviderReposInput)
  (options : option (QueryOptions.t PullRequestFilter))
  (filters : list PullRequestFilter) :
  ProvidersApi.getSession api providerId = Resolve true ->
  unsupportedInput api providerId reposOrRepoIds = false ->
  optFilters options = Some filters ->
  ProvidersApi.providerSupportsPullRequestFilters api providerId filters = false ->
  getPullRequestsForRepos api order providerId reposOrRepoIds options
  = ([EvGetSession providerId], Undefined UnsupportedFilter).
Proof.
  intros Hs Hg Hf Hsup.
  unfold getPullRequestsForRepos, pullRequestsPrelude, ensureSession, pullRequestsOptions.
  rewrite Hs, Hg, Hf, Hsup. reflexivity.
Qed.

Lemma issues_filters_unchecked (order : list nat) (providerId : ProviderId)
  (reposOrRepoIds : ProviderReposInput)
  (options : option (QueryOptions.t IssueFilter)) (filters : list IssueFilter) :
  providerId <> AzureDevOps ->
  ProvidersApi.getSession api providerId = Resolve true ->
  unsupportedInput api providerId reposOrRepoIds = false ->
  optFilters options = Some filters ->
  In (EvGetCurrentUser providerId)
    (fst (getIssuesForRepos api order providerId reposOrRepoIds options)).
Proof.
  intros Hp Hs Hg Hf.
  unfold getIssuesForRepos, issuesEntry, ensureSession, issuesOptions.
  rewrite Hs, Hg, Hf, (ProviderId_eqb_neq _ _ Hp).
  cbn [await bind negb ret app fst snd].
  destruct (ProvidersApi.getCurrentUser api providerId) as [[account|]|];
    cbn [await bind ret exit app fst snd run].
  - destruct (ProviderAccount.username account); cbn [bind ret exit app fst snd run].
    + destruct (issuesPaging _ _ _ _ _ _) as [t [r|r]]; simpl; auto.
    + simpl; auto.
  - simpl; auto.
  - simpl; auto.
Qed.

End ServiceFacts.

(** * Concrete runs

    Two repositories of one namespace, two of an AzureDevOps project each
    in its own organization, and a transport that pages per repository:
    the call for [r1] returns two values and a cursor, every other call one
    value and no further page. *)

Definition r1 : ProviderRepoInput.t := ProviderRepoInput.mk (js "ns") (js "r1") None.
Definition r2 : ProviderRepoInput.t := ProviderRepoInput.mk (js "ns") (js "r2") None.

Definition repoA : ProviderRepoInput.t :=
  ProviderRepoInput.mk (js "org-a") (js "ra") (Some (js "proj")).
Definition repoB : ProviderRepoInput.t :=
  ProviderRepoInput.mk (js "org-b") (js "rb") (Some (js "proj")).

Definition alice : ProviderAccount.t :=
  ProviderAccount.mk (Some (js "42")) (Some (js "Alice A")) (Some (js "alice")).

Definition pageOne : PagedResult.t nat :=
  PagedResult.mk [1; 2] (Some (Paging.mk true (Some (js "c1")))).
Definition pageTwo : PagedResult.t nat :=
  PagedResult.mk [3] (Some (Paging.mk false None)).

Definition pageOfRepo (repo : ProviderRepoInput.t) : PagedResult.t nat :=
  if jstring_eqb (ProviderRepoInput.name repo) (js "r1") then pageOne else pageTwo.

Definition pageOfProject (project : jstring) : PagedResult.t nat :=
  if jstring_eqb project (js "proj") then pageOne else pageTwo.

Definition perRepoApi : ProvidersApi.t nat nat nat :=
  ProvidersApi.mk nat nat nat
    (fun _ => Resolve true)
    false
    (fun _ => [PrAuthor; PrAssignee])
    (fun _ => [IsAuthor; IsAssignee])
    (fun _ => Repo)
    (fun _ => Repo)
    (fun _ => Resolve (Some alice))
    (fun _ _ => Resolve (Some alice))
    (fun _ repo _ => Resolve (pageOfRepo repo))
    (fun _ _ _ => Resolve pageTwo)
    (fun _ repo _ => Resolve (pageOfRepo repo))
    (fun _ project _ => Resolve (pageOfProject project))
    (fun _ _ _ => Resolve pageTwo)
    (fun _ _ _ => Resolve pageTwo).

(** The same transport, where the call for [r2] (and for the project
    [down]) fails. *)
Definition failingApi : ProvidersApi.t nat nat nat :=
  ProvidersApi.mk nat nat nat
    (fun _ => Resolve true)
    false
    (fun _ => [PrAuthor; PrAssignee])
    (fun _ => [IsAuthor; IsAssignee])
    (fun _ => Repo)
    (fun _ => Repo)
    (fun _ => Resolve (Some alice))
    (fun _ _ => Resolve (Some alice))
    (fun _ repo _ =>
       if jstring_eqb (ProviderRepoInput.name repo) (js "r2") then Reject
       else Resolve (pageOfRepo repo))
    (fun _ _ _ => Resolve pageTwo)
    (fun _ repo _ =>
       if jstring_eqb (ProviderRepoInput.name repo) (js "r2") then Reject
       else Resolve (pageOfRepo repo))
    (fun _ project _ =>
       if jstring_eqb project (js "down") then Reject
       else Resolve (pageOfProject project))
    (fun _ _ _ => Resolve pageTwo)
    (fun _ _ _ => Resolve pageTwo).

(** A transport that goes on from a cursor: a call with a cursor returns
    one more value and, again, more, with the cursor [c2]. *)
Definition pageNext : PagedResult.t nat :=
  PagedResult.mk [4] (Some (Paging.mk true (Some (js "c2")))).

Definition pagingApi : ProvidersApi.t nat nat nat :=
  ProvidersApi.mk nat nat nat
    (fun _ => Resolve true)
    false
    (fun _ => [PrAuthor; PrAssignee])
    (fun _ => [IsAuthor; IsAssignee])
    (fun _ => Repo)
    (fun _ => Repo)
    (fun _ => Resolve (Some alice))
    (fun _ _ => Resolve (Some alice))
    (fun _ repo o =>
       Resolve (match GetPullRequestsOptions.cursor o with
                | Some _ => pageNext
                | None => pageOfRepo repo
                end))
    (fun _ _ _ => Resolve pageTwo)
    (fun _ repo o =>
       Resolve (match GetIssuesOptions.cursor o with
                | Some _ => pageNext
                | None => pageOfRepo repo
                end))
    (fun _ project o =>
       Resolve (match GetIssuesOptions.cursor o with
                | Some _ => pageNext
                | None => pageOfProject project
                end))
    (fun _ _ _ => Resolve pageTwo)
    (fun _ _ _ => Resolve pageTwo).

(** The cursor a first call over [r1], [r2] returned: [r1] goes on at [c1]. *)
Definition resumeR1 : list PagedRepoInput.t := [PagedRepoInput.mk r1 (Some (js "c1"))].

Definition resumeProj : list PagedProjectInput.t :=
  [PagedProjectInput.mk (js "org-a") (js "proj") (Some (js "c1"))].

Definition withRepoCursor {F} (filters : option (list F)) : option (QueryOptions.t F) :=
  Some (QueryOptions.mk filters (Some (encodeCursors pagedRepoInputToJson resumeR1))).

Definition withProjectCursor {F} (filters : option (list F))
  : option (QueryOptions.t F) :=
  Some (QueryOptions.mk filters (Some (encodeCursors pagedProjectInputToJson resumeProj))).

Lemma resume_queries_cursor_units_witness :
  (PullRequestsFanOut perRepoApi GitHub (RepoInputs [r2]) (withRepoCursor None)
     [EvGetSession GitHub] None resumeR1
   /\ resumeR1 <> []
   /\ filter isQueryCall
        (fst (getPullRequestsForRepos perRepoApi [0] GitHub (RepoInputs [r2])
                (withRepoCursor None)))
      = [EvGetPullRequestsForRepo GitHub r1
           (GetPullRequestsOptions.mk None None None None (Some (js "c1")))]
   /\ Forall2 (PullRequestsQueryFor GitHub) resumeR1
        (filter isQueryCall
           (fst (getPullRequestsForRepos perRepoApi [0] GitHub (RepoInputs [r2])
                   (withRepoCursor None)))))
  /\ (IssuesFanOut perRepoApi GitHub (RepoInputs [r2]) (withRepoCursor None)
        [EvGetSession GitHub] None resumeR1
      /\ filter isQueryCall
           (fst (getIssuesForRepos perRepoApi [0] GitHub (RepoInputs [r2])
                   (withRepoCursor None)))
         = [EvGetIssuesForRepo GitHub r1
              (GetIssuesOptions.mk None None None (Some (js "c1")))]
      /\ Forall2 (IssuesQueryFor GitHub) resumeR1
           (filter isQueryCall
              (fst (getIssuesForRepos perRepoApi [0] GitHub (RepoInputs [r2])
                      (withRepoCursor None)))))
  /\ (AzureIssuesFanOut perRepoApi (RepoInputs [repoA]) (withProjectCursor None)
        [EvGetSession AzureDevOps] (js "org-a") [js "proj"] None resumeProj
      /\ filter isQueryCall
           (fst (getIssuesForRepos perRepoApi [0] AzureDevOps (RepoInputs [repoA])
                   (withProjectCursor None)))
         = [EvGetIssuesForAzureProject (js "org-a") (js "proj")
              (GetIssuesOptions.mk None None None (Some (js "c1")))]
      /\ Forall2 ProjectIssuesQueryFor resumeProj
           (filter isQueryCall
              (fst (getIssuesForRepos perRepoApi [0] AzureDevOps (RepoInputs [repoA])
                      (withProjectCursor None))))).
Proof.
  assert (H1 : PullRequestsFanOut perRepoApi GitHub (RepoInputs [r2])
                 (withRepoCursor None) [EvGetSession GitHub] None resumeR1)
    by (repeat split; vm_compute; reflexivity).
  assert (H2 : IssuesFanOut perRepoApi GitHub (RepoInputs [r2]) (withRepoCursor None)
                 [EvGetSession GitHub] None resumeR1)
    by (repeat split; try discriminate; vm_compute; reflexivity).
  assert (H3 : AzureIssuesFanOut perRepoApi (RepoInputs [repoA]) (withProjectCursor None)
                 [EvGetSession AzureDevOps] (js "org-a") [js "proj"] None resumeProj)
    by (repeat split; vm_compute; reflexivity).
  assert (Hne : resumeR1 <> []) by discriminate.
  assert (Hne' : resumeProj <> []) by discriminate.
  destruct (resume_queries_cursor_units perRepoApi [0]) as (C1 & C2 & C3).
  split; [|split].
  - split; [exact H1|]. split; [exact Hne|]. split; [vm_compute; reflexivity|].
    exact (C1 _ _ _ _ _ _ H1 Hne).
  - split; [exact H2|]. split; [vm_compute; reflexivity|].
    exact (C2 _ _ _ _ _ _ H2 Hne).
  - split; [exact H3|]. split; [vm_compute; reflexivity|].
    exact (C3 _ _ _ _ _ _ _ H3 Hne').
Defined.

Definition pageOfRepoInput (u : PagedRepoInput.t) : PagedResult.t nat :=
  pageOfRepo (PagedRepoInput.repo u).

Definition pageOfProjectInput (u : PagedProjectInput.t) : PagedResult.t nat :=
  pageOfProject (PagedProjectInput.project u).

(** The page a unit gets from [pagingApi]. *)
Definition pageFrom (u : PagedRepoInput.t) : PagedResult.t nat :=
  match PagedRepoInput.cursor u with
  | Some _ => pageNext
  | None => pageOfRepo (PagedRepoInput.repo u)
  end.

Definition projectPageFrom (u : PagedProjectInput.t) : PagedResult.t nat :=
  match PagedProjectInput.cursor u with
  | Some _ => pageNext
  | None => pageOfProject (PagedProjectInput.project u)
  end.

(** Scenario A of the specification: [r1] returns two values, more and the
    cursor [c1]; [r2] returns one value and no more.  Here the call for
    [r2] settles first.  In the resumed runs the unit comes with the cursor
    [c1] and its page returns [c2]: the entry of the returned cursor has
    [c2]. *)
Lemma merged_more_and_cursor_witness :
  (PullRequestsFanOut perRepoApi GitHub (RepoInputs [r1; r2]) None
     [EvGetSession GitHub] None []
   /\ Permutation [1; 0] (seq 0 2)
   /\ MoreAndCursor pagedRepoInputOfJson
        (fun u c => PagedRepoInput.mk (PagedRepoInput.repo u) c) pageOfRepoInput
        (freshRepoInputs (RepoInputs [r1; r2]))
        (snd (getPullRequestsForRepos perRepoApi [1; 0] GitHub (RepoInputs [r1; r2]) None)))
  /\ (PullRequestsFanOut pagingApi GitHub (RepoInputs [r2]) (withRepoCursor None)
        [EvGetSession GitHub] None resumeR1
      /\ snd (getPullRequestsForRepos pagingApi [0] GitHub (RepoInputs [r2])
                (withRepoCursor None))
         = Returned (PagedResult.mk [4]
                       (Some (Paging.mk true
                                (Some (encodeCursors pagedRepoInputToJson
                                         [PagedRepoInput.mk r1 (Some (js "c2"))])))))
      /\ MoreAndCursor pagedRepoInputOfJson
           (fun u c => PagedRepoInput.mk (PagedRepoInput.repo u) c) pageFrom resumeR1
           (snd (getPullRequestsForRepos pagingApi [0] GitHub (RepoInputs [r2])
                   (withRepoCursor None))))
  /\ (IssuesFanOut perRepoApi GitHub (RepoInputs [r1; r2]) None
        [EvGetSession GitHub] None []
      /\ MoreAndCursor pagedRepoInputOfJson
           (fun u c => PagedRepoInput.mk (PagedRepoInput.repo u) c) pageOfRepoInput
           (freshRepoInputs (RepoInputs [r1; r2]))
           (snd (getIssuesForRepos perRepoApi [1; 0] GitHub (RepoInputs [r1; r2]) None)))
  /\ (AzureIssuesFanOut pagingApi (RepoInputs [repoA]) (withProjectCursor None)
        [EvGetSession AzureDevOps] (js "org-a") [js "proj"] None resumeProj
      /\ snd (getIssuesForRepos pagingApi [0] AzureDevOps (RepoInputs [repoA])
                (withProjectCursor None))
         = Returned (PagedResult.mk [4]
                       (Some (Paging.mk true
                                (Some (encodeCursors pagedProjectInputToJson
                                         [PagedProjectInput.mk (js "org-a") (js "proj")
                                            (Some (js "c2"))])))))
      /\ MoreAndCursor pagedProjectInputOfJson
           (fun u c => PagedProjectInput.mk (PagedProjectInput.namespace u)
                         (PagedProjectInput.project u) c)
           projectPageFrom resumeProj
           (snd (getIssuesForRepos pagingApi [0] AzureDevOps (RepoInputs [repoA])
                   (withProjectCursor None)))).
Proof.
  assert (H1 : PullRequestsFanOut perRepoApi GitHub (RepoInputs [r1; r2]) None
                 [EvGetSession GitHub] None [])
    by (repeat split; vm_compute; reflexivity).
  assert (H1' : PullRequestsFanOut pagingApi GitHub (RepoInputs [r2])
                  (withRepoCursor None) [EvGetSession GitHub] None resumeR1)
    by (repeat split; vm_compute; reflexivity).
  assert (H2 : IssuesFanOut perRepoApi GitHub (RepoInputs [r1; r2]) None
                 [EvGetSession GitHub] None [])
    by (repeat split; try discriminate; vm_compute; reflexivity).
  assert (H3 : AzureIssuesFanOut pagingApi (RepoInputs [repoA]) (withProjectCursor None)
                 [EvGetSession AzureDevOps] (js "org-a") [js "proj"] None resumeProj)
    by (repeat split; vm_compute; reflexivity).
  assert (Hp : Permutation [1; 0] (seq 0 2)) by apply perm_swap.
  split; [|split; [|split]].
  - split; [exact H1|]. split; [exact Hp|].
    apply (proj1 (merged_more_and_cursor perRepoApi [1; 0])
             GitHub (RepoInputs [r1; r2]) None [EvGetSession GitHub] None []
             pageOfRepoInput H1 Hp).
    repeat constructor.
  - split; [exact H1'|]. split; [vm_compute; reflexivity|].
    apply (proj1 (merged_more_and_cursor pagingApi [0])
             GitHub (RepoInputs [r2]) (withRepoCursor None) [EvGetSession GitHub] None
             resumeR1 pageFrom H1' (Permutation_refl _)).
    repeat constructor.
  - split; [exact H2|].
    apply (proj1 (proj2 (merged_more_and_cursor perRepoApi [1; 0]))
             GitHub (RepoInputs [r1; r2]) None [EvGetSession GitHub] None []
             pageOfRepoInput H2 Hp).
    repeat constructor.
  - split; [exact H3|]. split; [vm_compute; reflexivity|].
    apply (proj2 (proj2 (merged_more_and_cursor pagingApi [0]))
             (RepoInputs [repoA]) (withProjectCursor None) [EvGetSession AzureDevOps]
             (js "org-a") [js "proj"] None resumeProj projectPageFrom H3
             (Permutation_refl _)).
    repeat constructor.
Defined.

(** C3 fails as stated: with the units [r1] then [r2] returning [1; 2] and
    [3], and the call for [r2] settling first, the merged values are
    [3; 1; 2], not [1; 2; 3]. *)
Lemma merged_values_not_in_unit_order :
  Permutation [1; 0] (seq 0 2)
  /\ ProvidersApi.getPullRequestsForRepo perRepoApi GitHub r1
       (spreadPullRequestsOptions None None) = Resolve pageOne
  /\ ProvidersApi.getPullRequestsForRepo perRepoApi GitHub r2
       (spreadPullRequestsOptions None None) = Resolve pageTwo
  /\ (exists paging,
         snd (getPullRequestsForRepos perRepoApi [1; 0] GitHub (RepoInputs [r1; r2]) None)
         = Returned (PagedResult.mk [3; 1; 2] paging))
  /\ [3; 1; 2] <> PagedResult.values pageOne ++ PagedResult.values pageTwo.
Proof.
  split; [apply perm_swap|]. split; [reflexivity|]. split; [reflexivity|].
  split; [eexists; vm_compute; reflexivity | discriminate].
Qed.

Lemma merged_values_by_settling_witness :
  (PullRequestsFanOut perRepoApi GitHub (RepoInputs [r1; r2]) None
     [EvGetSession GitHub] None []
   /\ ValuesBySettling pageOfRepoInput (freshRepoInputs (RepoInputs [r1; r2])) [1; 0]
        (snd (getPullRequestsForRepos perRepoApi [1; 0] GitHub (RepoInputs [r1; r2]) None)))
  /\ (IssuesFanOut perRepoApi GitHub (RepoInputs [r1; r2]) None
        [EvGetSession GitHub] None []
      /\ ValuesBySettling pageOfRepoInput (freshRepoInputs (RepoInputs [r1; r2])) [0; 1]
           (snd (getIssuesForRepos perRepoApi [0; 1] GitHub (RepoInputs [r1; r2]) None)))
  /\ (AzureIssuesFanOut perRepoApi (RepoInputs [repoA]) None
        [EvGetSession AzureDevOps] (js "org-a") [js "proj"] None []
      /\ ValuesBySettling pageOfProjectInput
           (freshProjectInputs (js "org-a") [js "proj"]) [0]
           (snd (getIssuesForRepos perRepoApi [0] AzureDevOps (RepoInputs [repoA]) None))).
Proof.
  assert (H1 : PullRequestsFanOut perRepoApi GitHub (RepoInputs [r1; r2]) None
                 [EvGetSession GitHub] None [])
    by (repeat split; vm_compute; reflexivity).
  assert (H2 : IssuesFanOut perRepoApi GitHub (RepoInputs [r1; r2]) None
                 [EvGetSession GitHub] None [])
    by (repeat split; try discriminate; vm_compute; reflexivity).
  assert (H3 : AzureIssuesFanOut perRepoApi (RepoInputs [repoA]) None
                 [EvGetSession AzureDevOps] (js "org-a") [js "proj"] None [])
    by (repeat split; vm_compute; reflexivity).
  split; [|split].
  - split; [exact H1|].
    apply (proj1 (merged_values_by_settling perRepoApi [1; 0])
             GitHub (RepoInputs [r1; r2]) None [EvGetSession GitHub] None []
             pageOfRepoInput H1).
    repeat constructor.
  - split; [exact H2|].
    apply (proj1 (proj2 (merged_values_by_settling perRepoApi [0; 1]))
             GitHub (RepoInputs [r1; r2]) None [EvGetSession GitHub] None []
             pageOfRepoInput H2).
    repeat constructor.
  - split; [exact H3|].
    apply (proj2 (proj2 (merged_values_by_settling perRepoApi [0]))
             (RepoInputs [repoA]) None [EvGetSession AzureDevOps] (js "org-a")
             [js "proj"] None [] pageOfProjectInput H3).
    repeat constructor.
Defined.

Lemma fan_out_fails_fast_witness :
  (PullRequestsFanOut failingApi GitHub (RepoInputs [r1; r2]) None
     [EvGetSession GitHub] None []
   /\ Permutation [1; 0] (seq 0 2)
   /\ pullRequestsForRepoCall failingApi GitHub None (PagedRepoInput.mk r2 None) = Reject
   /\ snd (getPullRequestsForRepos failingApi [1; 0] GitHub (RepoInputs [r1; r2]) None)
      = Undefined ProviderCallFailed)
  /\ (IssuesFanOut failingApi GitHub (RepoInputs [r1; r2]) None
        [EvGetSession GitHub] None []
      /\ issuesForRepoCall failingApi GitHub None (PagedRepoInput.mk r2 None) = Reject
      /\ snd (getIssuesForRepos failingApi [0; 1] GitHub (RepoInputs [r1; r2]) None)
         = Undefined ProviderCallFailed)
  /\ (AzureIssuesFanOut failingApi
        (RepoInputs [repoA; ProviderRepoInput.mk (js "org-a") (js "rc") (Some (js "down"))])
        None [EvGetSession AzureDevOps] (js "org-a") [js "proj"; js "down"] None []
      /\ issuesForAzureProjectCall failingApi None
           (PagedProjectInput.mk (js "org-a") (js "down") None) = Reject
      /\ snd (getIssuesForRepos failingApi [0; 1] AzureDevOps
                (RepoInputs [repoA;
                             ProviderRepoInput.mk (js "org-a") (js "rc") (Some (js "down"))])
                None)
         = Undefined ProviderCallFailed).
Proof.
  assert (H1 : PullRequestsFanOut failingApi GitHub (RepoInputs [r1; r2]) None
                 [EvGetSession GitHub] None [])
    by (repeat split; vm_compute; reflexivity).
  assert (H2 : IssuesFanOut failingApi GitHub (RepoInputs [r1; r2]) None
                 [EvGetSession GitHub] None [])
    by (repeat split; try discriminate; vm_compute; reflexivity).
  assert (H3 : AzureIssuesFanOut failingApi
                 (RepoInputs [repoA;
                              ProviderRepoInput.mk (js "org-a") (js "rc") (Some (js "down"))])
                 None [EvGetSession AzureDevOps] (js "org-a") [js "proj"; js "down"]
                 None [])
    by (repeat split; vm_compute; reflexivity).
  assert (Hp : Permutation [1; 0] (seq 0 2)) by apply perm_swap.
  split; [|split].
  - split; [exact H1|]. split; [exact Hp|]. split; [reflexivity|].
    apply (proj1 (fan_out_fails_fast failingApi [1; 0])
             GitHub (RepoInputs [r1; r2]) None [EvGetSession GitHub] None []
             (PagedRepoInput.mk r2 None) H1 Hp); [right; left|]; reflexivity.
  - split; [exact H2|]. split; [reflexivity|].
    apply (proj1 (proj2 (fan_out_fails_fast failingApi [0; 1]))
             GitHub (RepoInputs [r1; r2]) None [EvGetSession GitHub] None []
             (PagedRepoInput.mk r2 None) H2 (Permutation_refl _));
      [right; left|]; reflexivity.
  - split; [exact H3|]. split; [reflexivity|].
    apply (proj2 (proj2 (fan_out_fails_fast failingApi [0; 1]))
             _ None [EvGetSession AzureDevOps] (js "org-a") [js "proj"; js "down"]
             None [] (PagedProjectInput.mk (js "org-a") (js "down") None) H3
             (Permutation_refl _)); [right; left|]; reflexivity.
Defined.

(** C6 fails as stated for issue queries: with the identity
    [{ id: 42, name: Alice A, username: alice }] and the filter Author, an
    AzureDevOps issue query filters by the display name and a Bitbucket
    issue query by the username; neither uses the id. *)
Lemma issue_queries_do_not_use_id :
  ProvidersApi.getCurrentUserForInstance perRepoApi AzureDevOps (js "org-a")
  = Resolve (Some alice)
  /\ ProvidersApi.getCurrentUser perRepoApi Bitbucket = Resolve (Some alice)
  /\ ProviderAccount.id alice = Some (js "42")
  /\ fst (getIssuesForRepos perRepoApi [0] AzureDevOps (RepoInputs [repoA])
            (Some (QueryOptions.mk (Some [IsAuthor]) None)))
     = [EvGetSession AzureDevOps;
        EvGetCurrentUserForInstance AzureDevOps (js "org-a");
        EvGetIssuesForAzureProject (js "org-a") (js "proj")
          (GetIssuesOptions.mk (Some (js "Alice A")) None None None)]
  /\ fst (getIssuesForRepos perRepoApi [0] Bitbucket (RepoInputs [r1])
            (Some (QueryOptions.mk (Some [IsAuthor]) None)))
     = [EvGetSession Bitbucket;
        EvGetCurrentUser Bitbucket;
        EvGetIssuesForRepo Bitbucket r1
          (GetIssuesOptions.mk (Some (js "alice")) None None None)]
  /\ js "Alice A" <> js "42"
  /\ js "alice" <> js "42".
Proof.
  repeat split; try reflexivity; discriminate.
Qed.

(** C7 fails as stated for pull-request queries without filters: an
    AzureDevOps input that spans [org-a] and [org-b] is fanned out, one
    call per repository, and a page is returned. *)
Lemma pull_requests_span_organizations :
  ProvidersApi.getSession perRepoApi AzureDevOps = Resolve true
  /\ unsupportedInput perRepoApi AzureDevOps (RepoInputs [repoA; repoB]) = false
  /\ map ProviderRepoInput.namespace [repoA; repoB] = [js "org-a"; js "org-b"]
  /\ js "org-a" <> js "org-b"
  /\ fst (getPullRequestsForRepos perRepoApi [0; 1] AzureDevOps
            (RepoInputs [repoA; repoB]) None)
     = [EvGetSession AzureDevOps;
        EvGetPullRequestsForRepo AzureDevOps repoA (spreadPullRequestsOptions None None);
        EvGetPullRequestsForRepo AzureDevOps repoB (spreadPullRequestsOptions None None)]
  /\ snd (getPullRequestsForRepos perRepoApi [0; 1] AzureDevOps
            (RepoInputs [repoA; repoB]) None)
     = Returned (PagedResult.mk [3; 3]
                   (Some (Paging.mk false
                            (Some (encodeCursors pagedRepoInputToJson []))))).
Proof.
  repeat split; try reflexivity; discriminate.
Qed.

Lemma azure_organization_check_witness :
  ProvidersApi.getSession perRepoApi AzureDevOps = Resolve true
  /\ unsupportedInput perRepoApi AzureDevOps (RepoInputs [repoA; repoB]) = false
  /\ NoDup [js "org-a"; js "org-b"]
  /\ 1 < List.length [js "org-a"; js "org-b"]
  /\ ProvidersApi.providerSupportsPullRequestFilters perRepoApi AzureDevOps [PrAuthor] = true
  /\ getIssuesForRepos perRepoApi [0; 1] AzureDevOps (RepoInputs [repoA; repoB]) None
     = ([EvGetSession AzureDevOps], Undefined MultipleOrganizationsNotSupported)
  /\ getPullRequestsForRepos perRepoApi [0; 1] AzureDevOps (RepoInputs [repoA; repoB])
       (Some (QueryOptions.mk (Some [PrAuthor]) None))
     = ([EvGetSession AzureDevOps], Undefined MultipleOrganizationsNotSupported)
  /\ getIssuesForRepos perRepoApi [] AzureDevOps (RepoInputs []) None
     = ([EvGetSession AzureDevOps], Undefined NoOrganization).
Proof.
  assert (Hnd : NoDup [js "org-a"; js "org-b"]).
  { constructor; [intros [H|[]]; discriminate H|].
    constructor; [intros []|constructor]. }
  assert (Hlen : 1 < List.length [js "org-a"; js "org-b"]) by (simpl; lia).
  pose proof (azure_organization_check perRepoApi [0; 1] (RepoInputs [repoA; repoB])
                [js "org-a"; js "org-b"] eq_refl eq_refl Hnd
                (fun x => conj (fun H => H) (fun H => H))) as [Hissues Hprs].
  pose proof (azure_organization_check perRepoApi [] (RepoInputs []) []
                eq_refl eq_refl (NoDup_nil _)
                (fun x => conj (fun H => H) (fun H => H))) as [Hnone _].
  split; [reflexivity|]. split; [reflexivity|]. split; [exact Hnd|].
  split; [exact Hlen|]. split; [reflexivity|].
  split; [exact (proj2 (Hissues None) Hlen)|].
  split; [exact (proj2 (Hprs (Some (QueryOptions.mk (Some [PrAuthor]) None))
                          [PrAuthor] eq_refl eq_refl) Hlen)|].
  exact (proj1 (Hnone None) eq_refl).
Defined.

Lemma no_filters_no_identity_witness :
  optFilters (F := PullRequestFilter) None = None
  /\ In (EvGetPullRequestsForRepo GitHub r2 (spreadPullRequestsOptions None None))
       (fst (getPullRequestsForRepos perRepoApi [0; 1] GitHub (RepoInputs [r1; r2]) None))
  /\ identityOptionsAbsent
       (EvGetPullRequestsForRepo GitHub r2 (spreadPullRequestsOptions None None))
  /\ In (EvGetIssuesForAzureProject (js "org-a") (js "proj")
           (spreadIssuesOptions None None))
       (fst (getIssuesForRepos perRepoApi [0] AzureDevOps (RepoInputs [repoA]) None))
  /\ identityOptionsAbsent
       (EvGetIssuesForAzureProject (js "org-a") (js "proj")
          (spreadIssuesOptions None None)).
Proof.
  assert (H1 : In (EvGetPullRequestsForRepo GitHub r2 (spreadPullRequestsOptions None None))
                 (fst (getPullRequestsForRepos perRepoApi [0; 1] GitHub
                         (RepoInputs [r1; r2]) None)))
    by (right; right; left; reflexivity).
  assert (H2 : In (EvGetIssuesForAzureProject (js "org-a") (js "proj")
                     (spreadIssuesOptions None None))
                 (fst (getIssuesForRepos perRepoApi [0] AzureDevOps
                         (RepoInputs [repoA]) None)))
    by (right; left; reflexivity).
  split; [reflexivity|]. split; [exact H1|].
  split.
  - exact (proj2 (proj1 (no_filters_no_identity perRepoApi [0; 1] GitHub
                           (RepoInputs [r1; r2])) None eq_refl _ H1) eq_refl).
  - split; [exact H2|].
    exact (proj2 (proj2 (no_filters_no_identity perRepoApi [0] AzureDevOps
                           (RepoInputs [repoA])) None eq_refl _ H2) eq_refl).
Defined.

(** C5: a run where the code misses the check. The registry of this run
    does not list Mention among GitLab's issue filters. A GitLab issue
    query that requests it resolves the current user and queries the
    transport with [mentionLogin] filled, where the pull-request path and
    the AzureDevOps issue path stop with UnsupportedFilter after the
    session check. *)
Theorem issue_filters_not_checked :
  ProvidersApi.providerSupportsIssueFilters perRepoApi GitLab [IsMention] = false
  /\ getIssuesForRepos perRepoApi [0] GitLab (RepoInputs [r1])
       (Some (QueryOptions.mk (Some [IsMention]) None))
     = ([EvGetSession GitLab;
         EvGetCurrentUser GitLab;
         EvGetIssuesForRepo GitLab r1
           (GetIssuesOptions.mk None None (Some (js "alice")) None)],
        Returned (PagedResult.mk [1; 2]
                    (Some (Paging.mk true
                             (Some (encodeCursors pagedRepoInputToJson resumeR1))))))
  /\ getIssuesForRepos perRepoApi [0] AzureDevOps (RepoInputs [repoA])
       (Some (QueryOptions.mk (Some [IsMention]) None))
     = ([EvGetSession AzureDevOps], Undefined UnsupportedFilter)
  /\ getPullRequestsForRepos perRepoApi [0] GitLab (RepoInputs [r1])
       (Some (QueryOptions.mk (Some [PrMention]) None))
     = ([EvGetSession GitLab], Undefined UnsupportedFilter).
Proof.
  repeat split; reflexivity.
Qed.

(** C8: a run where an error escapes. With the empty string as cursor,
    [JSON.parse] throws before the [try] of the fan-out is entered: the
    promise of the operation rejects with the syntax error, for an
    AzureDevOps issue query and for a per-repository pull-request query
    alike.  Without a cursor the same calls return a page. *)
Theorem empty_cursor_rejects :
  parse [] = None
  /\ getIssuesForRepos perRepoApi [0] AzureDevOps (RepoInputs [repoA])
       (Some (QueryOptions.mk None (Some [])))
     = ([EvGetSession AzureDevOps], Rejected SyntaxError)
  /\ getPullRequestsForRepos perRepoApi [0] GitHub (RepoInputs [r1])
       (Some (QueryOptions.mk None (Some [])))
     = ([EvGetSession GitHub], Rejected SyntaxError)
  /\ snd (getIssuesForRepos perRepoApi [0] AzureDevOps (RepoInputs [repoA])
            (Some (QueryOptions.mk None None)))
     = Returned (PagedResult.mk [1; 2]
                   (Some (Paging.mk true
                            (Some (encodeCursors pagedProjectInputToJson resumeProj))))).
Proof.
  repeat split; reflexivity.
Qed.

(** * Further properties of the service *)

Ltac scrutinee_cases :=
  repeat match goal with
         | |- context [match ?x with _ => _ end] =>
             lazymatch x with
             | context [match _ with _ => _ end] => fail
             | _ => destruct x eqn:?
             end
         end.

Ltac hyp_cases H :=
  repeat match type of H with
         | context [match ?x with _ => _ end] =>
             lazymatch x with
             | context [match _ with _ => _ end] => fail
             | _ => destruct x eqn:?; simpl in H; try discriminate H
             end
         end.

Section MoreServiceFacts.
Context {PR Issue Repository : Type}.
Variable api : ProvidersApi.t PR Issue Repository.

Local Open Scope op_scope.

(** ** The session check *)

(** X1. Without a session every operation resolves with [undefined] and the
    session lookup is the only call it makes. *)
Theorem no_session_no_call (providerId : ProviderId) :
  ProvidersApi.getSession api providerId = Resolve false ->
  (forall order reposOrRepoIds options,
      getPullRequestsForRepos api order providerId reposOrRepoIds options
      = ([EvGetSession providerId], Undefined SessionUnavailable))
  /\ (forall order reposOrRepoIds options,
         getIssuesForRepos api order providerId reposOrRepoIds options
         = ([EvGetSession providerId], Undefined SessionUnavailable))
  /\ (providerId = AzureDevOps ->
      forall namespace project cursor,
        getReposForAzureProject api namespace project cursor
        = ([EvGetSession AzureDevOps], Undefined SessionUnavailable)).
Proof.
  intros Hs. split; [|split].
  - intros. unfold getPullRequestsForRepos, pullRequestsPrelude, ensureSession.
    now rewrite Hs.
  - intros. unfold getIssuesForRepos, issuesEntry, ensureSession. now rewrite Hs.
  - intros -> namespace project cursor.
    unfold getReposForAzureProject, ensureSession. now rewrite Hs.
Qed.

(** ** The input guard *)

Lemma missing_project (repos : list ProviderRepoInput.t) :
  negb (forallb (fun repo => isSome (ProviderRepoInput.project repo)) repos) = true
  <-> exists repo, In repo repos /\ ProviderRepoInput.project repo = None.
Proof.
  induction repos as [|r repos IH]; simpl.
  - split; [discriminate | intros (repo & [] & _)].
  - rewrite negb_andb, orb_true_iff, IH. split.
    + intros [H|(repo & Hin & Hp)].
      * exists r. split; [now left|]. now destruct (ProviderRepoInput.project r).
      * exists repo. split; [now right | exact Hp].
    + intros (repo & [<-|Hin] & Hp).
      * left. now rewrite Hp.
      * right. now exists repo.
Qed.

(** The guard in the words of the source: any provider but GitLab refuses
    the id form, and AzureDevOps refuses a descriptor without project. *)
Definition RefusedInput (providerId : ProviderId) (reposOrRepoIds : ProviderReposInput)
  : Prop :=
  providerId <> GitLab
  /\ (ProvidersApi.isRepoIdsInput api reposOrRepoIds = true
      \/ (providerId = AzureDevOps
          /\ exists repo, In repo (asRepoInputs reposOrRepoIds)
                          /\ ProviderRepoInput.project repo = None)).

Lemma unsupportedInput_refused (providerId : ProviderId)
  (reposOrRepoIds : ProviderReposInput) :
  unsupportedInput api providerId reposOrRepoIds = true
  <-> RefusedInput providerId reposOrRepoIds.
Proof.
  unfold unsupportedInput, RefusedInput.
  rewrite andb_true_iff, orb_true_iff, andb_true_iff, negb_true_iff, missing_project.
  rewrite ProviderId_eqb_eq.
  split; intros [Hg H]; (split; [|exact H]).
  - intros ->. discriminate.
  - now apply ProviderId_eqb_neq.
Qed.

Lemma fanOut_undefined {U T} (call : U -> Resp (PagedResult.t T))
  (withCursor : U -> option jstring -> U) (toJson : U -> json)
  (order : list nat) (units : list U) (why : Failure) :
  fanOut call withCursor toJson order units = Undefined why -> why = ProviderCallFailed.
Proof.
  unfold fanOut. destruct (merge _ _ _ _ _) as [[[data cursors] hasMore]|]; congruence.
Qed.

(** What the stages after the guard can end with. *)
Definition afterGuard {T} (out : Outcome T) : Prop :=
  out <> Undefined UnsupportedInput /\ out <> Undefined SessionUnavailable.

Lemma pullRequestsOptions_afterGuard providerId reposOrRepoIds filters :
  exitsAll afterGuard (pullRequestsOptions api providerId reposOrRepoIds filters).
Proof.
  unfold pullRequestsOptions, afterGuard.
  exits_all; try (split; discriminate);
    try (apply exitsAll_await; intros _; split; discriminate).
Qed.

Lemma pullRequestsPaging_afterGuard order providerId reposOrRepoIds options o :
  endsAll afterGuard (pullRequestsPaging api order providerId reposOrRepoIds options o).
Proof.
  unfold endsAll, pullRequestsPaging, afterGuard.
  destruct (_ && _).
  - destruct (decodeCursors _ _); simpl; try (split; discriminate).
    split; intros E; apply fanOut_undefined in E; discriminate.
  - destruct (ProvidersApi.getPullRequestsForRepos _ _ _ _); simpl; split; discriminate.
Qed.

Lemma issuesStages_afterGuard order providerId reposOrRepoIds
  (options : option (QueryOptions.t IssueFilter)) :
  endsAll afterGuard
    (if ProviderId_eqb providerId AzureDevOps then
       x <- azureIssuesOptions api providerId reposOrRepoIds (optFilters options) ;;
       let '(organization, projects, getIssuesOptions) := x in
       azureIssuesPaging api order options organization projects getIssuesOptions
     else
       getIssuesOptions <- issuesOptions api providerId (optFilters options) ;;
       issuesPaging api order providerId reposOrRepoIds options getIssuesOptions).
Proof.
  destruct (ProviderId_eqb providerId AzureDevOps).
  - apply endsAll_bind.
    + unfold azureIssuesOptions, afterGuard.
      exits_all; try (split; discriminate);
        try (apply exitsAll_await; intros _; split; discriminate).
    + intros [[organization projects] o]. unfold endsAll, azureIssuesPaging, afterGuard.
      destruct (decodeCursors _ _); simpl; try (split; discriminate).
      split; intros E; apply fanOut_undefined in E; discriminate.
  - apply endsAll_bind.
    + unfold issuesOptions, afterGuard.
      exits_all; try (split; discriminate);
        try (apply exitsAll_await; intros _; split; discriminate).
    + intros o. unfold endsAll, issuesPaging, afterGuard.
      destruct (_ && _).
      * destruct (decodeCursors _ _); simpl; try (split; discriminate).
        split; intros E; apply fanOut_undefined in E; discriminate.
      * destruct (ProvidersApi.getIssuesForRepos _ _ _ _); simpl; split; discriminate.
Qed.

(** The stages that follow the guard. *)
Definition pullRequestsStages (order : list nat) (providerId : ProviderId)
  (reposOrRepoIds : ProviderReposInput)
  (options : option (QueryOptions.t PullRequestFilter))
  : Op (Outcome PR) (Outcome PR) :=
  getPullRequestsOptions <-
    pullRequestsOptions api providerId reposOrRepoIds (optFilters options) ;;
  pullRequestsPaging api order providerId reposOrRepoIds options getPullRequestsOptions.

Definition issuesStages (order : list nat) (providerId : ProviderId)
  (reposOrRepoIds : ProviderReposInput)
  (options : option (QueryOptions.t IssueFilter))
  : Op (Outcome Issue) (Outcome Issue) :=
  if ProviderId_eqb providerId AzureDevOps then
    x <- azureIssuesOptions api providerId reposOrRepoIds (optFilters options) ;;
    let '(organization, projects, getIssuesOptions) := x in
    azureIssuesPaging api order options organization projects getIssuesOptions
  else
    getIssuesOptions <- issuesOptions api providerId (optFilters options) ;;
    issuesPaging api order providerId reposOrRepoIds options getIssuesOptions.

Lemma getPullRequestsForRepos_guarded order providerId reposOrRepoIds options :
  ProvidersApi.getSession api providerId = Resolve true ->
  unsupportedInput api providerId reposOrRepoIds = false ->
  getPullRequestsForRepos api order providerId reposOrRepoIds options
  = (EvGetSession providerId
       :: fst (run (pullRequestsStages order providerId reposOrRepoIds options)),
     snd (run (pullRequestsStages order providerId reposOrRepoIds options))).
Proof.
  intros Hs Hg.
  unfold getPullRequestsForRepos, pullRequestsPrelude, ensureSession, pullRequestsStages.
  rewrite Hs, Hg.
  destruct (pullRequestsOptions _ _ _ _) as [t1 [o|r]]; [|reflexivity].
  simpl. destruct (pullRequestsPaging _ _ _ _ _ _) as [t2 [r|r]]; reflexivity.
Qed.

Lemma getIssuesForRepos_guarded order providerId reposOrRepoIds options :
  ProvidersApi.getSession api providerId = Resolve true ->
  unsupportedInput api providerId reposOrRepoIds = false ->
  getIssuesForRepos api order providerId reposOrRepoIds options
  = (EvGetSession providerId
       :: fst (run (issuesStages order providerId reposOrRepoIds options)),
     snd (run (issuesStages order providerId reposOrRepoIds options))).
Proof.
  intros Hs Hg.
  unfold getIssuesForRepos, issuesEntry, ensureSession, issuesStages.
  rewrite Hs, Hg. simpl.
  destruct (ProviderId_eqb providerId AzureDevOps).
  - destruct (azureIssuesOptions _ _ _ _) as [t1 [[[organization projects] o]|r]];
      [|reflexivity].
    simpl. destruct (azureIssuesPaging _ _ _ _ _ _) as [t2 [r|r]]; reflexivity.
  - destruct (issuesOptions _ _ _) as [t1 [o|r]]; [|reflexivity].
    simpl. destruct (issuesPaging _ _ _ _ _ _) as [t2 [r|r]]; reflexivity.
Qed.

(** X2. With a session, a query is refused as unsupported input exactly
    when the provider is not GitLab and the input is in the id form, or the
    provider is AzureDevOps and a descriptor lacks its project; the refusal
    comes right after the session check. *)
Theorem unsupported_input_iff (order : list nat) (providerId : ProviderId)
  (reposOrRepoIds : ProviderReposInput) :
  ProvidersApi.getSession api providerId = Resolve true ->
  (forall options,
      (snd (getPullRequestsForRepos api order providerId reposOrRepoIds options)
       = Undefined UnsupportedInput
       <-> RefusedInput providerId reposOrRepoIds)
      /\ (RefusedInput providerId reposOrRepoIds ->
          fst (getPullRequestsForRepos api order providerId reposOrRepoIds options)
          = [EvGetSession providerId]))
  /\ (forall options,
         (snd (getIssuesForRepos api order providerId reposOrRepoIds options)
          = Undefined UnsupportedInput
          <-> RefusedInput providerId reposOrRepoIds)
         /\ (RefusedInput providerId reposOrRepoIds ->
             fst (getIssuesForRepos api order providerId reposOrRepoIds options)
             = [EvGetSession providerId])).
Proof.
  intros Hs. split; intros options.
  - destruct (unsupportedInput api providerId reposOrRepoIds) eqn:Hg.
    + assert (E : getPullRequestsForRepos api order providerId reposOrRepoIds options
                  = ([EvGetSession providerId], Undefined UnsupportedInput)).
      { unfold getPullRequestsForRepos, pullRequestsPrelude, ensureSession.
        now rewrite Hs, Hg. }
      apply unsupportedInput_refused in Hg. rewrite E.
      split; [split; [intros _; exact Hg | reflexivity] | reflexivity].
    + assert (Hn : ~ RefusedInput providerId reposOrRepoIds).
      { intros H. apply unsupportedInput_refused in H. congruence. }
      split; [|intros H; contradiction].
      split; [|intros H; contradiction].
      rewrite (getPullRequestsForRepos_guarded _ _ _ _ Hs Hg). cbn [snd].
      intros E. exfalso.
      refine (proj1 (endsAll_bind afterGuard _ _
                       (pullRequestsOptions_afterGuard _ _ _)
                       (pullRequestsPaging_afterGuard _ _ _ _)) E).
  - destruct (unsupportedInput api providerId reposOrRepoIds) eqn:Hg.
    + assert (E : getIssuesForRepos api order providerId reposOrRepoIds options
                  = ([EvGetSession providerId], Undefined UnsupportedInput)).
      { unfold getIssuesForRepos, issuesEntry, ensureSession.
        now rewrite Hs, Hg. }
      apply unsupportedInput_refused in Hg. rewrite E.
      split; [split; [intros _; exact Hg | reflexivity] | reflexivity].
    + assert (Hn : ~ RefusedInput providerId reposOrRepoIds).
      { intros H. apply unsupportedInput_refused in H. congruence. }
      split; [|intros H; contradiction].
      split; [|intros H; contradiction].
      rewrite (getIssuesForRepos_guarded _ _ _ _ Hs Hg). cbn [snd].
      intros E. exfalso.
      exact (proj1 (issuesStages_afterGuard order providerId reposOrRepoIds options) E).
Qed.

(** ** The bulk call *)

Definition bulkOutcome {T} (r : Resp (PagedResult.t T)) : Outcome T :=
  match r with
  | Resolve results => Returned results
  | Reject => Undefined ProviderCallFailed
  end.


(** ** getReposForAzureProject *)

(** X4. [getReposForAzureProject] calls the transport at most once, after
    the session check and only with a session, with the namespace, the
    project and the cursor it was given; it returns the transport's page
    unchanged, and [undefined] when the transport fails. *)
Theorem repos_call_passes_through (namespace project : jstring)
  (cursor : option jstring) :
  (ProvidersApi.getSession api AzureDevOps = Resolve true ->
   getReposForAzureProject api namespace project cursor
   = ([EvGetSession AzureDevOps; EvGetReposForAzureProject namespace project cursor],
      bulkOutcome (ProvidersApi.getReposForAzureProject api namespace project cursor)))
  /\ (ProvidersApi.getSession api AzureDevOps <> Resolve true ->
      fst (getReposForAzureProject api namespace project cursor)
      = [EvGetSession AzureDevOps]
      /\ forall results,
          snd (getReposForAzureProject api namespace project cursor) <> Returned results).
Proof.
  unfold getReposForAzureProject, ensureSession. split.
  - intros ->. simpl.
    destruct (ProvidersApi.getReposForAzureProject _ _ _ _); reflexivity.
  - intros Hs. destruct (ProvidersApi.getSession api AzureDevOps) as [[|]|];
      [congruence | | ]; (split; [reflexivity | discriminate]).
Qed.

(** ** Where an operation can reject *)

(** X5. An operation rejects only when the session lookup rejects or when
    reading the cursor throws: every failure of the identity lookup and of
    the transport ends in [undefined]. *)
Theorem rejects_only_on_session_or_cursor :
  (forall order providerId reposOrRepoIds options e,
      snd (getPullRequestsForRepos api order providerId reposOrRepoIds options)
      = Rejected e ->
      (ProvidersApi.getSession api providerId = Reject /\ e = SessionError)
      \/ decodeCursors pagedRepoInputOfJson (optCursor options) = DecThrows e)
  /\ (forall order providerId reposOrRepoIds options e,
         snd (getIssuesForRepos api order providerId reposOrRepoIds options)
         = Rejected e ->
         (ProvidersApi.getSession api providerId = Reject /\ e = SessionError)
         \/ decodeCursors pagedProjectInputOfJson (optCursor options) = DecThrows e
         \/ decodeCursors pagedRepoInputOfJson (optCursor options) = DecThrows e)
  /\ (forall namespace project cursor e,
         snd (getReposForAzureProject api namespace project cursor) = Rejected e ->
         ProvidersApi.getSession api AzureDevOps = Reject /\ e = SessionError).
Proof.
  split; [|split]; intros.
  - now apply (pull_requests_rejection_cause api order providerId reposOrRepoIds).
  - now apply (issues_rejection_cause api order providerId reposOrRepoIds).
  - now apply (repos_rejection_cause api namespace project cursor).
Qed.

(** A parsed value that cannot be converted to a number: an object with a
    member named [toString], or an array with such an object among its
    elements, at any depth of arrays. *)
Inductive Unconvertible : json -> Prop :=
| UnconvertibleObject (m : list (jstring * json)) (v : json) :
    field (js "toString") m = Some v -> Unconvertible (JObj m)
| UnconvertibleArray (l : list json) (x : json) :
    In x l -> Unconvertible x -> Unconvertible (JArr l).

Lemma joinThrows_unconvertible (v : json) : joinThrows v = true <-> Unconvertible v.
Proof.
  induction v as [|b|n|str|l IH|m _] using json_nested_ind;
    try (split; [discriminate | inversion 1]).
  - simpl. rewrite existsb_exists. rewrite Forall_forall in IH. split.
    + intros (x & Hx & Hj). apply (UnconvertibleArray _ x Hx). now apply IH.
    + inversion 1 as [|l' x Hx Hu]; subst. exists x. split; [exact Hx|]. now apply IH.
  - simpl. destruct (field (js "toString") m) as [v|] eqn:E; split; intros H.
    + now apply (UnconvertibleObject _ v).
    + reflexivity.
    + discriminate H.
    + inversion H; congruence.
Qed.

Lemma lengthAboveZero_throws (v : json) :
  lengthAboveZero v = ConversionThrows <-> Unconvertible v.
Proof.
  destruct v as [|b|n|str|l|m]; simpl.
  - split; [discriminate | inversion 1].
  - destruct b; (split; [discriminate | inversion 1]).
  - unfold integerAboveZero. split; [|inversion 1].
    destruct (match n with [] => false | c :: _ => (c =? 45)%N end); [discriminate|].
    destruct (forallb _ n); [|discriminate]. destruct (existsb _ n); discriminate.
  - destruct str; (split; [discriminate | inversion 1]).
  - destruct (existsb joinThrows l) eqn:E; split; intros H.
    + apply existsb_exists in E as (x & Hx & Hj).
      apply (UnconvertibleArray _ x Hx). now apply joinThrows_unconvertible.
    + reflexivity.
    + discriminate H.
    + inversion H as [|l' x Hx Hu]; subst.
      assert (Ht : existsb joinThrows l = true)
        by (apply existsb_exists; exists x; split;
            [exact Hx | now apply joinThrows_unconvertible]).
      congruence.
  - destruct (field (js "toString") m) as [v|] eqn:E; split; intros H.
    + now apply (UnconvertibleObject _ v).
    + reflexivity.
    + discriminate H.
    + inversion H; congruence.
Qed.

(** When reading the cursor throws: [JSON.parse] refuses the text; or the
    text is the JSON [null], of which [.cursors] cannot be read; or
    [cursors] is an object with a [length] that cannot be converted to a
    number for the comparison with zero. *)
Definition Unreadable (cursor : option jstring) (e : Exn) : Prop :=
  exists s, cursor = Some s
            /\ ((parse s = None /\ e = SyntaxError)
                \/ (parse s = Some JNull /\ e = TypeError)
                \/ (exists m c length,
                       parse s = Some (JObj m)
                       /\ field (js "cursors") m = Some (JObj c)
                       /\ field (js "length") c = Some length
                       /\ Unconvertible length
                       /\ e = TypeError)).

Lemma decodeCursors_throws {U} (ofJson : json -> option U) (cursor : option jstring)
  (e : Exn) :
  decodeCursors ofJson cursor = DecThrows e <-> Unreadable cursor e.
Proof.
  unfold Unreadable. destruct cursor as [s|].
  - unfold decodeCursors. split.
    + intros H. exists s. split; [reflexivity|].
      destruct (parse s) as [v|] eqn:Hp; [|left; split; congruence].
      destruct v as [| | | | |m]; try discriminate H; [right; left; split; congruence|].
      destruct (field (js "cursors") m) as [c|] eqn:Hc; [|discriminate H].
      destruct c as [|b|n|str|l|c]; try discriminate H.
      * destruct str; discriminate H.
      * destruct (mapM ofJson l); [discriminate H|].
        destruct (mapM (readEntry ofJson) l); discriminate H.
      * destruct (field (js "length") c) as [lv|] eqn:Hl; [|discriminate H].
        destruct (lengthAboveZero lv) eqn:Ha; try discriminate H.
        injection H as <-. right. right. exists m, c, lv.
        repeat split; auto. now apply lengthAboveZero_throws.
    + intros (s' & E & [[Hp ->]|[[Hp ->]|(m & c & lv & Hp & Hc & Hl & Hu & ->)]]);
        injection E as <-; rewrite Hp; try reflexivity.
      rewrite Hc, Hl. apply lengthAboveZero_throws in Hu. now rewrite Hu.
  - split; [discriminate | intros (s & E & _); discriminate E].
Qed.

(** X6. On the fan-out paths the operation rejects exactly when the cursor
    cannot be read: the caller gave a cursor, and it is not a JSON text
    (the error is the syntax error), or it is the JSON [null], or its
    [cursors] is an object with a [length] that cannot be converted to a
    number (a type error in both cases). *)
Theorem fan_out_rejects_iff_cursor_unreadable (order : list nat) :
  (forall providerId reposOrRepoIds options t o e,
      pullRequestsPrelude api providerId reposOrRepoIds options = (t, Next o) ->
      ProvidersApi.getProviderPullRequestsPagingMode api providerId = Repo ->
      ProvidersApi.isRepoIdsInput api reposOrRepoIds = false ->
      (snd (getPullRequestsForRepos api order providerId reposOrRepoIds options)
       = Rejected e
       <-> Unreadable (optCursor options) e))
  /\ (forall providerId reposOrRepoIds options t o e,
         providerId <> AzureDevOps ->
         issuesPrelude api providerId reposOrRepoIds options = (t, Next o) ->
         ProvidersApi.getProviderIssuesPagingMode api providerId = Repo ->
         ProvidersApi.isRepoIdsInput api reposOrRepoIds = false ->
         (snd (getIssuesForRepos api order providerId reposOrRepoIds options)
          = Rejected e
          <-> Unreadable (optCursor options) e))
  /\ (forall reposOrRepoIds options t x e,
         azureIssuesPrelude api AzureDevOps reposOrRepoIds options = (t, Next x) ->
         (snd (getIssuesForRepos api order AzureDevOps reposOrRepoIds options)
          = Rejected e
          <-> Unreadable (optCursor options) e)).
Proof.
  split; [|split].
  - intros providerId reposOrRepoIds options t o e Hpre Hmode Hids.
    rewrite <- (decodeCursors_throws pagedRepoInputOfJson).
    unfold getPullRequestsForRepos. rewrite (bind_next _ _ _ _ Hpre).
    unfold pullRequestsPaging. rewrite Hmode, Hids.
    destruct (decodeCursors _ _) eqn:Ed; simpl.
    + split; congruence.
    + split; [|discriminate]. intros E. now apply fanOut_not_rejected in E.
    + split; discriminate.
    + split; discriminate.
  - intros providerId reposOrRepoIds options t o e Hp Hpre Hmode Hids.
    rewrite <- (decodeCursors_throws pagedRepoInputOfJson).
    rewrite getIssuesForRepos_stages, (ProviderId_eqb_neq _ _ Hp).
    rewrite (bind_next _ _ _ _ Hpre).
    unfold issuesPaging. rewrite Hmode, Hids.
    destruct (decodeCursors _ _) eqn:Ed; simpl.
    + split; congruence.
    + split; [|discriminate]. intros E. now apply fanOut_not_rejected in E.
    + split; discriminate.
    + split; discriminate.
  - intros reposOrRepoIds options t [[organization projects] o] e Hpre.
    rewrite <- (decodeCursors_throws pagedProjectInputOfJson).
    rewrite getIssuesForRepos_stages. simpl ProviderId_eqb. cbv iota.
    rewrite (bind_next _ _ _ _ Hpre).
    unfold azureIssuesPaging.
    destruct (decodeCursors _ _) eqn:Ed; simpl.
    + split; congruence.
    + split; [|discriminate]. intros E. now apply fanOut_not_rejected in E.
    + split; discriminate.
    + split; discriminate.
Qed.

(** ** The units of a first call *)

Lemma projects_fold (l : list ProviderRepoInput.t) (acc : list jstring) :
  NoDup acc ->
  NoDup (fold_left (fun projects repo =>
                      match ProviderRepoInput.project repo with
                      | Some p => setAdd projects p
                      | None => projects
                      end) l acc)
  /\ forall x,
      In x (fold_left (fun projects repo =>
                         match ProviderRepoInput.project repo with
                         | Some p => setAdd projects p
                         | None => projects
                         end) l acc)
      <-> In x acc
          \/ exists repo, In repo l /\ ProviderRepoInput.project repo = Some x.
Proof.
  revert acc. induction l as [|r l IH]; intros acc Hacc; simpl.
  - split; [exact Hacc|]. intros x. split; [now left | intros [H|(repo & [] & _)]; exact H].
  - destruct (ProviderRepoInput.project r) as [p|] eqn:Ep.
    + destruct (IH (setAdd acc p) (setAdd_NoDup _ _ Hacc)) as [Hnd Hin].
      split; [exact Hnd|]. intros x. rewrite Hin, setAdd_in. split.
      * intros [[H| ->]|(repo & Hr & Hp)]; [now left | right | right].
        -- exists r. split; [now left | exact Ep].
        -- exists repo. split; [now right | exact Hp].
      * intros [H|(repo & [<-|Hr] & Hp)]; [now left; left | left; right | right].
        -- congruence.
        -- now exists repo.
    + destruct (IH acc Hacc) as [Hnd Hin].
      split; [exact Hnd|]. intros x. rewrite Hin. split.
      * intros [H|(repo & Hr & Hp)]; [now left | right].
        exists repo. split; [now right | exact Hp].
      * intros [H|(repo & [<-|Hr] & Hp)]; [now left | congruence | right].
        now exists repo.
Qed.

Lemma azureIssuesPrelude_inv providerId reposOrRepoIds options t organization
  projects o :
  azureIssuesPrelude api providerId reposOrRepoIds options
  = (t, Next (organization, projects, o)) ->
  organizationsOf reposOrRepoIds = [organization]
  /\ projects = projectsOf reposOrRepoIds.
Proof.
  intros H.
  unfold azureIssuesPrelude, issuesEntry, azureIssuesOptions, ensureSession,
    await, bind, ret, exit in H.
  destruct (organizationsOf reposOrRepoIds) as [|org [|org' rest]] eqn:Eo;
    simpl in H; hyp_cases H; injection H as <- <- <- <-; split; reflexivity.
Qed.

Lemma resumeOr_fresh {U} (fresh : list U) : resumeOr [] fresh = fresh.
Proof. reflexivity. Qed.

Lemma all_queries {A} (f : A -> Event) (l : list A) :
  (forall a, isQueryCall (f a) = true) -> filter isQueryCall (map f l) = map f l.
Proof.
  intros H. induction l as [|a l IH]; simpl; [reflexivity|]. now rewrite H, IH.
Qed.

(** X7. On the fan-out paths, a call whose cursor has no entries queries
    the input itself: one call per repository of the input, in input
    order, each without cursor; for AzureDevOps issues one call per
    distinct project of the input, each without cursor and under the one
    organization that all repositories of the input share. *)
Theorem first_call_queries_input (order : list nat) :
  (forall providerId reposOrRepoIds options t o,
      PullRequestsFanOut api providerId reposOrRepoIds options t o [] ->
      filter isQueryCall
        (fst (getPullRequestsForRepos api order providerId reposOrRepoIds options)) =
      map (fun repo => EvGetPullRequestsForRepo providerId repo
                         (spreadPullRequestsOptions o None))
        (asRepoInputs reposOrRepoIds))
  /\ (forall providerId reposOrRepoIds options t o,
         IssuesFanOut api providerId reposOrRepoIds options t o [] ->
         filter isQueryCall
           (fst (getIssuesForRepos api order providerId reposOrRepoIds options)) =
         map (fun repo => EvGetIssuesForRepo providerId repo
                            (spreadIssuesOptions o None))
           (asRepoInputs reposOrRepoIds))
  /\ (forall reposOrRepoIds options t organization projects o,
         AzureIssuesFanOut api reposOrRepoIds options t organization projects o [] ->
         filter isQueryCall
           (fst (getIssuesForRepos api order AzureDevOps reposOrRepoIds options)) =
         map (fun project => EvGetIssuesForAzureProject organization project
                               (spreadIssuesOptions o None)) projects
         /\ NoDup projects
         /\ (forall x, In x projects <->
                       exists repo, In repo (asRepoInputs reposOrRepoIds)
                                    /\ ProviderRepoInput.project repo = Some x)
         /\ (forall repo, In repo (asRepoInputs reposOrRepoIds) ->
                          ProviderRepoInput.namespace repo = organization)).
Proof.
  split; [|split].
  - intros providerId reposOrRepoIds options t o H.
    rewrite (getPullRequestsForRepos_fanOut _ _ _ _ _ _ _ _ H).
    destruct H as (Hpre & _).
    cbn [fst]. rewrite filter_app, (pullRequestsPrelude_queries _ _ _ _ _ _ Hpre).
    rewrite resumeOr_fresh. unfold freshRepoInputs. rewrite map_map. cbn [app].
    now apply all_queries.
  - intros providerId reposOrRepoIds options t o H.
    rewrite (getIssuesForRepos_fanOut _ _ _ _ _ _ _ _ H).
    destruct H as (_ & Hpre & _).
    cbn [fst]. rewrite filter_app, (issuesPrelude_queries _ _ _ _ _ _ Hpre).
    rewrite resumeOr_fresh. unfold freshRepoInputs. rewrite map_map. cbn [app].
    now apply all_queries.
  - intros reposOrRepoIds options t organization projects o H.
    rewrite (getIssuesForRepos_azureFanOut _ _ _ _ _ _ _ _ _ H).
    destruct H as (Hpre & _).
    cbn [fst]. rewrite filter_app, (azureIssuesPrelude_queries _ _ _ _ _ _ Hpre).
    rewrite resumeOr_fresh. unfold freshProjectInputs. rewrite map_map. cbn [app].
    destruct (azureIssuesPrelude_inv _ _ _ _ _ _ _ Hpre) as [Horg ->].
    split; [now apply all_queries|].
    destruct (projects_fold (asRepoInputs reposOrRepoIds) [] (NoDup_nil _)) as [Hnd Hin].
    split; [exact Hnd|]. split.
    + intros x. unfold projectsOf. rewrite Hin. simpl. intuition.
    + intros repo Hrepo.
      assert (Hmem : In (ProviderRepoInput.namespace repo) (organizationsOf reposOrRepoIds)).
      { unfold organizationsOf.
        apply (proj2 (organizations_fold _ [] (NoDup_nil _))).
        right. now apply in_map. }
      rewrite Horg in Hmem. destruct Hmem as [<-|[]]. reflexivity.
Qed.

(** ** A cursor without entries *)





(** ** Paging on: the returned cursor resubmitted *)




(** ** Nothing lost, nothing twice *)

(** X10. On the fan-out paths, when every unit call succeeds, the merged
    values are the values of all the units' pages, each as often as the
    pages have it, in whatever order the calls settle. *)
Theorem merged_values_permutation (order : list nat) :
  (forall providerId reposOrRepoIds options t o cursors page,
      let units := resumeOr cursors (freshRepoInputs reposOrRepoIds) in
      PullRequestsFanOut api providerId reposOrRepoIds options t o cursors ->
      Permutation order (seq 0 (List.length units)) ->
      Forall (fun u => pullRequestsForRepoCall api providerId o u = Resolve (page u))
        units ->
      exists results,
        snd (getPullRequestsForRepos api order providerId reposOrRepoIds options)
        = Returned results
        /\ Permutation (PagedResult.values results)
             (flat_map (fun u => PagedResult.values (page u)) units))
  /\ (forall providerId reposOrRepoIds options t o cursors page,
         let units := resumeOr cursors (freshRepoInputs reposOrRepoIds) in
         IssuesFanOut api providerId reposOrRepoIds options t o cursors ->
         Permutation order (seq 0 (List.length units)) ->
         Forall (fun u => issuesForRepoCall api providerId o u = Resolve (page u)) units ->
         exists results,
           snd (getIssuesForRepos api order providerId reposOrRepoIds options)
           = Returned results
           /\ Permutation (PagedResult.values results)
                (flat_map (fun u => PagedResult.values (page u)) units))
  /\ (forall reposOrRepoIds options t organization projects o cursors page,
         let units := resumeOr cursors (freshProjectInputs organization projects) in
         AzureIssuesFanOut api reposOrRepoIds options t organization projects o cursors ->
         Permutation order (seq 0 (List.length units)) ->
         Forall (fun u => issuesForAzureProjectCall api o u = Resolve (page u)) units ->
         exists results,
           snd (getIssuesForRepos api order AzureDevOps reposOrRepoIds options)
           = Returned results
           /\ Permutation (PagedResult.values results)
                (flat_map (fun u => PagedResult.values (page u)) units)).
Proof.
  split; [|split]; intros.
  - rewrite (getPullRequestsForRepos_fanOut _ _ _ _ _ _ _ _ H). cbn [snd].
    rewrite (fanOut_resolved _ _ _ page order units H1).
    eexists. split; [reflexivity|]. cbn [PagedResult.values].
    now apply Permutation_flat_map, completion_perm.
  - rewrite (getIssuesForRepos_fanOut _ _ _ _ _ _ _ _ H). cbn [snd].
    rewrite (fanOut_resolved _ _ _ page order units H1).
    eexists. split; [reflexivity|]. cbn [PagedResult.values].
    now apply Permutation_flat_map, completion_perm.
  - rewrite (getIssuesForRepos_azureFanOut _ _ _ _ _ _ _ _ _ H). cbn [snd].
    rewrite (fanOut_resolved _ _ _ page order units H1).
    eexists. split; [reflexivity|]. cbn [PagedResult.values].
    now apply Permutation_flat_map, completion_perm.
Qed.

(** ** The shape of a run *)

Lemma fst_run_bind {R A} (m : Op R A) (k : A -> Op R R) :
  fst (run (bind m k))
  = fst m ++ match snd m with Next a => fst (run (k a)) | Exit _ => [] end.
Proof.
  destruct m as [t [a|r]]; simpl; [|now rewrite app_nil_r].
  now destruct (k a) as [t' [r|r]].
Qed.

Lemma snd_run_bind {R A} (m : Op R A) (k : A -> Op R R) :
  snd (run (bind m k))
  = match snd m with Next a => snd (run (k a)) | Exit r => r end.
Proof.
  destruct m as [t [a|r]]; simpl; [|reflexivity].
  now destruct (k a) as [t' [r|r]].
Qed.

(** How an operation can end before the stages that follow the guard. *)
Definition early {T} (out : Outcome T) : Prop :=
  out = Rejected SessionError
  \/ out = Undefined SessionUnavailable
  \/ out = Undefined UnsupportedInput.

Lemma getPullRequestsForRepos_split order providerId reposOrRepoIds options :
  (exists out,
      getPullRequestsForRepos api order providerId reposOrRepoIds options
      = ([EvGetSession providerId], out) /\ early out)
  \/ getPullRequestsForRepos api order providerId reposOrRepoIds options
     = (EvGetSession providerId
          :: fst (run (pullRequestsStages order providerId reposOrRepoIds options)),
        snd (run (pullRequestsStages order providerId reposOrRepoIds options))).
Proof.
  destruct (ProvidersApi.getSession api providerId) as [[|]|] eqn:Hs.
  - destruct (unsupportedInput api providerId reposOrRepoIds) eqn:Hg.
    + left. eexists. split; [|right; right; reflexivity].
      unfold getPullRequestsForRepos, pullRequestsPrelude, ensureSession.
      now rewrite Hs, Hg.
    + right. now apply getPullRequestsForRepos_guarded.
  - left. eexists. split; [|right; left; reflexivity].
    unfold getPullRequestsForRepos, pullRequestsPrelude, ensureSession. now rewrite Hs.
  - left. eexists. split; [|left; reflexivity].
    unfold getPullRequestsForRepos, pullRequestsPrelude, ensureSession. now rewrite Hs.
Qed.

Lemma getIssuesForRepos_split order providerId reposOrRepoIds options :
  (exists out,
      getIssuesForRepos api order providerId reposOrRepoIds options
      = ([EvGetSession providerId], out) /\ early out)
  \/ getIssuesForRepos api order providerId reposOrRepoIds options
     = (EvGetSession providerId
          :: fst (run (issuesStages order providerId reposOrRepoIds options)),
        snd (run (issuesStages order providerId reposOrRepoIds options))).
Proof.
  destruct (ProvidersApi.getSession api providerId) as [[|]|] eqn:Hs.
  - destruct (unsupportedInput api providerId reposOrRepoIds) eqn:Hg.
    + left. eexists. split; [|right; right; reflexivity].
      unfold getIssuesForRepos, issuesEntry, ensureSession.
      now rewrite Hs, Hg.
    + right. now apply getIssuesForRepos_guarded.
  - left. eexists. split; [|right; left; reflexivity].
    unfold getIssuesForRepos, issuesEntry, ensureSession. now rewrite Hs.
  - left. eexists. split; [|left; reflexivity].
    unfold getIssuesForRepos, issuesEntry, ensureSession. now rewrite Hs.
Qed.

(** The identity stage makes at most one call, an identity lookup. *)
Definition oneLookup (t : list Event) : Prop :=
  List.length t <= 1 /\ Forall (fun e => isIdentityCall e = true) t.

Lemma pullRequestsOptions_calls providerId reposOrRepoIds filters :
  oneLookup (fst (pullRequestsOptions api providerId reposOrRepoIds filters)).
Proof.
  unfold pullRequestsOptions, await, bind, ret, exit, oneLookup.
  scrutinee_cases; simpl; split; auto.
Qed.

Lemma azureIssuesOptions_calls providerId reposOrRepoIds filters :
  oneLookup (fst (azureIssuesOptions api providerId reposOrRepoIds filters)).
Proof.
  unfold azureIssuesOptions, await, bind, ret, exit, oneLookup.
  scrutinee_cases; simpl; split; auto.
Qed.

Lemma issuesOptions_calls providerId filters :
  oneLookup (fst (issuesOptions api providerId filters)).
Proof.
  unfold issuesOptions, await, bind, ret, exit, oneLookup.
  scrutinee_cases; simpl; split; auto.
Qed.

Lemma events_are_queries {A} (f : A -> Event) (l : list A) :
  (forall a, isQueryCall (f a) = true) ->
  Forall (fun e => isQueryCall e = true) (map f l).
Proof.
  intros H. apply Forall_forall. intros e He.
  apply in_map_iff in He as (a & <- & _). apply H.
Qed.

Lemma pullRequestsPaging_calls order providerId reposOrRepoIds options o :
  Forall (fun e => isQueryCall e = true)
    (fst (run (pullRequestsPaging api order providerId reposOrRepoIds options o))).
Proof.
  unfold pullRequestsPaging. destruct (_ && _).
  - destruct (decodeCursors _ _); simpl; auto; now apply events_are_queries.
  - destruct (ProvidersApi.getPullRequestsForRepos _ _ _ _); simpl; auto.
Qed.

Lemma issuesPaging_calls order providerId reposOrRepoIds options o :
  Forall (fun e => isQueryCall e = true)
    (fst (run (issuesPaging api order providerId reposOrRepoIds options o))).
Proof.
  unfold issuesPaging. destruct (_ && _).
  - destruct (decodeCursors _ _); simpl; auto; now apply events_are_queries.
  - destruct (ProvidersApi.getIssuesForRepos _ _ _ _); simpl; auto.
Qed.

Lemma azureIssuesPaging_calls order options organization projects o :
  Forall (fun e => isQueryCall e = true)
    (fst (run (azureIssuesPaging api order options organization projects o))).
Proof.
  unfold azureIssuesPaging.
  destruct (decodeCursors _ _); simpl; auto; now apply events_are_queries.
Qed.

(** A run: the session lookup, then at most one identity lookup, then
    paging queries only. *)
Definition SessionLookupQueries (providerId : ProviderId) (t : list Event) : Prop :=
  exists lookups queries,
    t = EvGetSession providerId :: lookups ++ queries
    /\ List.length lookups <= 1
    /\ Forall (fun e => isIdentityCall e = true) lookups
    /\ Forall (fun e => isQueryCall e = true) queries.

Lemma staged_shape {R A} (m : Op R A) (k : A -> Op R R) :
  oneLookup (fst m) ->
  (forall a, Forall (fun e => isQueryCall e = true) (fst (run (k a)))) ->
  exists lookups queries,
    fst (run (bind m k)) = lookups ++ queries
    /\ List.length lookups <= 1
    /\ Forall (fun e => isIdentityCall e = true) lookups
    /\ Forall (fun e => isQueryCall e = true) queries.
Proof.
  intros [Hlen Hid] Hk. rewrite fst_run_bind.
  exists (fst m). eexists. split; [reflexivity|]. repeat split; auto.
  destruct (snd m); auto.
Qed.

(** X11. Every run of a query operation starts with the session lookup,
    resolves the identity at most once, and makes its paging queries only
    after that: no identity lookup follows a query. *)
Theorem session_then_lookup_then_queries (order : list nat) (providerId : ProviderId)
  (reposOrRepoIds : ProviderReposInput) :
  (forall options,
      SessionLookupQueries providerId
        (fst (getPullRequestsForRepos api order providerId reposOrRepoIds options)))
  /\ (forall options,
         SessionLookupQueries providerId
           (fst (getIssuesForRepos api order providerId reposOrRepoIds options))).
Proof.
  split; intros options.
  - destruct (getPullRequestsForRepos_split order providerId reposOrRepoIds options)
      as [(out & -> & _)| ->]; cbn [fst].
    + exists [], []. repeat split; auto.
    + destruct (staged_shape
                  (pullRequestsOptions api providerId reposOrRepoIds (optFilters options))
                  (fun o => pullRequestsPaging api order providerId reposOrRepoIds
                              options o)
                  (pullRequestsOptions_calls _ _ _)
                  (pullRequestsPaging_calls _ _ _ _))
        as (lookups & queries & E & H).
      exists lookups, queries. split; [|exact H].
      unfold pullRequestsStages. now rewrite E.
  - destruct (getIssuesForRepos_split order providerId reposOrRepoIds options)
      as [(out & -> & _)| ->]; cbn [fst].
    + exists [], []. repeat split; auto.
    + unfold issuesStages. destruct (ProviderId_eqb providerId AzureDevOps).
      * destruct (staged_shape
                    (azureIssuesOptions api providerId reposOrRepoIds (optFilters options))
                    (fun x => let '(organization, projects, o) := x in
                              azureIssuesPaging api order options organization projects o)
                    (azureIssuesOptions_calls _ _ _))
          as (lookups & queries & E & H).
        { intros [[organization projects] o]. apply azureIssuesPaging_calls. }
        exists lookups, queries. split; [|exact H]. now rewrite <- E.
      * destruct (staged_shape
                    (issuesOptions api providerId (optFilters options))
                    (fun o => issuesPaging api order providerId reposOrRepoIds options o)
                    (issuesOptions_calls _ _)
                    (issuesPaging_calls _ _ _ _))
          as (lookups & queries & E & H).
        exists lookups, queries. split; [|exact H]. now rewrite E.
Qed.

(** ** [undefined] before and after the queries *)

Lemma lookup_not_query (e : Event) : isIdentityCall e = true -> isQueryCall e = false.
Proof. destruct e; simpl; congruence. Qed.

Lemma oneLookup_quiet (t : list Event) : oneLookup t -> filter isQueryCall t = [].
Proof.
  intros [_ H]. apply filter_none. intros e He.
  apply lookup_not_query. revert e He. now apply Forall_forall.
Qed.

Lemma completion_nil {A} (order : list nat) : completion order (@nil A) = [].
Proof.
  unfold completion. induction order as [|i order IH]; simpl; [reflexivity|].
  now destruct i.
Qed.

Lemma fanOut_undefined_units {U T} (call : U -> Resp (PagedResult.t T))
  (withCursor : U -> option jstring -> U) (toJson : U -> json)
  (order : list nat) (units : list U) (why : Failure) :
  fanOut call withCursor toJson order units = Undefined why -> units <> [].
Proof.
  intros H ->. unfold fanOut, settled in H. rewrite completion_nil in H. discriminate H.
Qed.

(** A paging stage that ends in [undefined] could not use the entries of
    the cursor, or made a query that failed. *)
Definition failedQuery {T} (x : list Event * Outcome T) : Prop :=
  forall why, snd x = Undefined why ->
              why = CursorUnusable
              \/ (why = ProviderCallFailed /\ filter isQueryCall (fst x) <> []).

Lemma pullRequestsPaging_failed order providerId reposOrRepoIds options o :
  failedQuery (run (pullRequestsPaging api order providerId reposOrRepoIds options o)).
Proof.
  unfold failedQuery, pullRequestsPaging. destruct (_ && _).
  - destruct (decodeCursors _ _); simpl; try discriminate.
    + intros why E. right. split; [now apply fanOut_undefined in E|].
      apply fanOut_undefined_units in E.
      rewrite all_queries by reflexivity. intros Hn. apply map_eq_nil in Hn.
      contradiction.
    + intros why E. left. congruence.
  - destruct (ProvidersApi.getPullRequestsForRepos _ _ _ _); simpl; [discriminate|].
    intros why E. right. split; [congruence | discriminate].
Qed.

Lemma issuesPaging_failed order providerId reposOrRepoIds options o :
  failedQuery (run (issuesPaging api order providerId reposOrRepoIds options o)).
Proof.
  unfold failedQuery, issuesPaging. destruct (_ && _).
  - destruct (decodeCursors _ _); simpl; try discriminate.
    + intros why E. right. split; [now apply fanOut_undefined in E|].
      apply fanOut_undefined_units in E.
      rewrite all_queries by reflexivity. intros Hn. apply map_eq_nil in Hn.
      contradiction.
    + intros why E. left. congruence.
  - destruct (ProvidersApi.getIssuesForRepos _ _ _ _); simpl; [discriminate|].
    intros why E. right. split; [congruence | discriminate].
Qed.

Lemma azureIssuesPaging_failed order options organization projects o :
  failedQuery (run (azureIssuesPaging api order options organization projects o)).
Proof.
  unfold failedQuery, azureIssuesPaging.
  destruct (decodeCursors _ _); simpl; try discriminate.
  - intros why E. right. split; [now apply fanOut_undefined in E|].
    apply fanOut_undefined_units in E.
    rewrite all_queries by reflexivity. intros Hn. apply map_eq_nil in Hn.
    contradiction.
  - intros why E. left. congruence.
Qed.

(** The causes that belong to the [catch] of the paging stage. *)
Definition notPagingFailure {T} (out : Outcome T) : Prop :=
  out <> Undefined ProviderCallFailed /\ out <> Undefined CursorUnusable.

Lemma pullRequestsOptions_exits providerId reposOrRepoIds filters :
  exitsAll notPagingFailure (pullRequestsOptions api providerId reposOrRepoIds filters).
Proof.
  unfold pullRequestsOptions, notPagingFailure.
  exits_all; try (split; discriminate);
    try (apply exitsAll_await; intros _; split; discriminate).
Qed.

Lemma azureIssuesOptions_exits providerId reposOrRepoIds filters :
  exitsAll notPagingFailure (azureIssuesOptions api providerId reposOrRepoIds filters).
Proof.
  unfold azureIssuesOptions, notPagingFailure.
  exits_all; try (split; discriminate);
    try (apply exitsAll_await; intros _; split; discriminate).
Qed.

Lemma issuesOptions_exits providerId filters :
  exitsAll notPagingFailure (issuesOptions api providerId filters).
Proof.
  unfold issuesOptions, notPagingFailure.
  exits_all; try (split; discriminate);
    try (apply exitsAll_await; intros _; split; discriminate).
Qed.

(** An [undefined] for a failed provider call comes after a query; one for
    a cause other than the two of the paging stage comes before any. *)
Definition earlyOrQueried {T} (x : list Event * Outcome T) : Prop :=
  forall why, snd x = Undefined why ->
              (why = ProviderCallFailed -> filter isQueryCall (fst x) <> [])
              /\ (why <> ProviderCallFailed -> why <> CursorUnusable ->
                  filter isQueryCall (fst x) = []).

Lemma staged_failure {T A} (m : Op (Outcome T) A) (k : A -> Op (Outcome T) (Outcome T)) :
  oneLookup (fst m) -> exitsAll notPagingFailure m ->
  (forall a, failedQuery (run (k a))) ->
  earlyOrQueried (run (bind m k)).
Proof.
  intros Hq He Hk why. rewrite fst_run_bind, snd_run_bind, filter_app.
  rewrite (oneLookup_quiet _ Hq). cbn [app].
  unfold exitsAll, notPagingFailure in He. destruct (snd m) as [a|r].
  - intros E. destruct (Hk a why E) as [-> |[-> Hne]].
    + split; [discriminate | intros _ H; now contradiction H].
    + split; [intros _; exact Hne | intros H; now contradiction H].
  - intros ->. destruct He as [He1 He2]. split; [|reflexivity].
    intros ->. now contradiction He1.
Qed.

Lemma early_failure {T} (providerId : ProviderId) (out : Outcome T) :
  early out -> earlyOrQueried ([EvGetSession providerId], out).
Proof.
  intros [-> |[-> | ->]] why; simpl; try discriminate;
    intros E; injection E as <-; split; [discriminate | reflexivity
                                        | discriminate | reflexivity].
Qed.

Lemma guarded_failure {T} (providerId : ProviderId) (x : list Event * Outcome T) :
  earlyOrQueried x -> earlyOrQueried (EvGetSession providerId :: fst x, snd x).
Proof. exact (fun H => H). Qed.

(** X12. When a query operation resolves with [undefined] for a cause that
    is found before the paging stage (no session, refused input,
    unsupported filter, no or several organizations, no current user, no
    user property), it has made no paging query; when it does so because a
    provider query failed, it has made one.  The paging stage has one more
    way to [undefined], with or without a query made: a cursor whose
    entries cannot be used. *)
Theorem undefined_before_first_query (order : list nat) (providerId : ProviderId)
  (reposOrRepoIds : ProviderReposInput) :
  (forall options why,
      snd (getPullRequestsForRepos api order providerId reposOrRepoIds options)
      = Undefined why ->
      (why = ProviderCallFailed ->
       filter isQueryCall
         (fst (getPullRequestsForRepos api order providerId reposOrRepoIds options))
       <> [])
      /\ (why <> ProviderCallFailed -> why <> CursorUnusable ->
          filter isQueryCall
            (fst (getPullRequestsForRepos api order providerId reposOrRepoIds options))
          = []))
  /\ (forall options why,
         snd (getIssuesForRepos api order providerId reposOrRepoIds options)
         = Undefined why ->
         (why = ProviderCallFailed ->
          filter isQueryCall
            (fst (getIssuesForRepos api order providerId reposOrRepoIds options))
          <> [])
         /\ (why <> ProviderCallFailed -> why <> CursorUnusable ->
             filter isQueryCall
               (fst (getIssuesForRepos api order providerId reposOrRepoIds options))
             = [])).
Proof.
  split; intros options.
  - change (earlyOrQueried
              (getPullRequestsForRepos api order providerId reposOrRepoIds options)).
    destruct (getPullRequestsForRepos_split order providerId reposOrRepoIds options)
      as [(out & -> & He)| ->].
    + now apply early_failure.
    + apply guarded_failure. unfold pullRequestsStages.
      apply staged_failure.
      * apply pullRequestsOptions_calls.
      * apply pullRequestsOptions_exits.
      * intros o. apply pullRequestsPaging_failed.
  - change (earlyOrQueried
              (getIssuesForRepos api order providerId reposOrRepoIds options)).
    destruct (getIssuesForRepos_split order providerId reposOrRepoIds options)
      as [(out & -> & He)| ->].
    + now apply early_failure.
    + apply guarded_failure. unfold issuesStages.
      destruct (ProviderId_eqb providerId AzureDevOps).
      * apply staged_failure.
        -- apply azureIssuesOptions_calls.
        -- apply azureIssuesOptions_exits.
        -- intros [[organization projects] o]. apply azureIssuesPaging_failed.
      * apply staged_failure.
        -- apply issuesOptions_calls.
        -- apply issuesOptions_exits.
        -- intros o. apply issuesPaging_failed.
Qed.

(** ** The identity filters of the queries *)

(** The identity options of a query call: a slot is filled exactly when its
    filter is among [filters], and every filled slot holds [value]. *)
Definition pullRequestSlots (filters : list PullRequestFilter) (value : jstring)
  (e : Event) : Prop :=
  match e with
  | EvGetPullRequestsForRepo _ _ o | EvGetPullRequestsForRepos _ _ o =>
      GetPullRequestsOptions.authorLogin o
      = (if includes PullRequestFilter_eqb filters PrAuthor then Some value else None)
      /\ GetPullRequestsOptions.assigneeLogins o
         = (if includes PullRequestFilter_eqb filters PrAssignee
            then Some [value] else None)
      /\ GetPullRequestsOptions.reviewRequestedLogin o
         = (if includes PullRequestFilter_eqb filters PrReviewRequested
            then Some value else None)
      /\ GetPullRequestsOptions.mentionLogin o
         = (if includes PullRequestFilter_eqb filters PrMention then Some value else None)
  | _ => True
  end.

Definition issueSlots (filters : list IssueFilter) (value : jstring) (e : Event) : Prop :=
  match e with
  | EvGetIssuesForRepo _ _ o | EvGetIssuesForAzureProject _ _ o
  | EvGetIssuesForRepos _ _ o =>
      GetIssuesOptions.authorLogin o
      = (if includes IssueFilter_eqb filters IsAuthor then Some value else None)
      /\ GetIssuesOptions.assigneeLogins o
         = (if includes IssueFilter_eqb filters IsAssignee then Some [value] else None)
      /\ GetIssuesOptions.mentionLogin o
         = (if includes IssueFilter_eqb filters IsMention then Some value else None)
  | _ => True
  end.

Lemma pullRequestsOptions_built providerId reposOrRepoIds filters t o :
  pullRequestsOptions api providerId reposOrRepoIds (Some filters) = (t, Next o) ->
  exists value, o = Some (pullRequestsOptionsOf filters value).
Proof.
  intros H. unfold pullRequestsOptions, await, bind, ret, exit in H.
  hyp_cases H; injection H as <- <-; eauto.
Qed.

Lemma azureIssuesOptions_built providerId reposOrRepoIds filters t organization
  projects o :
  azureIssuesOptions api providerId reposOrRepoIds (Some filters)
  = (t, Next (organization, projects, o)) ->
  exists value, o = Some (issuesOptionsOf filters value).
Proof.
  intros H. unfold azureIssuesOptions, await, bind, ret, exit in H.
  hyp_cases H; injection H as <- <- <- <-; eauto.
Qed.

Lemma issuesOptions_built providerId filters t o :
  issuesOptions api providerId (Some filters) = (t, Next o) ->
  exists value, o = Some (issuesOptionsOf filters value).
Proof.
  intros H. unfold issuesOptions, await, bind, ret, exit in H.
  hyp_cases H; injection H as <- <-; eauto.
Qed.

Lemma lookups_have_slots (P : Event -> Prop) (t : list Event) :
  (forall e, isIdentityCall e = true -> P e) -> oneLookup t -> Forall P t.
Proof.
  intros HP [_ H]. apply Forall_forall. intros e He. apply HP.
  revert e He. now apply Forall_forall.
Qed.

Lemma mapped_events {A} (P : Event -> Prop) (f : A -> Event) (l : list A) :
  (forall a, P (f a)) -> Forall P (map f l).
Proof.
  intros H. apply Forall_forall. intros e He.
  apply in_map_iff in He as (a & <- & _). apply H.
Qed.

Lemma pullRequestsPaging_slots order providerId reposOrRepoIds options filters value :
  Forall (pullRequestSlots filters value)
    (fst (run (pullRequestsPaging api order providerId reposOrRepoIds options
                 (Some (pullRequestsOptionsOf filters value))))).
Proof.
  unfold pullRequestsPaging. destruct (_ && _).
  - destruct (decodeCursors _ _); simpl; auto;
      apply mapped_events; intros u; simpl; auto.
  - destruct (ProvidersApi.getPullRequestsForRepos _ _ _ _); simpl;
      repeat constructor.
Qed.

Lemma issuesPaging_slots order providerId reposOrRepoIds options filters value :
  Forall (issueSlots filters value)
    (fst (run (issuesPaging api order providerId reposOrRepoIds options
                 (Some (issuesOptionsOf filters value))))).
Proof.
  unfold issuesPaging. destruct (_ && _).
  - destruct (decodeCursors _ _); simpl; auto;
      apply mapped_events; intros u; simpl; auto.
  - destruct (ProvidersApi.getIssuesForRepos _ _ _ _); simpl; repeat constructor.
Qed.

Lemma azureIssuesPaging_slots order options organization projects filters value :
  Forall (issueSlots filters value)
    (fst (run (azureIssuesPaging api order options organization projects
                 (Some (issuesOptionsOf filters value))))).
Proof.
  unfold azureIssuesPaging.
  destruct (decodeCursors _ _); simpl; auto;
    apply mapped_events; intros u; simpl; auto.
Qed.

(** X13. In a query with filters, all paging queries of the run carry the
    same identity options: a slot (author, assignees, review requested,
    mention) is filled exactly when its filter was requested, and all
    filled slots hold one and the same value. *)
Theorem identity_slots_follow_filters (order : list nat) (providerId : ProviderId)
  (reposOrRepoIds : ProviderReposInput) :
  (forall options filters,
      optFilters options = Some filters ->
      exists value,
        Forall (pullRequestSlots filters value)
          (fst (getPullRequestsForRepos api order providerId reposOrRepoIds options)))
  /\ (forall options filters,
         optFilters options = Some filters ->
         exists value,
           Forall (issueSlots filters value)
             (fst (getIssuesForRepos api order providerId reposOrRepoIds options))).
Proof.
  split; intros options filters Hf.
  - destruct (getPullRequestsForRepos_split order providerId reposOrRepoIds options)
      as [(out & -> & _)| ->]; cbn [fst].
    + exists []. repeat constructor.
    + unfold pullRequestsStages. rewrite fst_run_bind, Hf.
      pose proof (pullRequestsOptions_calls providerId reposOrRepoIds (Some filters))
        as Hcalls.
      destruct (pullRequestsOptions api providerId reposOrRepoIds (Some filters))
        as [t [o|r]] eqn:E; cbn [fst snd] in *.
      * destruct (pullRequestsOptions_built _ _ _ _ _ E) as (value & ->).
        exists value. constructor; [exact I|]. apply Forall_app. split.
        -- apply lookups_have_slots; [|exact Hcalls]. now destruct e.
        -- apply pullRequestsPaging_slots.
      * exists []. constructor; [exact I|]. rewrite app_nil_r.
        apply lookups_have_slots; [|exact Hcalls]. now destruct e.
  - destruct (getIssuesForRepos_split order providerId reposOrRepoIds options)
      as [(out & -> & _)| ->]; cbn [fst].
    + exists []. repeat constructor.
    + unfold issuesStages. destruct (ProviderId_eqb providerId AzureDevOps).
      * rewrite fst_run_bind, Hf.
        pose proof (azureIssuesOptions_calls providerId reposOrRepoIds (Some filters))
          as Hcalls.
        destruct (azureIssuesOptions api providerId reposOrRepoIds (Some filters))
          as [t [[[organization projects] o]|r]] eqn:E; cbn [fst snd] in *.
        -- destruct (azureIssuesOptions_built _ _ _ _ _ _ _ E) as (value & ->).
           exists value. constructor; [exact I|]. apply Forall_app. split.
           ++ apply lookups_have_slots; [|exact Hcalls]. now destruct e.
           ++ apply azureIssuesPaging_slots.
        -- exists []. constructor; [exact I|]. rewrite app_nil_r.
           apply lookups_have_slots; [|exact Hcalls]. now destruct e.
      * rewrite fst_run_bind, Hf.
        pose proof (issuesOptions_calls providerId (Some filters)) as Hcalls.
        destruct (issuesOptions api providerId (Some filters))
          as [t [o|r]] eqn:E; cbn [fst snd] in *.
        -- destruct (issuesOptions_built _ _ _ _ E) as (value & ->).
           exists value. constructor; [exact I|]. apply Forall_app. split.
           ++ apply lookups_have_slots; [|exact Hcalls]. now destruct e.
           ++ apply issuesPaging_slots.
        -- exists []. constructor; [exact I|]. rewrite app_nil_r.
           apply lookups_have_slots; [|exact Hcalls]. now destruct e.
Qed.

(** ** Which collaborator is called *)

(** The calls a pull-request query may make for a provider. *)
Definition pullRequestCall (providerId : ProviderId) (e : Event) : Prop :=
  match e with
  | EvGetSession p => p = providerId
  | EvGetCurrentUser p => p = providerId /\ providerId <> AzureDevOps
  | EvGetCurrentUserForInstance p _ => p = providerId /\ providerId = AzureDevOps
  | EvGetPullRequestsForRepo p _ _ | EvGetPullRequestsForRepos p _ _ => p = providerId
  | _ => False
  end.

(** The calls an issue query may make for a provider. *)
Definition issueCall (providerId : ProviderId) (e : Event) : Prop :=
  match e with
  | EvGetSession p => p = providerId
  | EvGetCurrentUser p => p = providerId /\ providerId <> AzureDevOps
  | EvGetCurrentUserForInstance p _ => p = providerId /\ providerId = AzureDevOps
  | EvGetIssuesForRepo p _ _ | EvGetIssuesForRepos p _ _ =>
      p = providerId /\ providerId <> AzureDevOps
  | EvGetIssuesForAzureProject _ _ _ => providerId = AzureDevOps
  | _ => False
  end.

Lemma pullRequestsPaging_discipline order providerId reposOrRepoIds options o :
  traceAll (pullRequestCall providerId)
    (pullRequestsPaging api order providerId reposOrRepoIds options o).
Proof.
  unfold pullRequestsPaging. destruct (_ && _).
  - destruct (decodeCursors _ _); try apply traceAll_exit;
      apply traceAll_events, mapped_events; reflexivity.
  - trace_all. reflexivity.
Qed.

(** X15. A pull-request query calls nothing but the session lookup, the
    identity lookup and the pull-request queries of its provider; an issue
    query nothing but the session lookup, the identity lookup and issue
    queries.  The identity of AzureDevOps is always looked up for an
    organization and that of any other provider never is; an AzureDevOps
    issue query pages by project only, whatever paging mode the registry
    gives, and no other provider's does. *)
Theorem calls_stay_with_the_provider (order : list nat) (providerId : ProviderId)
  (reposOrRepoIds : ProviderReposInput) :
  (forall options,
      Forall (pullRequestCall providerId)
        (fst (getPullRequestsForRepos api order providerId reposOrRepoIds options)))
  /\ (forall options,
         Forall (issueCall providerId)
           (fst (getIssuesForRepos api order providerId reposOrRepoIds options))).
Proof.
  split; intros options; apply traceAll_run.
  - apply traceAll_bind; [|intros o; apply pullRequestsPaging_discipline].
    unfold pullRequestsPrelude, pullRequestsOptions, ensureSession.
    destruct (ProviderId_eqb providerId AzureDevOps) eqn:Ep.
    + apply ProviderId_eqb_eq in Ep. trace_all; simpl; auto.
    + assert (providerId <> AzureDevOps) by (intros ->; discriminate Ep).
      trace_all; simpl; auto.
  - apply traceAll_bind.
    { unfold issuesEntry, ensureSession. trace_all; reflexivity. }
    intros _. destruct (ProviderId_eqb providerId AzureDevOps) eqn:Ep.
    + apply ProviderId_eqb_eq in Ep. apply traceAll_bind.
      * unfold azureIssuesOptions. trace_all; simpl; auto.
      * intros [[organization projects] o]. unfold azureIssuesPaging.
        destruct (decodeCursors _ _); try apply traceAll_exit;
          apply traceAll_events, mapped_events; intros u; exact Ep.
    + assert (providerId <> AzureDevOps) by (intros ->; discriminate Ep).
      apply traceAll_bind.
      * unfold issuesOptions. trace_all; simpl; auto.
      * intros o. unfold issuesPaging. destruct (_ && _).
        -- destruct (decodeCursors _ _); try apply traceAll_exit;
             apply traceAll_events, mapped_events; intros u; simpl; auto.
        -- trace_all. simpl. auto.
Qed.

(** ** The filter check *)

Ltac no_such_exit out :=
  let He := fresh "He" in
  let H := fresh "H" in
  match goal with
  | |- snd ?m = Exit _ -> False =>
      assert (He : exitsAll (fun r => r <> out) m);
      [ exits_all; try discriminate; try (apply exitsAll_await; discriminate)
      | unfold exitsAll in He; intros H; rewrite H in He; now apply He ]
  end.

Lemma staged_unsupported {T A} (m : Op (Outcome T) A)
  (k : A -> Op (Outcome T) (Outcome T)) :
  (forall a, failedQuery (run (k a))) ->
  snd (run (bind m k)) = Undefined UnsupportedFilter
  <-> snd m = Exit (Undefined UnsupportedFilter).
Proof.
  intros Hk. rewrite snd_run_bind. destruct (snd m) as [a|r]; split; intros H.
  - destruct (Hk a _ H) as [E|[E _]]; discriminate E.
  - discriminate H.
  - now rewrite H.
  - now injection H.
Qed.

Lemma pullRequestsOptions_unsupported providerId reposOrRepoIds filters :
  snd (pullRequestsOptions api providerId reposOrRepoIds filters)
  = Exit (Undefined UnsupportedFilter)
  <-> exists fs,
        filters = Some fs
        /\ ProvidersApi.providerSupportsPullRequestFilters api providerId fs = false.
Proof.
  unfold pullRequestsOptions. destruct filters as [fs|].
  - destruct (ProvidersApi.providerSupportsPullRequestFilters api providerId fs) eqn:Hsup;
      cbn [negb].
    + split; [|intros (fs' & E & H); injection E as <-; congruence].
      intros H. exfalso. revert H. no_such_exit (@Undefined PR UnsupportedFilter).
    + split; [intros _; exists fs; auto | reflexivity].
  - split; [discriminate | intros (fs & E & _); discriminate E].
Qed.

Lemma issuesOptions_unsupported providerId filters :
  snd (issuesOptions api providerId filters) <> Exit (Undefined UnsupportedFilter).
Proof.
  unfold issuesOptions. intros H. revert H.
  no_such_exit (@Undefined Issue UnsupportedFilter).
Qed.

Lemma azureIssuesOptions_unsupported providerId reposOrRepoIds filters :
  snd (azureIssuesOptions api providerId reposOrRepoIds filters)
  = Exit (Undefined UnsupportedFilter)
  <-> (exists organization, organizationsOf reposOrRepoIds = [organization])
      /\ exists fs,
           filters = Some fs
           /\ ProvidersApi.providerSupportsIssueFilters api providerId fs = false.
Proof.
  unfold azureIssuesOptions. cbv zeta.
  destruct (organizationsOf reposOrRepoIds) as [|organization [|organization' rest]].
  - split; [discriminate | intros ((x & E) & _); discriminate E].
  - cbn [List.length Nat.ltb Nat.leb]. destruct filters as [fs|].
    + destruct (ProvidersApi.providerSupportsIssueFilters api providerId fs) eqn:Hsup;
        cbn [negb].
      * split; [|intros (_ & fs' & E & H); injection E as <-; congruence].
        intros H. exfalso. revert H. no_such_exit (@Undefined Issue UnsupportedFilter).
      * split; [|reflexivity].
        intros _. split; [now exists organization | exists fs; auto].
    + split; [discriminate | intros (_ & fs & E & _); discriminate E].
  - split; [discriminate | intros ((x & E) & _); discriminate E].
Qed.

(** X16. A pull-request query resolves with [undefined] for an unsupported
    filter exactly when, past the session check and the input guard, it
    has filters that the provider does not support.  An issue query does so
    for AzureDevOps only, and there only after the check for the one
    organization; the issue query of every other provider never refuses a
    filter. *)
Theorem unsupported_filter_iff (order : list nat) (providerId : ProviderId)
  (reposOrRepoIds : ProviderReposInput) :
  (forall options,
      snd (getPullRequestsForRepos api order providerId reposOrRepoIds options)
      = Undefined UnsupportedFilter
      <-> ProvidersApi.getSession api providerId = Resolve true
          /\ ~ RefusedInput providerId reposOrRepoIds
          /\ exists filters,
               optFilters options = Some filters
               /\ ProvidersApi.providerSupportsPullRequestFilters api providerId filters
                  = false)
  /\ (forall options,
         snd (getIssuesForRepos api order providerId reposOrRepoIds options)
         = Undefined UnsupportedFilter
         <-> providerId = AzureDevOps
             /\ ProvidersApi.getSession api providerId = Resolve true
             /\ ~ RefusedInput providerId reposOrRepoIds
             /\ (exists organization, organizationsOf reposOrRepoIds = [organization])
             /\ exists filters,
                  optFilters options = Some filters
                  /\ ProvidersApi.providerSupportsIssueFilters api providerId filters
                     = false).
Proof.
  split; intros options.
  - destruct (ProvidersApi.getSession api providerId) as [[|]|] eqn:Hs.
    + destruct (unsupportedInput api providerId reposOrRepoIds) eqn:Hg.
      * unfold getPullRequestsForRepos, pullRequestsPrelude, ensureSession.
        rewrite Hs, Hg. split; [discriminate|].
        intros (_ & Hn & _). contradiction Hn. now apply unsupportedInput_refused.
      * rewrite (getPullRequestsForRepos_guarded _ _ _ _ Hs Hg). cbn [snd].
        unfold pullRequestsStages.
        rewrite staged_unsupported by (intros o; apply pullRequestsPaging_failed).
        rewrite pullRequestsOptions_unsupported. split.
        -- intros H. split; [reflexivity|]. split; [|exact H].
           rewrite <- unsupportedInput_refused. congruence.
        -- now intros (_ & _ & H).
    + unfold getPullRequestsForRepos, pullRequestsPrelude, ensureSession. rewrite Hs.
      split; [discriminate | intros (H & _); discriminate H].
    + unfold getPullRequestsForRepos, pullRequestsPrelude, ensureSession. rewrite Hs.
      split; [discriminate | intros (H & _); discriminate H].
  - destruct (ProvidersApi.getSession api providerId) as [[|]|] eqn:Hs.
    + destruct (unsupportedInput api providerId reposOrRepoIds) eqn:Hg.
      * unfold getIssuesForRepos, issuesEntry, ensureSession.
        rewrite Hs, Hg. split; [discriminate|].
        intros (_ & _ & Hn & _). contradiction Hn. now apply unsupportedInput_refused.
      * rewrite (getIssuesForRepos_guarded _ _ _ _ Hs Hg). cbn [snd].
        unfold issuesStages.
        destruct (ProviderId_eqb providerId AzureDevOps) eqn:Ep.
        -- apply ProviderId_eqb_eq in Ep.
           rewrite staged_unsupported
             by (intros [[organization projects] o]; apply azureIssuesPaging_failed).
           rewrite azureIssuesOptions_unsupported. split.
           ++ intros [Ho Hf]. split; [exact Ep|]. split; [reflexivity|].
              split; [|split; assumption].
              rewrite <- unsupportedInput_refused. congruence.
           ++ now intros (_ & _ & _ & Ho & Hf).
        -- rewrite staged_unsupported by (intros o; apply issuesPaging_failed).
           split.
           ++ intros H. now apply issuesOptions_unsupported in H.
           ++ intros (E & _). rewrite E in Ep. discriminate Ep.
    + unfold getIssuesForRepos, issuesEntry, ensureSession. rewrite Hs.
      split; [discriminate | intros (_ & H & _); discriminate H].
    + unfold getIssuesForRepos, issuesEntry, ensureSession. rewrite Hs.
      split; [discriminate | intros (_ & H & _); discriminate H].
Qed.

(** ** The current user behind the filters *)

(** The lookup that resolves the current user of a query with filters: for
    AzureDevOps the user of the one organization of the input, for every
    other provider the user of the provider (lines 66-97, 224-232 and
    305-310). *)
Definition currentUserOf (providerId : ProviderId) (reposOrRepoIds : ProviderReposInput)
  (resolved : Resp (option ProviderAccount.t)) : Prop :=
  (providerId = AzureDevOps
   /\ exists organization,
        organizationsOf reposOrRepoIds = [organization]
        /\ resolved = ProvidersApi.getCurrentUserForInstance api providerId organization)
  \/ (providerId <> AzureDevOps
      /\ resolved = ProvidersApi.getCurrentUser api providerId).

(** The property of the user that a provider's filter options take. *)
Definition pullRequestsField (providerId : ProviderId) (account : ProviderAccount.t)
  : option jstring :=
  match providerId with
  | Bitbucket | AzureDevOps => ProviderAccount.id account
  | _ => ProviderAccount.username account
  end.

Definition issuesField (providerId : ProviderId) (account : ProviderAccount.t)
  : option jstring :=
  match providerId with
  | AzureDevOps => ProviderAccount.name account
  | _ => ProviderAccount.username account
  end.

(** There is no user (the lookup fails or yields none), or the user lacks
    the property. *)
Definition IdentityFailure (why : Failure) (resolved : Resp (option ProviderAccount.t))
  (field : ProviderAccount.t -> option jstring) : Prop :=
  match why with
  | IdentityUnavailable => resolved = Reject \/ resolved = Resolve None
  | IdentityFieldMissing =>
      exists account, resolved = Resolve (Some account) /\ field account = None
  | _ => False
  end.

Lemma staged_undefined {T A} (m : Op (Outcome T) A)
  (k : A -> Op (Outcome T) (Outcome T)) (why : Failure) :
  why <> ProviderCallFailed -> why <> CursorUnusable ->
  (forall a, failedQuery (run (k a))) ->
  snd (run (bind m k)) = Undefined why <-> snd m = Exit (Undefined why).
Proof.
  intros Hw Hw' Hk. rewrite snd_run_bind. destruct (snd m) as [a|r]; split; intros H.
  - destruct (Hk a _ H) as [E|[E _]]; contradiction.
  - discriminate H.
  - now rewrite H.
  - now injection H.
Qed.

Lemma identity_step {R A} (providerId : ProviderId) (e : Event)
  (resolved : Resp (option ProviderAccount.t))
  (field : ProviderAccount.t -> option jstring) (build : jstring -> A)
  (why : Failure) :
  why = IdentityUnavailable \/ why = IdentityFieldMissing ->
  snd (bind (await (R := Outcome R) e resolved (Undefined IdentityUnavailable))
         (fun userAccount =>
            match userAccount with
            | None => exit (Undefined IdentityUnavailable)
            | Some userAccount =>
                match field userAccount with
                | None => exit (Undefined IdentityFieldMissing)
                | Some userFilterProperty => ret (build userFilterProperty)
                end
            end))
  = Exit (Undefined why)
  <-> IdentityFailure why resolved field.
Proof.
  intros Hwhy. destruct resolved as [[account|]|]; cbn [await bind ret exit app fst snd].
  - destruct (field account) eqn:Ef; cbn [bind ret exit app fst snd].
    + split; [discriminate|].
      destruct Hwhy as [-> | ->]; simpl.
      * intros [H|H]; discriminate H.
      * intros (a & Ea & Ha). injection Ea as <-. congruence.
    + destruct Hwhy as [-> | ->]; simpl.
      * split; [discriminate | intros [H|H]; discriminate H].
      * split; [intros _; now exists account | reflexivity].
  - destruct Hwhy as [-> | ->]; simpl.
    + split; [intros _; now right | reflexivity].
    + split; [discriminate | intros (a & Ea & _); discriminate Ea].
  - destruct Hwhy as [-> | ->]; simpl.
    + split; [intros _; now left | reflexivity].
    + split; [discriminate | intros (a & Ea & _); discriminate Ea].
Qed.

Lemma bind_ret_exits {R A B} (m : Op R A) (f : A -> B) (r : R) :
  snd (bind m (fun a => ret (f a))) = Exit r <-> snd m = Exit r.
Proof. destruct m as [t [a|r']]; simpl; split; intros H; congruence. Qed.

Lemma IdentityFailure_ext (why : Failure) (resolved : Resp (option ProviderAccount.t))
  (f g : ProviderAccount.t -> option jstring) :
  (forall account, f account = g account) ->
  IdentityFailure why resolved f -> IdentityFailure why resolved g.
Proof.
  intros E. destruct why; simpl; auto.
  intros (account & H & Hf). exists account. now rewrite <- E.
Qed.

Lemma issuesField_other (providerId : ProviderId) (account : ProviderAccount.t) :
  providerId <> AzureDevOps ->
  issuesField providerId account = ProviderAccount.username account.
Proof. destruct providerId; try reflexivity. now intros H. Qed.

Lemma pullRequestsOptions_identity providerId reposOrRepoIds filters why :
  why = IdentityUnavailable \/ why = IdentityFieldMissing ->
  snd (pullRequestsOptions api providerId reposOrRepoIds filters) = Exit (Undefined why)
  <-> exists fs resolved,
        filters = Some fs
        /\ ProvidersApi.providerSupportsPullRequestFilters api providerId fs = true
        /\ currentUserOf providerId reposOrRepoIds resolved
        /\ IdentityFailure why resolved (pullRequestsField providerId).
Proof.
  intros Hwhy. unfold pullRequestsOptions.
  destruct filters as [fs|];
    [|split; [discriminate | intros (fs & res & E & _); discriminate E]].
  destruct (ProvidersApi.providerSupportsPullRequestFilters api providerId fs) eqn:Hsup;
    cbn [negb].
  2: { split.
       - intros H. simpl in H. injection H as <-. destruct Hwhy; discriminate.
       - intros (fs' & res & E & Hs' & _). injection E as <-. congruence. }
  destruct (ProviderId_eqb providerId AzureDevOps) eqn:Ep.
  - apply ProviderId_eqb_eq in Ep. subst providerId. cbv zeta.
    destruct (organizationsOf reposOrRepoIds) as [|organization [|organization' rest]]
      eqn:Eorg; cbn [List.length Nat.ltb Nat.leb].
    + split.
      * intros H. simpl in H. injection H as <-. destruct Hwhy; discriminate.
      * intros (fs' & res & _ & _ & [(_ & o & E & _)|(Hne & _)] & _);
          [congruence | now contradiction Hne].
    + etransitivity;
        [exact (identity_step AzureDevOps _ _ (pullRequestsField AzureDevOps)
                  (fun v => Some (pullRequestsOptionsOf fs v)) why Hwhy)|].
      split.
      * intros H. exists fs. eexists. split; [reflexivity|]. split; [exact Hsup|].
        split; [|exact H]. left. split; [reflexivity|].
        exists organization. now split.
      * intros (fs' & res & _ & _ & [(_ & o & E & ->)|(Hne & _)] & Hf);
          [rewrite Eorg in E; injection E as <-; exact Hf | now contradiction Hne].
    + split.
      * intros H. simpl in H. injection H as <-. destruct Hwhy; discriminate.
      * intros (fs' & res & _ & _ & [(_ & o & E & _)|(Hne & _)] & _);
          [congruence | now contradiction Hne].
  - assert (Hne : providerId <> AzureDevOps)
      by (intros ->; discriminate Ep).
    etransitivity;
      [exact (identity_step providerId _ _ (pullRequestsField providerId)
                (fun v => Some (pullRequestsOptionsOf fs v)) why Hwhy)|].
    split.
    + intros H. exists fs. eexists. split; [reflexivity|]. split; [exact Hsup|].
      split; [|exact H]. right. now split.
    + intros (fs' & res & _ & _ & [(E & _)|(_ & ->)] & Hf);
        [now contradiction Hne | exact Hf].
Qed.

Lemma azureIssuesOptions_identity providerId reposOrRepoIds filters why :
  why = IdentityUnavailable \/ why = IdentityFieldMissing ->
  snd (azureIssuesOptions api providerId reposOrRepoIds filters) = Exit (Undefined why)
  <-> exists organization fs,
        organizationsOf reposOrRepoIds = [organization]
        /\ filters = Some fs
        /\ ProvidersApi.providerSupportsIssueFilters api providerId fs = true
        /\ IdentityFailure why
             (ProvidersApi.getCurrentUserForInstance api providerId organization)
             ProviderAccount.name.
Proof.
  intros Hwhy. unfold azureIssuesOptions. cbv zeta.
  destruct (organizationsOf reposOrRepoIds) as [|organization [|organization' rest]]
    eqn:Eorg; cbn [List.length Nat.ltb Nat.leb].
  - split.
    + intros H. simpl in H. injection H as <-. destruct Hwhy; discriminate.
    + intros (o & fs & E & _). discriminate E.
  - rewrite bind_ret_exits. destruct filters as [fs|].
    + destruct (ProvidersApi.providerSupportsIssueFilters api providerId fs) eqn:Hsup;
        cbn [negb].
      * etransitivity;
          [exact (identity_step providerId _ _ ProviderAccount.name
                    (fun v => Some (issuesOptionsOf fs v)) why Hwhy)|].
        split.
        -- intros H. exists organization, fs. auto.
        -- intros (o & fs' & E & _ & _ & Hf). now injection E as <-.
      * split.
        -- intros H. simpl in H. injection H as <-. destruct Hwhy; discriminate.
        -- intros (o & fs' & _ & E & Hs' & _). injection E as <-. congruence.
    + split; [discriminate | intros (o & fs & _ & E & _); discriminate E].
  - split.
    + intros H. simpl in H. injection H as <-. destruct Hwhy; discriminate.
    + intros (o & fs & E & _). discriminate E.
Qed.

Lemma issuesOptions_identity providerId filters why :
  why = IdentityUnavailable \/ why = IdentityFieldMissing ->
  snd (issuesOptions api providerId filters) = Exit (Undefined why)
  <-> exists fs,
        filters = Some fs
        /\ IdentityFailure why (ProvidersApi.getCurrentUser api providerId)
             ProviderAccount.username.
Proof.
  intros Hwhy. unfold issuesOptions. destruct filters as [fs|].
  - etransitivity;
      [exact (identity_step providerId _ _ ProviderAccount.username
                (fun v => Some (issuesOptionsOf fs v)) why Hwhy)|].
    split; [intros H; now exists fs | now intros (fs' & _ & H)].
  - split; [discriminate | intros (fs & E & _); discriminate E].
Qed.

(** X17. A query resolves with [undefined] for a missing identity exactly
    when, past the session check and the input guard, it has filters (for
    pull requests and for AzureDevOps issues: supported ones) and the lookup
    of the current user fails or yields no user (no current user), or
    yields a user without the property that the provider's filter options
    take (no user property): the id for pull requests of Bitbucket and
    AzureDevOps, the name for issues of AzureDevOps, the username
    otherwise. *)
Theorem identity_failure_iff (order : list nat) (providerId : ProviderId)
  (reposOrRepoIds : ProviderReposInput) :
  (forall options why,
      why = IdentityUnavailable \/ why = IdentityFieldMissing ->
      snd (getPullRequestsForRepos api order providerId reposOrRepoIds options)
      = Undefined why
      <-> ProvidersApi.getSession api providerId = Resolve true
          /\ ~ RefusedInput providerId reposOrRepoIds
          /\ exists filters resolved,
               optFilters options = Some filters
               /\ ProvidersApi.providerSupportsPullRequestFilters api providerId filters
                  = true
               /\ currentUserOf providerId reposOrRepoIds resolved
               /\ IdentityFailure why resolved (pullRequestsField providerId))
  /\ (forall options why,
         why = IdentityUnavailable \/ why = IdentityFieldMissing ->
         snd (getIssuesForRepos api order providerId reposOrRepoIds options)
         = Undefined why
         <-> ProvidersApi.getSession api providerId = Resolve true
             /\ ~ RefusedInput providerId reposOrRepoIds
             /\ exists filters resolved,
                  optFilters options = Some filters
                  /\ (providerId = AzureDevOps ->
                      ProvidersApi.providerSupportsIssueFilters api providerId filters
                      = true)
                  /\ currentUserOf providerId reposOrRepoIds resolved
                  /\ IdentityFailure why resolved (issuesField providerId)).
Proof.
  split; intros options why Hwhy;
    (assert (Hw : why <> ProviderCallFailed) by (destruct Hwhy; subst; discriminate));
    (assert (Hw' : why <> CursorUnusable) by (destruct Hwhy; subst; discriminate)).
  - destruct (ProvidersApi.getSession api providerId) as [[|]|] eqn:Hs.
    + destruct (unsupportedInput api providerId reposOrRepoIds) eqn:Hg.
      * unfold getPullRequestsForRepos, pullRequestsPrelude, ensureSession.
        rewrite Hs, Hg. split.
        -- intros H. simpl in H. injection H as <-. destruct Hwhy; discriminate.
        -- intros (_ & Hn & _). contradiction Hn. now apply unsupportedInput_refused.
      * rewrite (getPullRequestsForRepos_guarded _ _ _ _ Hs Hg). cbn [snd].
        unfold pullRequestsStages.
        rewrite staged_undefined
          by (try exact Hw; try exact Hw'; intros o; apply pullRequestsPaging_failed).
        rewrite (pullRequestsOptions_identity _ _ _ _ Hwhy). split.
        -- intros H. split; [reflexivity|]. split; [|exact H].
           rewrite <- unsupportedInput_refused. congruence.
        -- now intros (_ & _ & H).
    + unfold getPullRequestsForRepos, pullRequestsPrelude, ensureSession. rewrite Hs.
      split; [|intros (H & _); discriminate H].
      intros H. simpl in H. injection H as <-. destruct Hwhy; discriminate.
    + unfold getPullRequestsForRepos, pullRequestsPrelude, ensureSession. rewrite Hs.
      split; [discriminate | intros (H & _); discriminate H].
  - destruct (ProvidersApi.getSession api providerId) as [[|]|] eqn:Hs.
    + destruct (unsupportedInput api providerId reposOrRepoIds) eqn:Hg.
      * unfold getIssuesForRepos, issuesEntry, ensureSession.
        rewrite Hs, Hg. split.
        -- intros H. simpl in H. injection H as <-. destruct Hwhy; discriminate.
        -- intros (_ & Hn & _). contradiction Hn. now apply unsupportedInput_refused.
      * rewrite (getIssuesForRepos_guarded _ _ _ _ Hs Hg). cbn [snd].
        unfold issuesStages.
        assert (Hr : ~ RefusedInput providerId reposOrRepoIds)
          by (rewrite <- unsupportedInput_refused; congruence).
        destruct (ProviderId_eqb providerId AzureDevOps) eqn:Ep.
        -- apply ProviderId_eqb_eq in Ep.
           rewrite staged_undefined
             by (try exact Hw; try exact Hw';
                 intros [[organization projects] o]; apply azureIssuesPaging_failed).
           rewrite (azureIssuesOptions_identity _ _ _ _ Hwhy). split.
           ++ intros (organization & fs & Eorg & Ef & Hsup & Hfail).
              split; [reflexivity|]. split; [exact Hr|].
              exists fs. eexists. split; [exact Ef|]. split; [intros _; exact Hsup|].
              split.
              ** left. split; [exact Ep|]. exists organization. now split.
              ** subst providerId. exact Hfail.
           ++ intros (_ & _ & fs & res & Ef & Hsup & [(_ & o & Eorg & ->)|(Hne & _)] & Hf);
                [|now contradiction Hne].
              exists o, fs. split; [exact Eorg|]. split; [exact Ef|].
              split; [now apply Hsup|]. subst providerId. exact Hf.
        -- assert (Hne : providerId <> AzureDevOps) by (intros ->; discriminate Ep).
           rewrite staged_undefined
             by (try exact Hw; try exact Hw'; intros o; apply issuesPaging_failed).
           rewrite (issuesOptions_identity _ _ _ Hwhy). split.
           ++ intros (fs & Ef & Hfail).
              split; [reflexivity|]. split; [exact Hr|].
              exists fs. eexists. split; [exact Ef|].
              split; [intros E; now contradiction Hne|].
              split; [right; now split|].
              apply (IdentityFailure_ext _ _ ProviderAccount.username); [|exact Hfail].
              intros account. symmetry. now apply issuesField_other.
           ++ intros (_ & _ & fs & res & Ef & _ & [(E & _)|(_ & ->)] & Hf);
                [now contradiction Hne|].
              exists fs. split; [exact Ef|].
              apply (IdentityFailure_ext _ _ (issuesField providerId)); [|exact Hf].
              intros account. now apply issuesField_other.
    + unfold getIssuesForRepos, issuesEntry, ensureSession. rewrite Hs.
      split; [|intros (H & _); discriminate H].
      intros H. simpl in H. injection H as <-. destruct Hwhy; discriminate.
    + unfold getIssuesForRepos, issuesEntry, ensureSession. rewrite Hs.
      split; [discriminate | intros (H & _); discriminate H].
Qed.

(** ** The identity behind the filter options *)

Lemma identity_next {R A} (e : Event) (resolved : Resp (option ProviderAccount.t))
  (field : ProviderAccount.t -> option jstring) (build : jstring -> A)
  (t : list Event) (x : A) :
  bind (await (R := Outcome R) e resolved (Undefined IdentityUnavailable))
    (fun userAccount =>
       match userAccount with
       | None => exit (Undefined IdentityUnavailable)
       | Some userAccount =>
           match field userAccount with
           | None => exit (Undefined IdentityFieldMissing)
           | Some userFilterProperty => ret (build userFilterProperty)
           end
       end)
  = (t, Next x) ->
  exists account value,
    resolved = Resolve (Some account) /\ field account = Some value /\ x = build value.
Proof.
  destruct resolved as [[account|]|]; cbn [await bind ret exit app fst snd];
    try discriminate.
  destruct (field account) as [value|] eqn:Ef; cbn [bind ret exit app fst snd];
    try discriminate.
  intros H. injection H as _ <-. now exists account, value.
Qed.

(** The filter options that reach the paging stage were built from the
    current user: the lookup resolved with an account, and the options are
    those for the value of the account's property. *)
Lemma pullRequestsOptions_next providerId reposOrRepoIds filters t o :
  pullRequestsOptions api providerId reposOrRepoIds (Some filters) = (t, Next o) ->
  exists resolved account value,
    currentUserOf providerId reposOrRepoIds resolved
    /\ resolved = Resolve (Some account)
    /\ pullRequestsField providerId account = Some value
    /\ o = Some (pullRequestsOptionsOf filters value).
Proof.
  unfold pullRequestsOptions.
  destruct (ProvidersApi.providerSupportsPullRequestFilters api providerId filters);
    cbn [negb]; [|discriminate].
  destruct (ProviderId_eqb providerId AzureDevOps) eqn:Ep.
  - apply ProviderId_eqb_eq in Ep. subst providerId. cbv zeta.
    destruct (organizationsOf reposOrRepoIds) as [|organization [|organization' rest]]
      eqn:Eorg; cbn [List.length Nat.ltb Nat.leb]; try discriminate.
    intros H.
    apply (identity_next _ _ (pullRequestsField AzureDevOps)
             (fun v => Some (pullRequestsOptionsOf filters v))) in H.
    destruct H as (account & value & Er & Ef & ->).
    exists (ProvidersApi.getCurrentUserForInstance api AzureDevOps organization),
      account, value.
    split; [|auto]. left. split; [reflexivity|]. now exists organization.
  - assert (Hne : providerId <> AzureDevOps) by (intros ->; discriminate Ep).
    intros H.
    apply (identity_next _ _ (pullRequestsField providerId)
             (fun v => Some (pullRequestsOptionsOf filters v))) in H.
    destruct H as (account & value & Er & Ef & ->).
    exists (ProvidersApi.getCurrentUser api providerId), account, value.
    split; [|auto]. right. now split.
Qed.

Lemma bind_ret_next {R A B} (m : Op R A) (f : A -> B) (t : list Event) (b : B) :
  bind m (fun a => ret (f a)) = (t, Next b) -> exists a, m = (t, Next a) /\ b = f a.
Proof.
  destruct m as [t' [a|r]]; simpl; [|discriminate].
  rewrite app_nil_r. intros H. injection H as <- <-. now exists a.
Qed.

Lemma azureIssuesOptions_next reposOrRepoIds filters t organization projects o :
  azureIssuesOptions api AzureDevOps reposOrRepoIds (Some filters)
  = (t, Next (organization, projects, o)) ->
  exists resolved account value,
    currentUserOf AzureDevOps reposOrRepoIds resolved
    /\ resolved = Resolve (Some account)
    /\ issuesField AzureDevOps account = Some value
    /\ o = Some (issuesOptionsOf filters value).
Proof.
  unfold azureIssuesOptions. cbv zeta.
  destruct (organizationsOf reposOrRepoIds) as [|organization0 [|organization' rest]]
    eqn:Eorg; cbn [List.length Nat.ltb Nat.leb]; try discriminate.
  intros H. apply bind_ret_next in H as (o' & H & E). injection E as _ _ <-.
  destruct (ProvidersApi.providerSupportsIssueFilters api AzureDevOps filters);
    cbn [negb] in H; [|discriminate H].
  apply (identity_next _ _ (issuesField AzureDevOps)
           (fun v => Some (issuesOptionsOf filters v))) in H.
  destruct H as (account & value & Er & Ef & ->).
  exists (ProvidersApi.getCurrentUserForInstance api AzureDevOps organization0),
    account, value.
  split; [|auto]. left. split; [reflexivity|]. now exists organization0.
Qed.

Lemma issuesOptions_next providerId reposOrRepoIds filters t o :
  providerId <> AzureDevOps ->
  issuesOptions api providerId (Some filters) = (t, Next o) ->
  exists resolved account value,
    currentUserOf providerId reposOrRepoIds resolved
    /\ resolved = Resolve (Some account)
    /\ issuesField providerId account = Some value
    /\ o = Some (issuesOptionsOf filters value).
Proof.
  intros Hne H. unfold issuesOptions in H.
  apply (identity_next _ _ ProviderAccount.username
           (fun v => Some (issuesOptionsOf filters v))) in H.
  destruct H as (account & value & Er & Ef & ->).
  exists (ProvidersApi.getCurrentUser api providerId), account, value.
  split; [right; now split|]. split; [exact Er|]. split; [|reflexivity].
  now rewrite issuesField_other.
Qed.

(** C6, as the code has it. In a query with filters that reaches the
    provider with a paging query, the current user was looked up (for
    AzureDevOps the user of the one organization of the input, for every
    other provider the user of the provider), the lookup resolved with an
    account, and every identity slot that the paging queries fill holds one
    property of that account: for a pull-request query the id for
    AzureDevOps and Bitbucket and the username for every other provider;
    for an issue query the name for AzureDevOps and the username for every
    other provider, Bitbucket included. *)
Theorem identity_field_by_provider (order : list nat) (providerId : ProviderId)
  (reposOrRepoIds : ProviderReposInput) :
  (forall options filters,
      optFilters options = Some filters ->
      filter isQueryCall
        (fst (getPullRequestsForRepos api order providerId reposOrRepoIds options))
      <> [] ->
      exists resolved account value,
        currentUserOf providerId reposOrRepoIds resolved
        /\ resolved = Resolve (Some account)
        /\ match providerId with
           | AzureDevOps | Bitbucket => ProviderAccount.id account
           | _ => ProviderAccount.username account
           end = Some value
        /\ Forall (pullRequestSlots filters value)
             (fst (getPullRequestsForRepos api order providerId reposOrRepoIds options)))
  /\ (forall options filters,
         optFilters options = Some filters ->
         filter isQueryCall
           (fst (getIssuesForRepos api order providerId reposOrRepoIds options))
         <> [] ->
         exists resolved account value,
           currentUserOf providerId reposOrRepoIds resolved
           /\ resolved = Resolve (Some account)
           /\ match providerId with
              | AzureDevOps => ProviderAccount.name account
              | _ => ProviderAccount.username account
              end = Some value
           /\ Forall (issueSlots filters value)
                (fst (getIssuesForRepos api order providerId reposOrRepoIds options))).
Proof.
  split; intros options filters Hf.
  - destruct (getPullRequestsForRepos_split order providerId reposOrRepoIds options)
      as [(out & -> & _)| ->]; cbn [fst]; [intros H; now contradiction H|].
    cbn [filter isQueryCall]. unfold pullRequestsStages. rewrite fst_run_bind, Hf.
    pose proof (pullRequestsOptions_calls providerId reposOrRepoIds (Some filters))
      as Hcalls.
    destruct (pullRequestsOptions api providerId reposOrRepoIds (Some filters))
      as [t [o|r]] eqn:E; cbn [fst snd] in *.
    + intros _.
      destruct (pullRequestsOptions_next _ _ _ _ _ E)
        as (resolved & account & value & Hcu & Er & Ef & ->).
      exists resolved, account, value.
      split; [exact Hcu|]. split; [exact Er|].
      split; [destruct providerId; exact Ef|].
      constructor; [exact I|]. apply Forall_app. split.
      * apply lookups_have_slots; [|exact Hcalls]. now destruct e.
      * apply pullRequestsPaging_slots.
    + rewrite app_nil_r, (oneLookup_quiet _ Hcalls). intros H. now contradiction H.
  - destruct (getIssuesForRepos_split order providerId reposOrRepoIds options)
      as [(out & -> & _)| ->]; cbn [fst]; [intros H; now contradiction H|].
    cbn [filter isQueryCall]. unfold issuesStages.
    destruct (ProviderId_eqb providerId AzureDevOps) eqn:Ep.
    + apply ProviderId_eqb_eq in Ep. subst providerId.
      rewrite fst_run_bind, Hf.
      pose proof (azureIssuesOptions_calls AzureDevOps reposOrRepoIds (Some filters))
        as Hcalls.
      destruct (azureIssuesOptions api AzureDevOps reposOrRepoIds (Some filters))
        as [t [[[organization projects] o]|r]] eqn:E; cbn [fst snd] in *.
      * intros _.
        destruct (azureIssuesOptions_next _ _ _ _ _ _ E)
          as (resolved & account & value & Hcu & Er & Ef & ->).
        exists resolved, account, value.
        split; [exact Hcu|]. split; [exact Er|]. split; [exact Ef|].
        constructor; [exact I|]. apply Forall_app. split.
        -- apply lookups_have_slots; [|exact Hcalls]. now destruct e.
        -- apply azureIssuesPaging_slots.
      * rewrite app_nil_r, (oneLookup_quiet _ Hcalls). intros H. now contradiction H.
    + assert (Hne : providerId <> AzureDevOps) by (intros ->; discriminate Ep).
      rewrite fst_run_bind, Hf.
      pose proof (issuesOptions_calls providerId (Some filters)) as Hcalls.
      destruct (issuesOptions api providerId (Some filters))
        as [t [o|r]] eqn:E; cbn [fst snd] in *.
      * intros _.
        destruct (issuesOptions_next _ reposOrRepoIds _ _ _ Hne E)
          as (resolved & account & value & Hcu & Er & Ef & ->).
        exists resolved, account, value.
        split; [exact Hcu|]. split; [exact Er|].
        split; [destruct providerId; exact Ef|].
        constructor; [exact I|]. apply Forall_app. split.
        -- apply lookups_have_slots; [|exact Hcalls]. now destruct e.
        -- apply issuesPaging_slots.
      * rewrite app_nil_r, (oneLookup_quiet _ Hcalls). intros H. now contradiction H.
Qed.

(** ** A cursor with [null] among its entries *)





(** ** Pull requests without filters *)

(** X19. A pull-request query without filters has no stage between the
    input guard and the paging stage: it checks no organization and looks
    up no user, for AzureDevOps as for any provider.  When it resolves
    with [undefined], the cause is the missing session, the refused input,
    or one of the two of the paging stage. *)
Theorem pull_requests_without_filters_check_no_organization (order : list nat)
  (providerId : ProviderId) (reposOrRepoIds : ProviderReposInput) :
  forall options why,
    optFilters options = None ->
    snd (getPullRequestsForRepos api order providerId reposOrRepoIds options)
    = Undefined why ->
    why = SessionUnavailable \/ why = UnsupportedInput
    \/ why = ProviderCallFailed \/ why = CursorUnusable.
Proof.
  intros options why Hf.
  destruct (getPullRequestsForRepos_split order providerId reposOrRepoIds options)
    as [(out & -> & [-> |[-> | ->]])| ->]; cbn [snd].
  - discriminate.
  - intros E. injection E as <-. now left.
  - intros E. injection E as <-. right. now left.
  - unfold pullRequestsStages. rewrite Hf. unfold pullRequestsOptions.
    rewrite bind_ret_l. intros E.
    destruct (pullRequestsPaging_failed order providerId reposOrRepoIds options None
                why E) as [-> |[-> _]]; auto.
Qed.

End MoreServiceFacts.

(** ** Concrete runs for the further properties *)

(** An environment without session, and one whose providers answer a query
    for several repositories in one call. *)
Definition noSessionApi : ProvidersApi.t nat nat nat :=
  ProvidersApi.mk nat nat nat
    (fun _ => Resolve false)
    false
    (fun _ => [PrAuthor; PrAssignee])
    (fun _ => [IsAuthor; IsAssignee])
    (fun _ => Repo)
    (fun _ => Repo)
    (fun _ => Resolve (Some alice))
    (fun _ _ => Resolve (Some alice))
    (fun _ repo _ => Resolve (pageOfRepo repo))
    (fun _ _ _ => Resolve pageTwo)
    (fun _ repo _ => Resolve (pageOfRepo repo))
    (fun _ project _ => Resolve (pageOfProject project))
    (fun _ _ _ => Resolve pageTwo)
    (fun _ _ _ => Resolve pageTwo).


(** A second repository of the project of [repoA], and one without project. *)
Definition repoA2 : ProviderRepoInput.t :=
  ProviderRepoInput.mk (js "org-a") (js "ra2") (Some (js "proj")).
Definition repoBare : ProviderRepoInput.t :=
  ProviderRepoInput.mk (js "org-a") (js "rx") None.

Lemma no_session_no_call_witness :
  ProvidersApi.getSession noSessionApi GitHub = Resolve false
  /\ getPullRequestsForRepos noSessionApi [0] GitHub (RepoInputs [r1]) None
     = ([EvGetSession GitHub], Undefined SessionUnavailable)
  /\ getIssuesForRepos noSessionApi [0] GitHub (RepoInputs [r1]) None
     = ([EvGetSession GitHub], Undefined SessionUnavailable)
  /\ getReposForAzureProject noSessionApi (js "org-a") (js "proj") None
     = ([EvGetSession AzureDevOps], Undefined SessionUnavailable).
Proof.
  destruct (no_session_no_call noSessionApi GitHub eq_refl) as (Hp & Hi & _).
  destruct (no_session_no_call noSessionApi AzureDevOps eq_refl) as (_ & _ & Hr).
  split; [reflexivity|]. split; [apply Hp|]. split; [apply Hi|].
  exact (Hr eq_refl _ _ _).
Defined.

Lemma unsupported_input_iff_witness :
  ProvidersApi.getSession perRepoApi GitHub = Resolve true
  /\ RefusedInput perRepoApi GitHub (RepoIdsInput [js "17"])
  /\ getPullRequestsForRepos perRepoApi [0] GitHub (RepoIdsInput [js "17"]) None
     = ([EvGetSession GitHub], Undefined UnsupportedInput)
  /\ RefusedInput perRepoApi AzureDevOps (RepoInputs [repoA; repoBare])
  /\ getIssuesForRepos perRepoApi [0] AzureDevOps (RepoInputs [repoA; repoBare]) None
     = ([EvGetSession AzureDevOps], Undefined UnsupportedInput).
Proof.
  assert (H1 : RefusedInput perRepoApi GitHub (RepoIdsInput [js "17"])).
  { split; [discriminate | left; reflexivity]. }
  assert (H2 : RefusedInput perRepoApi AzureDevOps (RepoInputs [repoA; repoBare])).
  { split; [discriminate|]. right. split; [reflexivity|].
    exists repoBare. split; [right; left|]; reflexivity. }
  destruct (proj1 (unsupported_input_iff perRepoApi [0] GitHub
                     (RepoIdsInput [js "17"]) eq_refl) None) as [Ho Ht].
  destruct (proj2 (unsupported_input_iff perRepoApi [0] AzureDevOps
                     (RepoInputs [repoA; repoBare]) eq_refl) None) as [Ho' Ht'].
  split; [reflexivity|]. split; [exact H1|]. split.
  - rewrite (surjective_pairing (getPullRequestsForRepos _ _ _ _ _)).
    now rewrite (Ht H1), (proj2 Ho H1).
  - split; [exact H2|].
    rewrite (surjective_pairing (getIssuesForRepos _ _ _ _ _)).
    now rewrite (Ht' H2), (proj2 Ho' H2).
Defined.


Lemma repos_call_passes_through_witness :
  ProvidersApi.getSession perRepoApi AzureDevOps = Resolve true
  /\ getReposForAzureProject perRepoApi (js "org-a") (js "proj") (Some (js "c1"))
     = ([EvGetSession AzureDevOps;
         EvGetReposForAzureProject (js "org-a") (js "proj") (Some (js "c1"))],
        Returned pageTwo)
  /\ ProvidersApi.getSession noSessionApi AzureDevOps <> Resolve true
  /\ fst (getReposForAzureProject noSessionApi (js "org-a") (js "proj") None)
     = [EvGetSession AzureDevOps].
Proof.
  assert (Hn : ProvidersApi.getSession noSessionApi AzureDevOps <> Resolve true)
    by discriminate.
  split; [reflexivity|]. split.
  - exact (proj1 (repos_call_passes_through perRepoApi (js "org-a") (js "proj")
                    (Some (js "c1"))) eq_refl).
  - split; [exact Hn|].
    exact (proj1 (proj2 (repos_call_passes_through noSessionApi (js "org-a") (js "proj")
                           None) Hn)).
Defined.

Lemma rejects_only_on_session_or_cursor_witness :
  snd (getPullRequestsForRepos perRepoApi [0] GitHub (RepoInputs [r1])
         (Some (QueryOptions.mk None (Some []))))
  = Rejected SyntaxError
  /\ ((ProvidersApi.getSession perRepoApi GitHub = Reject /\ SyntaxError = SessionError)
      \/ decodeCursors pagedRepoInputOfJson
           (optCursor (Some (QueryOptions.mk (F := PullRequestFilter) None (Some []))))
         = DecThrows SyntaxError).
Proof.
  split; [reflexivity|].
  exact (proj1 (rejects_only_on_session_or_cursor perRepoApi)
           [0] GitHub (RepoInputs [r1]) (Some (QueryOptions.mk None (Some [])))
           SyntaxError eq_refl).
Defined.

(** The cursor [{ cursors: { length: { toString: null } } }]. *)
Definition unconvertibleCursor : jstring :=
  stringify (JObj [(js "cursors",
                    JObj [(js "length", JObj [(js "toString", JNull)])])]).

Lemma fan_out_rejects_iff_cursor_unreadable_witness :
  pullRequestsPrelude perRepoApi GitHub (RepoInputs [r1])
    (Some (QueryOptions.mk None (Some (js "null"))))
  = ([EvGetSession GitHub], Next None)
  /\ ProvidersApi.getProviderPullRequestsPagingMode perRepoApi GitHub = Repo
  /\ ProvidersApi.isRepoIdsInput perRepoApi (RepoInputs [r1]) = false
  /\ Unreadable (Some (js "null")) TypeError
  /\ snd (getPullRequestsForRepos perRepoApi [0] GitHub (RepoInputs [r1])
            (Some (QueryOptions.mk None (Some (js "null")))))
     = Rejected TypeError
  /\ Unreadable (Some unconvertibleCursor) TypeError
  /\ snd (getPullRequestsForRepos perRepoApi [0] GitHub (RepoInputs [r1])
            (Some (QueryOptions.mk None (Some unconvertibleCursor))))
     = Rejected TypeError.
Proof.
  assert (Hu : Unreadable (Some (js "null")) TypeError).
  { exists (js "null"). split; [reflexivity|]. right. left. split; reflexivity. }
  assert (Hu' : Unreadable (Some unconvertibleCursor) TypeError).
  { exists unconvertibleCursor. split; [reflexivity|]. right. right.
    exists [(js "cursors", JObj [(js "length", JObj [(js "toString", JNull)])])],
      [(js "length", JObj [(js "toString", JNull)])],
      (JObj [(js "toString", JNull)]).
    split; [vm_compute; reflexivity|]. split; [reflexivity|]. split; [reflexivity|].
    split; [|reflexivity]. now apply (UnconvertibleObject _ JNull). }
  split; [reflexivity|]. split; [reflexivity|]. split; [reflexivity|].
  split; [exact Hu|]. split.
  - exact (proj2 (proj1 (fan_out_rejects_iff_cursor_unreadable perRepoApi [0])
                    GitHub (RepoInputs [r1])
                    (Some (QueryOptions.mk None (Some (js "null"))))
                    [EvGetSession GitHub] None TypeError eq_refl eq_refl eq_refl) Hu).
  - split; [exact Hu'|].
    exact (proj2 (proj1 (fan_out_rejects_iff_cursor_unreadable perRepoApi [0])
                    GitHub (RepoInputs [r1])
                    (Some (QueryOptions.mk None (Some unconvertibleCursor)))
                    [EvGetSession GitHub] None TypeError eq_refl eq_refl eq_refl) Hu').
Defined.

(** A first call over [r1], [r2] queries both, and an AzureDevOps issue
    call over two repositories of one project queries that project once. *)
Lemma first_call_queries_input_witness :
  (PullRequestsFanOut perRepoApi GitHub (RepoInputs [r1; r2]) None
     [EvGetSession GitHub] None []
   /\ filter isQueryCall
        (fst (getPullRequestsForRepos perRepoApi [1; 0] GitHub (RepoInputs [r1; r2]) None))
      = [EvGetPullRequestsForRepo GitHub r1 (spreadPullRequestsOptions None None);
         EvGetPullRequestsForRepo GitHub r2 (spreadPullRequestsOptions None None)])
  /\ (AzureIssuesFanOut perRepoApi (RepoInputs [repoA; repoA2]) None
        [EvGetSession AzureDevOps] (js "org-a") [js "proj"] None []
      /\ filter isQueryCall
           (fst (getIssuesForRepos perRepoApi [0] AzureDevOps
                   (RepoInputs [repoA; repoA2]) None))
         = [EvGetIssuesForAzureProject (js "org-a") (js "proj")
              (spreadIssuesOptions None None)]).
Proof.
  assert (H1 : PullRequestsFanOut perRepoApi GitHub (RepoInputs [r1; r2]) None
                 [EvGetSession GitHub] None [])
    by (repeat split; vm_compute; reflexivity).
  assert (H3 : AzureIssuesFanOut perRepoApi (RepoInputs [repoA; repoA2]) None
                 [EvGetSession AzureDevOps] (js "org-a") [js "proj"] None [])
    by (repeat split; vm_compute; reflexivity).
  split.
  - split; [exact H1|].
    exact (proj1 (first_call_queries_input perRepoApi [1; 0]) _ _ _ _ _ H1).
  - split; [exact H3|].
    exact (proj1 (proj2 (proj2 (first_call_queries_input perRepoApi [0]))
                    _ _ _ _ _ _ H3)).
Defined.



Lemma merged_values_permutation_witness :
  PullRequestsFanOut perRepoApi GitHub (RepoInputs [r1; r2]) None
    [EvGetSession GitHub] None []
  /\ Permutation [1; 0] (seq 0 2)
  /\ exists results,
       snd (getPullRequestsForRepos perRepoApi [1; 0] GitHub (RepoInputs [r1; r2]) None)
       = Returned results
       /\ Permutation (PagedResult.values results) [1; 2; 3].
Proof.
  assert (H1 : PullRequestsFanOut perRepoApi GitHub (RepoInputs [r1; r2]) None
                 [EvGetSession GitHub] None [])
    by (repeat split; vm_compute; reflexivity).
  assert (Hp : Permutation [1; 0] (seq 0 2)) by apply perm_swap.
  split; [exact H1|]. split; [exact Hp|].
  apply (proj1 (merged_values_permutation perRepoApi [1; 0])
           GitHub (RepoInputs [r1; r2]) None [EvGetSession GitHub] None []
           pageOfRepoInput H1 Hp).
  repeat constructor.
Defined.

(** A failed unit call comes after queries; a refusal for several
    organizations comes before any. *)
Lemma undefined_before_first_query_witness :
  snd (getPullRequestsForRepos failingApi [1; 0] GitHub (RepoInputs [r1; r2]) None)
  = Undefined ProviderCallFailed
  /\ filter isQueryCall
       (fst (getPullRequestsForRepos failingApi [1; 0] GitHub (RepoInputs [r1; r2]) None))
     <> []
  /\ snd (getIssuesForRepos perRepoApi [0] AzureDevOps (RepoInputs [repoA; repoB]) None)
     = Undefined MultipleOrganizationsNotSupported
  /\ MultipleOrganizationsNotSupported <> ProviderCallFailed
  /\ MultipleOrganizationsNotSupported <> CursorUnusable
  /\ filter isQueryCall
       (fst (getIssuesForRepos perRepoApi [0] AzureDevOps
               (RepoInputs [repoA; repoB]) None))
     = [].
Proof.
  assert (E1 : snd (getPullRequestsForRepos failingApi [1; 0] GitHub
                      (RepoInputs [r1; r2]) None)
               = Undefined ProviderCallFailed) by reflexivity.
  assert (E2 : snd (getIssuesForRepos perRepoApi [0] AzureDevOps
                      (RepoInputs [repoA; repoB]) None)
               = Undefined MultipleOrganizationsNotSupported) by reflexivity.
  assert (N1 : MultipleOrganizationsNotSupported <> ProviderCallFailed) by discriminate.
  assert (N2 : MultipleOrganizationsNotSupported <> CursorUnusable) by discriminate.
  split; [exact E1|]. split.
  - exact (proj1 (proj1 (undefined_before_first_query failingApi [1; 0] GitHub
                           (RepoInputs [r1; r2])) None ProviderCallFailed E1) eq_refl).
  - split; [exact E2|]. split; [exact N1|]. split; [exact N2|].
    exact (proj2 (proj2 (undefined_before_first_query perRepoApi [0] AzureDevOps
                           (RepoInputs [repoA; repoB]))
                    None MultipleOrganizationsNotSupported E2) N1 N2).
Defined.

Lemma identity_slots_follow_filters_witness :
  optFilters (Some (QueryOptions.mk (Some [PrAuthor]) None)) = Some [PrAuthor]
  /\ (exists value,
         Forall (pullRequestSlots [PrAuthor] value)
           (fst (getPullRequestsForRepos perRepoApi [1; 0] GitHub (RepoInputs [r1; r2])
                   (Some (QueryOptions.mk (Some [PrAuthor]) None)))))
  /\ optFilters (Some (QueryOptions.mk (Some [IsAssignee; IsMention]) None))
     = Some [IsAssignee; IsMention]
  /\ (exists value,
         Forall (issueSlots [IsAssignee; IsMention] value)
           (fst (getIssuesForRepos perRepoApi [0] GitLab (RepoInputs [r1])
                   (Some (QueryOptions.mk (Some [IsAssignee; IsMention]) None))))).
Proof.
  split; [reflexivity|]. split.
  - exact (proj1 (identity_slots_follow_filters perRepoApi [1; 0] GitHub
                    (RepoInputs [r1; r2]))
             (Some (QueryOptions.mk (Some [PrAuthor]) None)) [PrAuthor] eq_refl).
  - split; [reflexivity|].
    exact (proj2 (identity_slots_follow_filters perRepoApi [0] GitLab (RepoInputs [r1]))
             (Some (QueryOptions.mk (Some [IsAssignee; IsMention]) None))
             [IsAssignee; IsMention] eq_refl).
Defined.

(** An environment whose providers know no current user. *)
Definition strangerApi : ProvidersApi.t nat nat nat :=
  ProvidersApi.mk nat nat nat
    (fun _ => Resolve true)
    false
    (fun _ => [PrAuthor; PrAssignee])
    (fun _ => [IsAuthor; IsAssignee])
    (fun _ => Repo)
    (fun _ => Repo)
    (fun _ => Resolve None)
    (fun _ _ => Resolve None)
    (fun _ repo _ => Resolve (pageOfRepo repo))
    (fun _ _ _ => Resolve pageTwo)
    (fun _ repo _ => Resolve (pageOfRepo repo))
    (fun _ project _ => Resolve (pageOfProject project))
    (fun _ _ _ => Resolve pageTwo)
    (fun _ _ _ => Resolve pageTwo).

(** GitHub does not support the mention filter here: the pull-request
    query refuses it, the GitLab issue query with the same gap does not. *)
Lemma unsupported_filter_iff_witness :
  ProvidersApi.providerSupportsPullRequestFilters perRepoApi GitHub [PrMention] = false
  /\ snd (getPullRequestsForRepos perRepoApi [0] GitHub (RepoInputs [r1])
            (Some (QueryOptions.mk (Some [PrMention]) None)))
     = Undefined UnsupportedFilter
  /\ ProvidersApi.providerSupportsIssueFilters perRepoApi GitLab [IsMention] = false
  /\ snd (getIssuesForRepos perRepoApi [0] GitLab (RepoInputs [r1])
            (Some (QueryOptions.mk (Some [IsMention]) None)))
     <> Undefined UnsupportedFilter.
Proof.
  split; [reflexivity|]. split.
  - apply (proj2 (proj1 (unsupported_filter_iff perRepoApi [0] GitHub (RepoInputs [r1]))
                    (Some (QueryOptions.mk (Some [PrMention]) None)))).
    split; [reflexivity|]. split.
    + intros [_ [H|(H & _)]]; discriminate H.
    + exists [PrMention]. split; reflexivity.
  - split; [reflexivity|].
    intros H.
    apply (proj1 (proj2 (unsupported_filter_iff perRepoApi [0] GitLab (RepoInputs [r1]))
                    (Some (QueryOptions.mk (Some [IsMention]) None)))) in H.
    destruct H as (E & _). discriminate E.
Defined.

Lemma identity_failure_iff_witness :
  (IdentityUnavailable = IdentityUnavailable \/ IdentityUnavailable = IdentityFieldMissing)
  /\ ProvidersApi.getCurrentUser strangerApi GitHub = Resolve None
  /\ snd (getPullRequestsForRepos strangerApi [0] GitHub (RepoInputs [r1])
            (Some (QueryOptions.mk (Some [PrAuthor]) None)))
     = Undefined IdentityUnavailable
  /\ snd (getIssuesForRepos strangerApi [0] AzureDevOps (RepoInputs [repoA])
            (Some (QueryOptions.mk (Some [IsAuthor]) None)))
     = Undefined IdentityUnavailable.
Proof.
  assert (Hw : IdentityUnavailable = IdentityUnavailable
               \/ IdentityUnavailable = IdentityFieldMissing) by now left.
  split; [exact Hw|]. split; [reflexivity|]. split.
  - apply (proj2 (proj1 (identity_failure_iff strangerApi [0] GitHub (RepoInputs [r1]))
                    (Some (QueryOptions.mk (Some [PrAuthor]) None))
                    IdentityUnavailable Hw)).
    split; [reflexivity|]. split.
    + intros [_ [H|(H & _)]]; discriminate H.
    + exists [PrAuthor], (Resolve None). split; [reflexivity|]. split; [reflexivity|].
      split; [right; split; [discriminate | reflexivity] | right; reflexivity].
  - apply (proj2 (proj2 (identity_failure_iff strangerApi [0] AzureDevOps
                           (RepoInputs [repoA]))
                    (Some (QueryOptions.mk (Some [IsAuthor]) None))
                    IdentityUnavailable Hw)).
    split; [reflexivity|]. split.
    + intros [_ [H|(_ & repo & [<-|[]] & H)]]; discriminate H.
    + exists [IsAuthor], (Resolve None). split; [reflexivity|].
      split; [intros _; reflexivity|].
      split; [|right; reflexivity].
      left. split; [reflexivity|]. exists (js "org-a"). split; reflexivity.
Defined.

(** With the identity [{ id: 42, name: Alice A, username: alice }] and
    the filter Author: a Bitbucket pull-request query filters by the id, a
    GitHub one by the username, an AzureDevOps issue query by the name and
    a Bitbucket issue query by the username. *)
Lemma identity_field_by_provider_witness :
  (optFilters (Some (QueryOptions.mk (Some [PrAuthor]) None)) = Some [PrAuthor]
   /\ fst (getPullRequestsForRepos perRepoApi [0] Bitbucket (RepoInputs [r1])
             (Some (QueryOptions.mk (Some [PrAuthor]) None)))
      = [EvGetSession Bitbucket;
         EvGetCurrentUser Bitbucket;
         EvGetPullRequestsForRepo Bitbucket r1
           (GetPullRequestsOptions.mk (Some (js "42")) None None None None)]
   /\ exists resolved account value,
        currentUserOf perRepoApi Bitbucket (RepoInputs [r1]) resolved
        /\ resolved = Resolve (Some account)
        /\ ProviderAccount.id account = Some value
        /\ Forall (pullRequestSlots [PrAuthor] value)
             (fst (getPullRequestsForRepos perRepoApi [0] Bitbucket (RepoInputs [r1])
                     (Some (QueryOptions.mk (Some [PrAuthor]) None)))))
  /\ (fst (getPullRequestsForRepos perRepoApi [0] GitHub (RepoInputs [r1])
             (Some (QueryOptions.mk (Some [PrAuthor]) None)))
      = [EvGetSession GitHub;
         EvGetCurrentUser GitHub;
         EvGetPullRequestsForRepo GitHub r1
           (GetPullRequestsOptions.mk (Some (js "alice")) None None None None)]
      /\ exists resolved account value,
           currentUserOf perRepoApi GitHub (RepoInputs [r1]) resolved
           /\ resolved = Resolve (Some account)
           /\ ProviderAccount.username account = Some value
           /\ Forall (pullRequestSlots [PrAuthor] value)
                (fst (getPullRequestsForRepos perRepoApi [0] GitHub (RepoInputs [r1])
                        (Some (QueryOptions.mk (Some [PrAuthor]) None)))))
  /\ (fst (getIssuesForRepos perRepoApi [0] AzureDevOps (RepoInputs [repoA])
             (Some (QueryOptions.mk (Some [IsAuthor]) None)))
      = [EvGetSession AzureDevOps;
         EvGetCurrentUserForInstance AzureDevOps (js "org-a");
         EvGetIssuesForAzureProject (js "org-a") (js "proj")
           (GetIssuesOptions.mk (Some (js "Alice A")) None None None)]
      /\ exists resolved account value,
           currentUserOf perRepoApi AzureDevOps (RepoInputs [repoA]) resolved
           /\ resolved = Resolve (Some account)
           /\ ProviderAccount.name account = Some value
           /\ Forall (issueSlots [IsAuthor] value)
                (fst (getIssuesForRepos perRepoApi [0] AzureDevOps (RepoInputs [repoA])
                        (Some (QueryOptions.mk (Some [IsAuthor]) None)))))
  /\ (fst (getIssuesForRepos perRepoApi [0] Bitbucket (RepoInputs [r1])
             (Some (QueryOptions.mk (Some [IsAuthor]) None)))
      = [EvGetSession Bitbucket;
         EvGetCurrentUser Bitbucket;
         EvGetIssuesForRepo Bitbucket r1
           (GetIssuesOptions.mk (Some (js "alice")) None None None)]
      /\ exists resolved account value,
           currentUserOf perRepoApi Bitbucket (RepoInputs [r1]) resolved
           /\ resolved = Resolve (Some account)
           /\ ProviderAccount.username account = Some value
           /\ Forall (issueSlots [IsAuthor] value)
                (fst (getIssuesForRepos perRepoApi [0] Bitbucket (RepoInputs [r1])
                        (Some (QueryOptions.mk (Some [IsAuthor]) None))))).
Proof.
  split; [|split; [|split]].
  - split; [reflexivity|]. split; [reflexivity|].
    apply (proj1 (identity_field_by_provider perRepoApi [0] Bitbucket (RepoInputs [r1]))
             (Some (QueryOptions.mk (Some [PrAuthor]) None)) [PrAuthor] eq_refl).
    discriminate.
  - split; [reflexivity|].
    apply (proj1 (identity_field_by_provider perRepoApi [0] GitHub (RepoInputs [r1]))
             (Some (QueryOptions.mk (Some [PrAuthor]) None)) [PrAuthor] eq_refl).
    discriminate.
  - split; [reflexivity|].
    apply (proj2 (identity_field_by_provider perRepoApi [0] AzureDevOps
                    (RepoInputs [repoA]))
             (Some (QueryOptions.mk (Some [IsAuthor]) None)) [IsAuthor] eq_refl).
    discriminate.
  - split; [reflexivity|].
    apply (proj2 (identity_field_by_provider perRepoApi [0] Bitbucket (RepoInputs [r1]))
             (Some (QueryOptions.mk (Some [IsAuthor]) None)) [IsAuthor] eq_refl).
    discriminate.
Defined.



(** More shapes of the caller's cursor.  [{ cursors: 5 }] and
    [{ cursors: {} }] have no [length]: the input is queried, as without
    cursor.  [{ cursors: abc }] (a string) and [{ cursors: { length: 1 } }]
    have a [length] above zero and no [map]: the operation ends in the
    [catch] before any query.  An entry with members beyond the declared
    ones is resumed: the service reads [repo] and [cursor] and nothing
    else. *)
Lemma cursor_shapes :
  getPullRequestsForRepos perRepoApi [0] GitHub (RepoInputs [r2])
    (Some (QueryOptions.mk None
             (Some (stringify (JObj [(js "cursors", JNum (js "5"))])))))
  = getPullRequestsForRepos perRepoApi [0] GitHub (RepoInputs [r2]) None
  /\ getPullRequestsForRepos perRepoApi [0] GitHub (RepoInputs [r2])
       (Some (QueryOptions.mk None
                (Some (stringify (JObj [(js "cursors", JObj [])])))))
     = getPullRequestsForRepos perRepoApi [0] GitHub (RepoInputs [r2]) None
  /\ fst (getPullRequestsForRepos perRepoApi [0] GitHub (RepoInputs [r2]) None)
     = [EvGetSession GitHub;
        EvGetPullRequestsForRepo GitHub r2
          (GetPullRequestsOptions.mk None None None None None)]
  /\ getPullRequestsForRepos perRepoApi [0] GitHub (RepoInputs [r2])
       (Some (QueryOptions.mk None
                (Some (stringify (JObj [(js "cursors", JStr (js "abc"))])))))
     = ([EvGetSession GitHub], Undefined CursorUnusable)
  /\ getPullRequestsForRepos perRepoApi [0] GitHub (RepoInputs [r2])
       (Some (QueryOptions.mk None
                (Some (stringify
                         (JObj [(js "cursors",
                                 JObj [(js "length", JNum (js "1"))])])))))
     = ([EvGetSession GitHub], Undefined CursorUnusable)
  /\ fst (getPullRequestsForRepos perRepoApi [0] GitHub (RepoInputs [r2])
            (Some (QueryOptions.mk None
                     (Some (stringify
                              (JObj [(js "cursors",
                                      JArr [JObj [(js "note", JStr (js "x"));
                                                  (js "cursor", JStr (js "c1"));
                                                  (js "repo",
                                                   JObj [(js "name", JStr (js "r1"));
                                                         (js "private", JBool true);
                                                         (js "namespace",
                                                          JStr (js "ns"))])]])]))))))
     = [EvGetSession GitHub;
        EvGetPullRequestsForRepo GitHub r1
          (GetPullRequestsOptions.mk None None None None (Some (js "c1")))].
Proof.
  repeat split; vm_compute; reflexivity.
Qed.

Lemma pull_requests_without_filters_check_no_organization_witness :
  optFilters (F := PullRequestFilter) None = None
  /\ snd (getPullRequestsForRepos failingApi [1; 0] AzureDevOps
            (RepoInputs [repoA; ProviderRepoInput.mk (js "org-b") (js "r2")
                                  (Some (js "proj"))]) None)
     = Undefined ProviderCallFailed
  /\ (ProviderCallFailed = SessionUnavailable \/ ProviderCallFailed = UnsupportedInput
      \/ ProviderCallFailed = ProviderCallFailed \/ ProviderCallFailed = CursorUnusable).
Proof.
  assert (E : snd (getPullRequestsForRepos failingApi [1; 0] AzureDevOps
                     (RepoInputs [repoA; ProviderRepoInput.mk (js "org-b") (js "r2")
                                           (Some (js "proj"))]) None)
              = Undefined ProviderCallFailed) by reflexivity.
  split; [reflexivity|]. split; [exact E|].
  exact (pull_requests_without_filters_check_no_organization failingApi [1; 0]
           AzureDevOps _ None ProviderCallFailed eq_refl E).
Defined.
